(** * ACC SmartLink spa monitor: display decoder, state accumulator and
    collection session

    A shallow embedding of [src/spa-monitor.ts] (and of the [insertReading]
    interface of [src/database.ts]) together with the properties of the
    decoder, of the sticky status flags and of the bounded sampling session.

    Conventions of the embedding.
    - A JavaScript number that the program manipulates is an integer or NaN
      ([jsnum]); [undefined] and [null] are the [None] of an [option].
    - A JavaScript string is a [string]: a sequence of code units below 256.
      The [dsp] payload is documented as hexadecimal text, so this covers
      every frame the device sends.
    - The mutable [state] and [samples] objects of [collectReading] are
      owned by one session and are threaded explicitly through the
      handlers.
    - The [raw] field of [DisplayResult] (a space separated hex dump that is
      never read by the monitor) is not represented. *)

From Stdlib Require Import ZArith QArith List String Ascii Bool Lia.
From Stdlib Require Import Sorting.Sorted Sorting.Permutation.
From Stdlib Require Import Numbers.DecimalString.
From Stdlib Require Numbers.HexadecimalString.
Import ListNotations.

Local Open Scope string_scope.
Local Open Scope list_scope.
Local Open Scope Z_scope.

(** ** JavaScript primitives used by the monitor *)

Module JS.

(** A number: an integer, or NaN (the result of a failed [parseInt]). *)
Inductive jsnum : Type :=
| Num (z : Z)
| NaN.

(** [ToInt32] of a [number | undefined] operand of a bitwise operator:
    NaN and [undefined] become 0, an integer wraps to 32 bits, signed. *)
Definition ToInt32 (v : option jsnum) : Z :=
  match v with
  | Some (Num z) => (z + 2 ^ 31) mod 2 ^ 32 - 2 ^ 31
  | Some NaN | None => 0
  end.

(** [v & mask] *)
Definition bitand (v : option jsnum) (mask : Z) : Z :=
  Z.land (ToInt32 v) (ToInt32 (Some (Num mask))).

Definition code (c : ascii) : Z := Z.of_nat (nat_of_ascii c).

(** White space skipped by [parseInt] (the code units below 256). *)
Definition is_ws (c : ascii) : bool :=
  let n := code c in
  ((9 <=? n) && (n <=? 13)) || (n =? 32) || (n =? 160).

Definition hexval (c : ascii) : option Z :=
  let n := code c in
  if (48 <=? n) && (n <=? 57) then Some (n - 48)
  else if (97 <=? n) && (n <=? 102) then Some (n - 87)
  else if (65 <=? n) && (n <=? 70) then Some (n - 55)
  else None.

Fixpoint skip_ws (s : string) : string :=
  match s with
  | String c r => if is_ws c then skip_ws r else s
  | EmptyString => s
  end.

(** Value of the longest prefix of hexadecimal digits; [None] when that
    prefix is empty. *)
Fixpoint hex_prefix (acc : option Z) (s : string) : option Z :=
  match s with
  | String c r =>
      match hexval c with
      | Some d => hex_prefix (Some (16 * match acc with Some a => a | None => 0 end + d)) r
      | None => acc
      end
  | EmptyString => acc
  end.

(** [parseInt(s, 16)]: leading white space, an optional sign, an optional
    [0x] prefix, then the longest run of hex digits; NaN when there is
    none.  (The sign of a zero is not represented.) *)
Definition parseInt16 (s : string) : jsnum :=
  let s1 := skip_ws s in
  let '(sign, s2) :=
    match s1 with
    | String "-" r => (-1, r)
    | String "+" r => (1, r)
    | _ => (1, s1)
    end in
  let s3 :=
    match s2 with
    | String "0" (String x r) =>
        if Ascii.eqb x "x" || Ascii.eqb x "X" then r else s2
    | _ => s2
    end in
  match hex_prefix None s3 with
  | Some m => Num (sign * m)
  | None => NaN
  end.

(** [s.substring(i, j)] for [i <= j]. *)
Definition substring (s : string) (i j : nat) : string :=
  String.substring i (j - i) s.

Definition lower (c : ascii) : ascii :=
  let n := code c in
  if (65 <=? n) && (n <=? 90) then ascii_of_nat (nat_of_ascii c + 32) else c.

Definition upper (c : ascii) : ascii :=
  let n := code c in
  if (97 <=? n) && (n <=? 122) then ascii_of_nat (nat_of_ascii c - 32) else c.

(** [toLowerCase] / [toUpperCase] on the ASCII letters.  The monitor only
    compares the results with ASCII literals, and no code unit outside
    ASCII changes case into ASCII. *)
Fixpoint toLowerCase (s : string) : string :=
  match s with
  | String c r => String (lower c) (toLowerCase r)
  | EmptyString => EmptyString
  end.

Fixpoint toUpperCase (s : string) : string :=
  match s with
  | String c r => String (upper c) (toUpperCase r)
  | EmptyString => EmptyString
  end.

(** Decimal rendering of a non-negative integer ([n.toString()]). *)
Definition toString (n : Z) : string := NilZero.string_of_int (Z.to_int n).

(** [s.padStart(2, "0")] *)
Definition padStart2 (s : string) : string :=
  match s with
  | EmptyString => "00"
  | String c EmptyString => String "0" (String c EmptyString)
  | _ => s
  end.

End JS.
Import JS.

(** ** Constants (spa-monitor.ts, lines 14-80) *)

Definition SAMPLE_COUNT : nat := 3.
Definition MIN_VALID_TEMP : Z := 45.
Definition MAX_VALID_TEMP : Z := 106.

(** 7-segment digit encoding, keyed by the low seven bits. *)
Definition SEVEN_SEGMENT_DIGITS (masked : Z) : option Z :=
  match masked with
  | 0x00 => Some 0
  | 0x3f => Some 0
  | 0x06 => Some 1
  | 0x5b => Some 2
  | 0x4f => Some 3
  | 0x66 => Some 4
  | 0x6d => Some 5
  | 0x7d => Some 6
  | 0x07 => Some 7
  | 0x7f => Some 8
  | 0x6f => Some 9
  | _ => None
  end.

(** 7-segment letter patterns. *)
Definition SEVEN_SEGMENT_LETTERS (masked : Z) : option string :=
  match masked with
  | 0x79 => Some "E"
  | 0x39 => Some "C"
  | 0x5c => Some "o"
  | 0x54 => Some "n"
  | 0x71 => Some "F"
  | 0x76 => Some "H"
  | 0x38 => Some "L"
  | 0x3e => Some "U"
  | 0x73 => Some "P"
  | _ => None
  end.

Definition PATTERN_ECON : string := "545c3979".
Definition PATTERN_BLANK : string := "0000000000".

Definition STATUS_HEATING : Z := 0x01.
Definition STATUS_AUX_HI : Z := 0x02.
Definition STATUS_JETS_LO : Z := 0x04.
Definition STATUS_JETS_HI : Z := 0x08.
Definition STATUS_FILTERING : Z := 0x10.
Definition STATUS_EDIT : Z := 0x20.
Definition STATUS_OVERHEAT : Z := 0x40.
Definition STATUS_AM : Z := 0x80.

Definition STATUS2_LIGHT : Z := 0x10.
Definition STATUS2_JETS2_HI : Z := 0x20.
Definition STATUS2_JETS2_LO : Z := 0x40.
Definition STATUS2_AUX_LO : Z := 0x80.

(** ** Decoded display frames *)

Inductive DisplayType : Type :=
| ty_temp | ty_time | ty_eco | ty_blank | ty_heating | ty_unknown.

(** [statusByte1] / [statusByte2] are [None] when the property is absent or
    [undefined]. *)
Record DisplayResult : Type := mkDisplay {
  type : DisplayType;
  value : string;
  temp : option Z;
  statusByte1 : option jsnum;
  statusByte2 : option jsnum
}.

Definition decodeDigit (byte : option jsnum) : option Z :=
  let masked := bitand byte 0x7f in
  SEVEN_SEGMENT_DIGITS masked.

Definition decodeLetter (byte : option jsnum) : option string :=
  let masked := bitand byte 0x7f in
  SEVEN_SEGMENT_LETTERS masked.

(** The loop of lines 117-120: one [parseInt] per two characters, the last
    chunk holding one character when the length is odd. *)
Fixpoint hexBytes (hexString : string) : list jsnum :=
  match hexString with
  | EmptyString => []
  | String a EmptyString => [parseInt16 (String a EmptyString)]
  | String a (String b r) =>
      parseInt16 (String a (String b EmptyString)) :: hexBytes r
  end.

(** [bytes.slice(0, 4).map(decodeLetter).filter(l => l !== null)] *)
Fixpoint decodedLetters (bs : list jsnum) : list string :=
  match bs with
  | [] => []
  | b :: r =>
      match decodeLetter (Some b) with
      | Some l => l :: decodedLetters r
      | None => decodedLetters r
      end
  end.

Definition MODE_WORDS : list string := ["HI"; "LO"; "ON"; "OFF"; "ECO"].

Definition degreesF (t : Z) : string :=
  (toString t ++ String (ascii_of_nat 176) "F")%string.

(** [parseDisplayData] (lines 116-180).  The early returns of the source
    are the branches of nested conditionals, in the source's order; the
    code that follows the temperature block (lines 164-179) is named
    [fallthrough] because three paths of the temperature block reach it. *)
Definition parseDisplayData (hexString : string) : DisplayResult :=
  let bytes := hexBytes hexString in
  let at_ (i : nat) : option jsnum := nth_error bytes i in
  let prefix := toLowerCase (JS.substring hexString 0 10) in
  (* lines 125-127 *)
  if (prefix =? PATTERN_BLANK)%string || (hexString =? "000000000010")%string then
    mkDisplay ty_blank "" None None None
  (* lines 129-131 *)
  else if (toLowerCase (JS.substring hexString 0 8) =? toLowerCase PATTERN_ECON)%string then
    mkDisplay ty_eco "ECOn" None (at_ 4%nat) (at_ 5%nat)
  else
    (* lines 133-139 *)
    let letters := decodedLetters (firstn 4 bytes) in
    let text := String.concat "" (rev letters) in
    if (2 <=? List.length letters)%nat
       && existsb (String.eqb (toUpperCase text)) MODE_WORDS then
      mkDisplay ty_unknown text None None None
    else
      let statusByte1 := at_ 4%nat in
      let statusByte2 := at_ 5%nat in
      (* lines 164-179 *)
      let fallthrough :=
        let d0 := decodeDigit (at_ 0%nat) in
        let d1 := decodeDigit (at_ 1%nat) in
        let d2 := decodeDigit (at_ 2%nat) in
        let d3 := decodeDigit (at_ 3%nat) in
        match d0, d1, d2 with
        | Some d0, Some d1, Some d2 =>
            let minutes := d1 * 10 + d0 in
            let hours :=
              (match d3 with
               | Some d3 => if 0 <? d3 then d3 * 10 else 0
               | None => 0
               end) + d2 in
            let amPm :=
              if negb (bitand statusByte1 STATUS_AM =? 0) then " AM" else "" in
            let timeStr :=
              (toString hours ++ ":" ++ padStart2 (toString minutes) ++ amPm)%string in
            mkDisplay ty_time timeStr None statusByte1 statusByte2
        | _, _, _ =>
            mkDisplay ty_unknown hexString None statusByte1 statusByte2
        end in
      (* lines 141-162 *)
      if bitand (at_ 0%nat) 0x7f =? 0x71 then
        let hundredsDigit := decodeDigit (at_ 3%nat) in
        let tensDigit := decodeDigit (at_ 2%nat) in
        let onesDigit := decodeDigit (at_ 1%nat) in
        let twoDigit :=
          match tensDigit, onesDigit with
          | Some tensDigit, Some onesDigit =>
              let temp := tensDigit * 10 + onesDigit in
              if (MIN_VALID_TEMP <=? temp) && (temp <=? 99) then
                mkDisplay ty_temp (degreesF temp) (Some temp) statusByte1 statusByte2
              else fallthrough
          | _, _ => fallthrough
          end in
        match hundredsDigit, tensDigit, onesDigit with
        | Some 1, Some tensDigit, Some onesDigit =>
            let temp := 100 + tensDigit * 10 + onesDigit in
            if (100 <=? temp) && (temp <=? MAX_VALID_TEMP) then
              mkDisplay ty_temp (degreesF temp) (Some temp) statusByte1 statusByte2
            else twoDigit
        | _, _, _ => twoDigit
        end
      else fallthrough.

(** ** State accumulator (lines 82-96, 182-204) *)

Record CollectionState : Type := mkState {
  currentTemp : option Z;
  heating : bool;
  auxHi : bool;
  jetsLo : bool;
  jetsHi : bool;
  filtering : bool;
  lightOn : bool;
  edit : bool;
  overheat : bool;
  jets2Hi : bool;
  jets2Lo : bool;
  auxLo : bool;
  lastStatusByte1 : option jsnum
}.

(** [(byte & mask) !== 0] *)
Definition bitSet (byte : jsnum) (mask : Z) : bool :=
  negb (bitand (Some byte) mask =? 0).

(** The three guarded blocks of [updateStateFromDisplay], in order.  The
    function mutates its [state] argument; here it returns the new state. *)
Definition updateStateFromDisplay (display : DisplayResult) (state : CollectionState)
  : CollectionState :=
  let state :=
    match statusByte1 display with
    | Some b1 =>
        {| currentTemp := currentTemp state;
           heating := bitSet b1 STATUS_HEATING;
           auxHi := bitSet b1 STATUS_AUX_HI;
           jetsLo := bitSet b1 STATUS_JETS_LO;
           jetsHi := bitSet b1 STATUS_JETS_HI;
           filtering := bitSet b1 STATUS_FILTERING;
           lightOn := lightOn state;
           edit := bitSet b1 STATUS_EDIT;
           overheat := bitSet b1 STATUS_OVERHEAT;
           jets2Hi := jets2Hi state;
           jets2Lo := jets2Lo state;
           auxLo := auxLo state;
           lastStatusByte1 := Some b1 |}
    | None => state
    end in
  let state :=
    match statusByte2 display with
    | Some b2 =>
        {| currentTemp := currentTemp state;
           heating := heating state;
           auxHi := auxHi state;
           jetsLo := jetsLo state;
           jetsHi := jetsHi state;
           filtering := filtering state;
           lightOn := bitSet b2 STATUS2_LIGHT;
           edit := edit state;
           overheat := overheat state;
           jets2Hi := bitSet b2 STATUS2_JETS2_HI;
           jets2Lo := bitSet b2 STATUS2_JETS2_LO;
           auxLo := bitSet b2 STATUS2_AUX_LO;
           lastStatusByte1 := lastStatusByte1 state |}
    | None => state
    end in
  match type display, temp display with
  | ty_temp, Some t =>
      {| currentTemp := Some t;
         heating := heating state;
         auxHi := auxHi state;
         jetsLo := jetsLo state;
         jetsHi := jetsHi state;
         filtering := filtering state;
         lightOn := lightOn state;
         edit := edit state;
         overheat := overheat state;
         jets2Hi := jets2Hi state;
         jets2Lo := jets2Lo state;
         auxLo := auxLo state;
         lastStatusByte1 := lastStatusByte1 state |}
  | _, _ => state
  end.

(** ** Median (lines 206-213) *)

(** [[...values].sort((a, b) => a - b)]: ascending numeric order. *)
Fixpoint insert_asc (x : Z) (l : list Z) : list Z :=
  match l with
  | [] => [x]
  | y :: r => if x <=? y then x :: l else y :: insert_asc x r
  end.

Fixpoint sort_asc (l : list Z) : list Z :=
  match l with
  | [] => []
  | x :: r => insert_asc x (sort_asc r)
  end.

(** Samples are integers; the mean of two of them is an exact rational,
    kept in lowest terms so that equal numbers are equal terms.  This is
    the number that the double-precision addition and halving of the
    source return as long as the values are integers of magnitude at most
    2^52 (beyond that range the source rounds); the decoder only produces
    samples between 45 and 106. *)
Definition mean2 (a b : Z) : Q := Qred ((inject_Z a + inject_Z b) / inject_Z 2).

Definition median (values : list Z) : option Q :=
  if (List.length values =? 0)%nat then None
  else
    let sorted := sort_asc values in
    let mid := (List.length sorted / 2)%nat in
    if negb (List.length sorted mod 2 =? 0)%nat
    then Some (inject_Z (nth mid sorted 0))
    else Some (mean2 (nth (mid - 1) sorted 0) (nth mid sorted 0)).

(** ** Storage interface (database.ts, [insertReading]) *)

Module DB.

(** The row handed to the prepared statement, without its [Date.now()]
    key.  The object literal built by [writeReading] and the separate
    [am] argument are its columns. *)
Record Reading : Type := mkReading {
  temperature : option Q;
  heating : bool;
  jetsLo : bool;
  jetsHi : bool;
  auxHi : bool;
  filtering : bool;
  lightOn : bool;
  edit : bool;
  am : bool;
  overheat : bool;
  jets2Hi : bool;
  jets2Lo : bool;
  auxLo : bool
}.

(** The calls of [insertReading] made so far, oldest first. *)
Definition log : Type := list Reading.

Definition insertReading (row : Reading) (db : log) : log := db ++ [row].

End DB.

(** ** Collection session (lines 218-328) *)

Inductive Settlement : Type := Pending | Resolved | Rejected.

(** Everything the callbacks of one [collectReading] call share: the two
    captured objects, the timer handle, the socket and the promise; and the
    storage they write to. *)
Record Session : Type := mkSession {
  samples : list Z;
  state : CollectionState;
  timeoutPending : bool;
  closeCalls : nat;
  promise : Settlement;
  db : DB.log
}.

Definition initialState : CollectionState :=
  {| currentTemp := None;
     heating := false; auxHi := false; jetsLo := false; jetsHi := false;
     filtering := false; lightOn := false; edit := false; overheat := false;
     jets2Hi := false; jets2Lo := false; auxLo := false;
     lastStatusByte1 := None |}.

(** The session right after the promise executor has run: nothing
    collected, the 30 second timer armed. *)
Definition initialSession (db0 : DB.log) : Session :=
  {| samples := []; state := initialState; timeoutPending := true;
     closeCalls := 0; promise := Pending; db := db0 |}.

(** [writeReading] (lines 306-328). *)
Definition writeReading (samples : list Z) (state : CollectionState) (db : DB.log)
  : DB.log :=
  let temp := median samples in
  let am :=
    match lastStatusByte1 state with
    | Some b => bitSet b STATUS_AM
    | None => false
    end in
  DB.insertReading
    {| DB.temperature := temp;
       DB.heating := heating state;
       DB.jetsLo := jetsLo state;
       DB.jetsHi := jetsHi state;
       DB.auxHi := auxHi state;
       DB.filtering := filtering state;
       DB.lightOn := lightOn state;
       DB.edit := edit state;
       DB.am := am;
       DB.overheat := overheat state;
       DB.jets2Hi := jets2Hi state;
       DB.jets2Lo := jets2Lo state;
       DB.auxLo := auxLo state |} db.

(** Effects of the callbacks on the shared session. *)
Definition clearTimeout (s : Session) : Session :=
  {| samples := samples s; state := state s; timeoutPending := false;
     closeCalls := closeCalls s; promise := promise s; db := db s |}.

Definition wsClose (s : Session) : Session :=
  {| samples := samples s; state := state s; timeoutPending := timeoutPending s;
     closeCalls := S (closeCalls s); promise := promise s; db := db s |}.

(** A promise settles once; later [resolve] / [reject] calls do nothing. *)
Definition settle (how : Settlement) (s : Session) : Session :=
  {| samples := samples s; state := state s; timeoutPending := timeoutPending s;
     closeCalls := closeCalls s;
     promise := match promise s with Pending => how | p => p end;
     db := db s |}.

Definition doWriteReading (s : Session) : Session :=
  {| samples := samples s; state := state s; timeoutPending := timeoutPending s;
     closeCalls := closeCalls s; promise := promise s;
     db := writeReading (samples s) (state s) (db s) |}.

(** What [JSON.parse(message)] and the test [parsed.dsp] can yield.  Only a
    non-empty string reaches the decoder: a payload that is not JSON, a
    JSON [null], or a truthy [dsp] that is not a string raises inside the
    [try] block before any update and is swallowed by the [catch]. *)
Inductive Message : Type :=
| NotJson
| NoDsp
| DspOther
| Dsp (dspData : string).

(** The [message] callback (lines 260-291). *)
Definition onMessage (m : Message) (s : Session) : Session :=
  match m with
  | Dsp dspData =>
      if (dspData =? "")%string then s
      else
        let dspData :=
          if (String.length dspData =? 10)%nat then (dspData ++ "00")%string
          else dspData in
        let display := parseDisplayData dspData in
        let s :=
          {| samples := samples s;
             state := updateStateFromDisplay display (state s);
             timeoutPending := timeoutPending s; closeCalls := closeCalls s;
             promise := promise s; db := db s |} in
        match type display, temp display with
        | ty_temp, Some t =>
            let s :=
              {| samples := samples s ++ [t]; state := state s;
                 timeoutPending := timeoutPending s; closeCalls := closeCalls s;
                 promise := promise s; db := db s |} in
            if (SAMPLE_COUNT <=? List.length (samples s))%nat then
              settle Resolved (doWriteReading (wsClose (clearTimeout s)))
            else s
        | _, _ => s
        end
  | NotJson | NoDsp | DspOther => s
  end.

(** The timer callback (lines 246-254); it runs at most once and only
    while the timer has not been cleared. *)
Definition onTimeout (s : Session) : Session :=
  if timeoutPending s then
    let s := wsClose (clearTimeout s) in
    let s := if (0 <? List.length (samples s))%nat then doWriteReading s else s in
    settle Resolved s
  else s.

(** The [close] and [error] callbacks (lines 293-302). *)
Definition onClose (s : Session) : Session := settle Resolved (clearTimeout s).

Definition onError (s : Session) : Session := settle Rejected (clearTimeout s).

Inductive Event : Type :=
| EvOpen
| EvMessage (m : Message)
| EvTimeout
| EvClose
| EvError.

Definition handle (s : Session) (e : Event) : Session :=
  match e with
  | EvOpen => s
  | EvMessage m => onMessage m s
  | EvTimeout => onTimeout s
  | EvClose => onClose s
  | EvError => onError s
  end.

(** One session driven by the events the runtime delivers, in order. *)
Definition collectReading (events : list Event) (db0 : DB.log) : Session :=
  fold_left handle events (initialSession db0).

(** ** Vocabulary of the statements *)

(** The boolean flags of a state, in declaration order. *)
Definition flagsOf (s : CollectionState) : list bool :=
  [heating s; auxHi s; jetsLo s; jetsHi s; filtering s; lightOn s; edit s;
   overheat s; jets2Hi s; jets2Lo s; auxLo s].

(** The range of the letter table. *)
Definition LETTERS : list string := ["E"; "C"; "o"; "n"; "F"; "H"; "L"; "U"; "P"].

(** The result object of the two accepting returns of the temperature
    step (lines 152 and 159), for status bytes [b4] and [b5]. *)
Definition temperatureFrame (b4 b5 : jsnum) (t : Z) : DisplayResult :=
  mkDisplay ty_temp (degreesF t) (Some t) (Some b4) (Some b5).

(** The frame a message hands to [parseDisplayData] and
    [updateStateFromDisplay], if any: the [dsp] string, padded with [00]
    when it has ten characters (lines 265-271). *)
Definition frameOf (m : Message) : option DisplayResult :=
  match m with
  | Dsp dspData =>
      if (dspData =? "")%string then None
      else Some (parseDisplayData
                   (if (String.length dspData =? 10)%nat
                    then (dspData ++ "00")%string else dspData))
  | NotJson | NoDsp | DspOther => None
  end.

(** The temperature sample an event contributes, if any (line 275). *)
Definition sampleOf (e : Event) : option Z :=
  match e with
  | EvMessage m =>
      match frameOf m with
      | Some display =>
          match type display, temp display with
          | ty_temp, Some t => Some t
          | _, _ => None
          end
      | None => None
      end
  | _ => None
  end.

Fixpoint samplesOf (events : list Event) : list Z :=
  match events with
  | [] => []
  | e :: r =>
      match sampleOf e with
      | Some t => t :: samplesOf r
      | None => samplesOf r
      end
  end.

(** Events of a session that is still collecting: the socket opens and
    delivers messages; the timer has not fired and the transport has
    neither closed nor failed. *)
Definition isFrame (e : Event) : bool :=
  match e with
  | EvOpen | EvMessage _ => true
  | EvTimeout | EvClose | EvError => false
  end.

(** No frame of the events carries status byte A. *)
Definition noStatusA (e : Event) : bool :=
  match e with
  | EvMessage m =>
      match frameOf m with
      | Some display =>
          match statusByte1 display with None => true | Some _ => false end
      | None => true
      end
  | _ => true
  end.

(** What holds of a session while and after it collects, relative to the
    storage [db0] it started from: as long as the promise is pending the
    timer is armed, nothing has been stored and fewer than [SAMPLE_COUNT]
    samples are held; once the promise is settled the timer is off. *)
Definition sessionInvariant (db0 : DB.log) (s : Session) : Prop :=
  (promise s = Pending ->
   db s = db0 /\ timeoutPending s = true
   /\ (List.length (samples s) < SAMPLE_COUNT)%nat) /\
  (promise s <> Pending -> timeoutPending s = false).

(** Lower-case hexadecimal text of a frame given as bytes, the form in
    which the device sends it. *)
Definition hexDigit (n : Z) : ascii :=
  nth (Z.to_nat n) (list_ascii_of_string "0123456789abcdef") "0"%char.

Definition hex2 (b : Z) : string :=
  String (hexDigit (b / 16)) (String (hexDigit (b mod 16)) EmptyString).

Fixpoint frameHex (bytes : list Z) : string :=
  match bytes with
  | [] => EmptyString
  | b :: r => (hex2 b ++ frameHex r)%string
  end.

(** The keys of the digit table. *)
Definition DIGIT_KEYS : list Z :=
  [0x00; 0x3f; 0x06; 0x5b; 0x4f; 0x66; 0x6d; 0x7d; 0x07; 0x7f; 0x6f].

(** The keys of the letter table. *)
Definition LETTER_KEYS : list Z :=
  [0x79; 0x39; 0x5c; 0x54; 0x71; 0x76; 0x38; 0x3e; 0x73].

(** The text of the time return (lines 172-175) for minute digits [d0]
    (ones) and [d1] (tens), hour digits [d2] (ones) and [d3] (tens, when
    it decodes) and status byte [statusByte1]. *)
Definition timeText (d0 d1 d2 : Z) (d3 : option Z) (statusByte1 : option jsnum)
  : string :=
  let minutes := d1 * 10 + d0 in
  let hours :=
    (match d3 with
     | Some d3 => if 0 <? d3 then d3 * 10 else 0
     | None => 0
     end) + d2 in
  let amPm := if negb (bitand statusByte1 STATUS_AM =? 0) then " AM" else "" in
  (toString hours ++ ":" ++ padStart2 (toString minutes) ++ amPm)%string.

(** The four flags driven by status byte B. *)
Definition flagsB (s : CollectionState) : list bool :=
  [lightOn s; jets2Hi s; jets2Lo s; auxLo s].

(** The most recent sample of a list of samples, if any. *)
Definition lastSample (l : list Z) : option Z :=
  match rev l with
  | [] => None
  | t :: _ => Some t
  end.

(** ** One collection cycle (spa-monitor.ts, lines 330-336) *)

(** How [runCollection] ends for a session driven by the events: the
    [await] returns, or it throws and the [catch] logs "Collection
    failed", or the promise is still pending and the function has not
    returned. *)
Inductive CycleOutcome : Type :=
| Completed
| FailedAndLogged
| StillWaiting.

Definition runCollection (events : list Event) (db0 : DB.log) : CycleOutcome :=
  match promise (collectReading events db0) with
  | Resolved => Completed
  | Rejected => FailedAndLogged
  | Pending => StillWaiting
  end.

(** ** Storage (database.ts) *)

Module Database.

(** The table [readings] and the three prepared statements. *)
Module Sql.

(** One row: the primary key [timestamp] and the thirteen columns, in
    the order of the CREATE TABLE statement (lines 13-29). *)
Record Row : Type := mkRow {
  timestamp : Z;
  temperature : option Q;
  heating : Z;
  jets_lo : Z;
  jets_hi : Z;
  aux_hi : Z;
  filtering : Z;
  light_on : Z;
  edit : Z;
  am : Z;
  overheat : Z;
  jets2_hi : Z;
  jets2_lo : Z;
  aux_lo : Z
}.

(** The rows of the table; no two of them have the same key once they
    were put there by [insertStmt]. *)
Definition Table : Type := list Row.

(** [INSERT OR REPLACE INTO readings (...) VALUES (...)] (lines 86-89): a
    row with the same primary key is replaced. *)
Definition insertStmt (row : Row) (table : Table) : Table :=
  row :: filter (fun r => negb (timestamp r =? timestamp row)) table.

(** [ORDER BY timestamp ASC] *)
Fixpoint insertByTimestamp (row : Row) (rows : list Row) : list Row :=
  match rows with
  | [] => [row]
  | r :: rest =>
      if timestamp row <=? timestamp r then row :: rows
      else r :: insertByTimestamp row rest
  end.

Fixpoint orderByTimestamp (rows : list Row) : list Row :=
  match rows with
  | [] => []
  | r :: rest => insertByTimestamp r (orderByTimestamp rest)
  end.

(** [SELECT ... WHERE timestamp >= ? AND timestamp <= ? ORDER BY timestamp
    ASC], run with [.all] (lines 91-96). *)
Definition getReadingsStmt (fromTimestamp toTimestamp : Z) (table : Table)
  : list Row :=
  orderByTimestamp
    (filter (fun r => (fromTimestamp <=? timestamp r) && (timestamp r <=? toTimestamp))
       table).

(** [SELECT ... ORDER BY timestamp DESC LIMIT 1], run with [.get]
    (lines 98-103): the first row of the descending order, [undefined]
    when there is none. *)
Definition getLatestStmt (table : Table) : option Row :=
  hd_error (rev (orderByTimestamp table)).

End Sql.

(** The interface [Reading] (lines 52-67). *)
Record Reading : Type := mkReading {
  timestamp : Z;
  temperature : option Q;
  heating : bool;
  jetsLo : bool;
  jetsHi : bool;
  auxHi : bool;
  filtering : bool;
  lightOn : bool;
  edit : bool;
  am : bool;
  overheat : bool;
  jets2Hi : bool;
  jets2Lo : bool;
  auxLo : bool
}.

(** [flag ? 1 : 0] *)
Definition toBit (flag : bool) : Z := if flag then 1 else 0.

(** [insertReading(state, am)] (lines 108-126), at the instant [now]
    that [Date.now()] returns.  [DB.Reading] holds the properties of
    [state] together with [am]. *)
Definition insertReading (now : Z) (state : DB.Reading) (table : Sql.Table)
  : Sql.Table :=
  let timestamp := now in
  Sql.insertStmt
    {| Sql.timestamp := timestamp;
       Sql.temperature := DB.temperature state;
       Sql.heating := toBit (DB.heating state);
       Sql.jets_lo := toBit (DB.jetsLo state);
       Sql.jets_hi := toBit (DB.jetsHi state);
       Sql.aux_hi := toBit (DB.auxHi state);
       Sql.filtering := toBit (DB.filtering state);
       Sql.light_on := toBit (DB.lightOn state);
       Sql.edit := toBit (DB.edit state);
       Sql.am := toBit (DB.am state);
       Sql.overheat := toBit (DB.overheat state);
       Sql.jets2_hi := toBit (DB.jets2Hi state);
       Sql.jets2_lo := toBit (DB.jets2Lo state);
       Sql.aux_lo := toBit (DB.auxLo state) |} table.

(** The object built from a row by [getReadings] and [getLatestReading]
    (lines 149-164 and 217-232). *)
Definition readingOfRow (row : Sql.Row) : Reading :=
  {| timestamp := Sql.timestamp row;
     temperature := Sql.temperature row;
     heating := Sql.heating row =? 1;
     jetsLo := Sql.jets_lo row =? 1;
     jetsHi := Sql.jets_hi row =? 1;
     auxHi := Sql.aux_hi row =? 1;
     filtering := Sql.filtering row =? 1;
     lightOn := Sql.light_on row =? 1;
     edit := Sql.edit row =? 1;
     am := Sql.am row =? 1;
     overheat := Sql.overheat row =? 1;
     jets2Hi := Sql.jets2_hi row =? 1;
     jets2Lo := Sql.jets2_lo row =? 1;
     auxLo := Sql.aux_lo row =? 1 |}.

Definition getReadings (fromTimestamp toTimestamp : Z) (table : Sql.Table)
  : list Reading :=
  let rows := Sql.getReadingsStmt fromTimestamp toTimestamp table in
  map readingOfRow rows.

(** [getReadingsForRange(range)] (lines 170-192), at the instant [now]. *)
Definition getReadingsForRange (range : string) (now : Z) (table : Sql.Table)
  : list Reading :=
  let fromTimestamp :=
    if (range =? "1h")%string then now - 60 * 60 * 1000
    else if (range =? "24h")%string then now - 24 * 60 * 60 * 1000
    else if (range =? "7d")%string then now - 7 * 24 * 60 * 60 * 1000
    else if (range =? "30d")%string then now - 30 * 24 * 60 * 60 * 1000
    else now - 24 * 60 * 60 * 1000 in
  getReadings fromTimestamp now table.

(** [getLatestReading()] (lines 197-233); [None] is [null]. *)
Definition getLatestReading (table : Sql.Table) : option Reading :=
  match Sql.getLatestStmt table with
  | None => None
  | Some row => Some (readingOfRow row)
  end.

End Database.

(** ** Dashboard API (server.ts) *)

Module Server.

(** What [req.query.range] can be: missing, a string, or a value that
    is not a string (an array or a nested object). *)
Inductive QueryValue : Type :=
| QAbsent
| QString (s : string)
| QOther.

(** What a handler sends: [res.json(body)] with status 200, or
    [res.status(code).json({ error })]. *)
Inductive Response (A : Type) : Type :=
| Json (body : A)
| Failure (status : Z) (error : string).

Arguments Json {A} body.
Arguments Failure {A} status error.

Definition validRanges : list string := ["1h"; "24h"; "7d"; "30d"].

(** [GET /api/readings] (lines 12-23), at the instant [now]. *)
Definition apiReadings (query : QueryValue) (now : Z) (table : Database.Sql.Table)
  : Response (list Database.Reading) :=
  match
    (* [(req.query.range as string) || "24h"] *)
    match query with
    | QAbsent => Some "24h"
    | QString s => if (s =? "")%string then Some "24h" else Some s
    | QOther => None
    end
  with
  | Some range =>
      if negb (existsb (String.eqb range) validRanges)
      then Failure 400 "Invalid range. Use: 1h, 24h, 7d, 30d"
      else Json (Database.getReadingsForRange range now table)
  | None =>
      (* a value that is not a string is not in [validRanges] *)
      Failure 400 "Invalid range. Use: 1h, 24h, 7d, 30d"
  end.

(** [GET /api/current] (lines 26-33). *)
Definition apiCurrent (table : Database.Sql.Table) : Response Database.Reading :=
  match Database.getLatestReading table with
  | Some latest => Json latest
  | None => Failure 404 "No readings available"
  end.

End Server.

(** The Reading that the queries return for what [insertReading] stored
    at the instant [now]. *)
Definition storedAs (now : Z) (state : DB.Reading) : Database.Reading :=
  {| Database.timestamp := now;
     Database.temperature := DB.temperature state;
     Database.heating := DB.heating state;
     Database.jetsLo := DB.jetsLo state;
     Database.jetsHi := DB.jetsHi state;
     Database.auxHi := DB.auxHi state;
     Database.filtering := DB.filtering state;
     Database.lightOn := DB.lightOn state;
     Database.edit := DB.edit state;
     Database.am := DB.am state;
     Database.overheat := DB.overheat state;
     Database.jets2Hi := DB.jets2Hi state;
     Database.jets2Lo := DB.jets2Lo state;
     Database.auxLo := DB.auxLo state |}.

(** The length in milliseconds of the window that
    [getReadingsForRange] uses for a range. *)
Definition windowOf (range : string) : Z :=
  if (range =? "1h")%string then 3600000
  else if (range =? "7d")%string then 604800000
  else if (range =? "30d")%string then 2592000000
  else 86400000.

(** The keys of a table. *)
Definition keysOf (table : Database.Sql.Table) : list Z :=
  map Database.Sql.timestamp table.

(** The order of two rows by their keys. *)
Definition byTimestamp (a b : Database.Sql.Row) : Prop :=
  Database.Sql.timestamp a <= Database.Sql.timestamp b.

(** ** Stand-alone listener (part_000)

    The logging client: it keeps one connection open, decodes every
    message with the same [parseDisplayData], tracks the state in a
    module-level object and writes one log line per message.  Log lines
    are represented by their content, without the time stamp and the raw
    message text that [log] puts in front. *)

Module Listener.

Definition RECONNECT_DELAY_MS : Z := 5000.

Definition STATUS_SET_MODE : Z := 0x20.

(** The interface [SpaState] (lines 76-90); [lastTempUpdate] holds the
    instant of the [Date]. *)
Record SpaState : Type := mkSpaState {
  currentTemp : option Z;
  lastTempUpdate : option Z;
  ecoMode : bool;
  lightOn : bool;
  heating : bool;
  auxHi : bool;
  jetsLo : bool;
  jetsHi : bool;
  filtering : bool;
  setMode : bool;
  lastStatusByte1 : option jsnum;
  lastStatusByte2 : option jsnum;
  stsI : option Z
}.

(** The initial value of [state] (lines 94-108). *)
Definition initialState : SpaState :=
  {| currentTemp := None; lastTempUpdate := None; ecoMode := false;
     lightOn := false; heating := false; auxHi := false; jetsLo := false;
     jetsHi := false; filtering := false; setMode := false;
     lastStatusByte1 := None; lastStatusByte2 := None; stsI := None |}.

(** Assignments to one property of [state]. *)
Definition set_currentTemp (t : Z) (now : Z) (s : SpaState) : SpaState :=
  mkSpaState (Some t) (Some now) (ecoMode s) (lightOn s) (heating s) (auxHi s)
    (jetsLo s) (jetsHi s) (filtering s) (setMode s) (lastStatusByte1 s)
    (lastStatusByte2 s) (stsI s).

Definition set_ecoMode (v : bool) (s : SpaState) : SpaState :=
  mkSpaState (currentTemp s) (lastTempUpdate s) v (lightOn s) (heating s) (auxHi s)
    (jetsLo s) (jetsHi s) (filtering s) (setMode s) (lastStatusByte1 s)
    (lastStatusByte2 s) (stsI s).

Definition set_lightOn (v : bool) (s : SpaState) : SpaState :=
  mkSpaState (currentTemp s) (lastTempUpdate s) (ecoMode s) v (heating s) (auxHi s)
    (jetsLo s) (jetsHi s) (filtering s) (setMode s) (lastStatusByte1 s)
    (lastStatusByte2 s) (stsI s).

Definition set_heating (v : bool) (s : SpaState) : SpaState :=
  mkSpaState (currentTemp s) (lastTempUpdate s) (ecoMode s) (lightOn s) v (auxHi s)
    (jetsLo s) (jetsHi s) (filtering s) (setMode s) (lastStatusByte1 s)
    (lastStatusByte2 s) (stsI s).

Definition set_auxHi (v : bool) (s : SpaState) : SpaState :=
  mkSpaState (currentTemp s) (lastTempUpdate s) (ecoMode s) (lightOn s) (heating s) v
    (jetsLo s) (jetsHi s) (filtering s) (setMode s) (lastStatusByte1 s)
    (lastStatusByte2 s) (stsI s).

Definition set_jetsLo (v : bool) (s : SpaState) : SpaState :=
  mkSpaState (currentTemp s) (lastTempUpdate s) (ecoMode s) (lightOn s) (heating s)
    (auxHi s) v (jetsHi s) (filtering s) (setMode s) (lastStatusByte1 s)
    (lastStatusByte2 s) (stsI s).

Definition set_jetsHi (v : bool) (s : SpaState) : SpaState :=
  mkSpaState (currentTemp s) (lastTempUpdate s) (ecoMode s) (lightOn s) (heating s)
    (auxHi s) (jetsLo s) v (filtering s) (setMode s) (lastStatusByte1 s)
    (lastStatusByte2 s) (stsI s).

Definition set_filtering (v : bool) (s : SpaState) : SpaState :=
  mkSpaState (currentTemp s) (lastTempUpdate s) (ecoMode s) (lightOn s) (heating s)
    (auxHi s) (jetsLo s) (jetsHi s) v (setMode s) (lastStatusByte1 s)
    (lastStatusByte2 s) (stsI s).

Definition set_setMode (v : bool) (s : SpaState) : SpaState :=
  mkSpaState (currentTemp s) (lastTempUpdate s) (ecoMode s) (lightOn s) (heating s)
    (auxHi s) (jetsLo s) (jetsHi s) (filtering s) v (lastStatusByte1 s)
    (lastStatusByte2 s) (stsI s).

Definition set_lastStatusByte1 (v : jsnum) (s : SpaState) : SpaState :=
  mkSpaState (currentTemp s) (lastTempUpdate s) (ecoMode s) (lightOn s) (heating s)
    (auxHi s) (jetsLo s) (jetsHi s) (filtering s) (setMode s) (Some v)
    (lastStatusByte2 s) (stsI s).

Definition set_lastStatusByte2 (v : jsnum) (s : SpaState) : SpaState :=
  mkSpaState (currentTemp s) (lastTempUpdate s) (ecoMode s) (lightOn s) (heating s)
    (auxHi s) (jetsLo s) (jetsHi s) (filtering s) (setMode s) (lastStatusByte1 s)
    (Some v) (stsI s).

Definition set_stsI (v : Z) (s : SpaState) : SpaState :=
  mkSpaState (currentTemp s) (lastTempUpdate s) (ecoMode s) (lightOn s) (heating s)
    (auxHi s) (jetsLo s) (jetsHi s) (filtering s) (setMode s) (lastStatusByte1 s)
    (lastStatusByte2 s) (Some v).

(** [byte !== last] for a number and a [number | null]: NaN differs from
    everything, a number differs from null. *)
Definition differs (byte : jsnum) (last : option jsnum) : bool :=
  match byte, last with
  | Num a, Some (Num b) => negb (a =? b)
  | _, _ => true
  end.

(** [b.toString(16).padStart(2, "0")] and the [raw] text of a frame
    (line 136). *)
Definition toString16 (b : jsnum) : string :=
  match b with
  | Num z => HexadecimalString.NilZero.string_of_int (Z.to_hex_int z)
  | NaN => "NaN"
  end.

Definition rawOf (hexString : string) : string :=
  String.concat " " (map (fun b => padStart2 (toString16 b)) (hexBytes hexString)).

Definition onOff (flag : bool) : string := if flag then "ON" else "OFF".

(** The pattern [if (v !== state.f) { state.f = v; interpretations.push(
    label + ": " + ON/OFF) }] on the state and the interpretations so
    far. *)
Definition assignFlag
  (get : SpaState -> bool) (set : bool -> SpaState -> SpaState)
  (label : string) (v : bool) (acc : SpaState * list string)
  : SpaState * list string :=
  if negb (Bool.eqb v (get (fst acc)))
  then (set v (fst acc), snd acc ++ [(label ++ ": " ++ onOff v)%string])
  else acc.

(** The display part of [parseMessage] (lines 221-312), in its two
    blocks.  First the status bytes (lines 226-276): when one of them is
    present and differs from the one remembered, both are remembered and
    the flags are assigned, with one interpretation per flag that
    changes. *)
Definition statusBlock (display : DisplayResult) (state : SpaState)
  : SpaState * list string :=
  let statusChanged1 :=
    match statusByte1 display with
    | Some b1 => differs b1 (lastStatusByte1 state)
    | None => false
    end in
  let statusChanged2 :=
    match statusByte2 display with
    | Some b2 => differs b2 (lastStatusByte2 state)
    | None => false
    end in
  if statusChanged1 || statusChanged2 then
    let state :=
      match statusByte1 display with
      | Some b1 => set_lastStatusByte1 b1 state
      | None => state
      end in
    let state :=
      match statusByte2 display with
      | Some b2 => set_lastStatusByte2 b2 state
      | None => state
      end in
    let acc : SpaState * list string := (state, []) in
    let acc :=
      match statusByte1 display with
      | Some b1 =>
          let acc := assignFlag heating set_heating "Heating"
                       (bitSet b1 STATUS_HEATING) acc in
          let acc := assignFlag auxHi set_auxHi "AUX Hi"
                       (bitSet b1 STATUS_AUX_HI) acc in
          let acc := assignFlag jetsLo set_jetsLo "Jets Lo"
                       (bitSet b1 STATUS_JETS_LO) acc in
          let acc := assignFlag jetsHi set_jetsHi "Jets Hi"
                       (bitSet b1 STATUS_JETS_HI) acc in
          let acc := assignFlag filtering set_filtering "Filtering"
                       (bitSet b1 STATUS_FILTERING) acc in
          assignFlag setMode set_setMode "Set Mode"
            (bitSet b1 STATUS_SET_MODE) acc
      | None => acc
      end in
    match statusByte2 display with
    | Some b2 => assignFlag lightOn set_lightOn "Light" (bitSet b2 STATUS2_LIGHT) acc
    | None => acc
    end
  else (state, []).

(** Then the [switch] on the type (lines 278-308), for the frame text
    [hexString] at the instant [now]. *)
Definition typeBlock
  (now : Z) (hexString : string) (display : DisplayResult)
  (acc : SpaState * list string) : SpaState * list string :=
  let '(state, interpretations) := acc in
  match type display with
  | ty_temp =>
      match temp display with
      | Some t =>
          let state :=
            match currentTemp state with
            | Some c => if negb (t =? c) then set_currentTemp t now state else state
            | None => set_currentTemp t now state
            end in
          (state, interpretations ++ [("Temp: " ++ value display)%string])
      | None => (state, interpretations)
      end
  | ty_eco =>
      let state := if negb (ecoMode state) then set_ecoMode true state else state in
      (state, interpretations ++ ["Mode: ECOn"])
  | ty_blank => (state, interpretations ++ ["Blank"])
  | ty_time => (state, interpretations ++ [("Time: " ++ value display)%string])
  | ty_heating | ty_unknown =>
      (state, interpretations ++ [("Unknown: " ++ rawOf hexString)%string])
  end.

Definition interpretDisplay
  (now : Z) (hexString : string) (display : DisplayResult) (state : SpaState)
  : SpaState * list string :=
  typeBlock now hexString display (statusBlock display state).

(** What [JSON.parse(message)] yields, as far as [parseMessage] looks at
    it: not JSON (or the JSON [null], on which the first property access
    throws), or a value with the optional numbers [stsR] and [stsI] and a
    [dsp] that is missing or falsy, a non-empty string, or a truthy value
    that is not a string. *)
Inductive DspField : Type :=
| DspAbsent
| DspText (hexString : string)
| DspNotText.

Inductive Payload : Type :=
| NotJson
| Parsed (stsR stsI : option Z) (dsp : DspField).

(** One call of [log] by [parseMessage]. *)
Inductive LogLine : Type :=
| LogStsR (v : Z)
| LogStsI (v : Z)
| LogDisplay (interpretations : list string)
| LogNonJson.

(** [parseMessage(data)] (lines 205-314), at the instant [now]. *)
Definition parseMessage (now : Z) (data : Payload) (state : SpaState)
  : SpaState * list LogLine :=
  match data with
  | NotJson => (state, [LogNonJson])
  | Parsed stsR stsI dsp =>
      let lines := match stsR with Some v => [LogStsR v] | None => [] end in
      let '(state, lines) :=
        match stsI with
        | Some v =>
            if match Listener.stsI state with
               | Some old => negb (v =? old)
               | None => true
               end
            then (set_stsI v state, lines ++ [LogStsI v])
            else (state, lines)
        | None => (state, lines)
        end in
      match dsp with
      | DspAbsent => (state, lines)
      | DspText hexString =>
          if (hexString =? "")%string then (state, lines)
          else
            let display := parseDisplayData hexString in
            let '(state, interpretations) :=
              interpretDisplay now hexString display state in
            (state, lines ++ [LogDisplay interpretations])
      | DspNotText =>
          (* [parseDisplayData] throws on a value without [substring] *)
          (state, lines ++ [LogNonJson])
      end
  end.







End Listener.

(** The properties that the listener's state and the collection state
    of the monitor have in common. *)
Definition listenerView (s : Listener.SpaState)
  : option Z * list bool * option jsnum :=
  (Listener.currentTemp s,
   [Listener.heating s; Listener.auxHi s; Listener.jetsLo s; Listener.jetsHi s;
    Listener.filtering s; Listener.setMode s; Listener.lightOn s],
   Listener.lastStatusByte1 s).

Definition monitorView (s : CollectionState)
  : option Z * list bool * option jsnum :=
  (currentTemp s,
   [heating s; auxHi s; jetsLo s; jetsHi s; filtering s; edit s; lightOn s],
   lastStatusByte1 s).

(** The listener's state after the frames [hexStrings], each decoded at
    the instant 0, and the monitor's accumulator [updateStateFromDisplay]
    folded over the same frames as they are (without the padding that
    the monitor's message callback applies first). *)
Definition listenerAfter (hexStrings : list string) : Listener.SpaState :=
  fold_left
    (fun st h => fst (Listener.interpretDisplay 0 h (parseDisplayData h) st))
    hexStrings Listener.initialState.

Definition accumulatorAfter (hexStrings : list string) : CollectionState :=
  fold_left (fun st h => updateStateFromDisplay (parseDisplayData h) st)
    hexStrings initialState.

(** What links the listener's flags to the status bytes it remembers. *)
Definition flagsMirrorStatus (s : Listener.SpaState) : Prop :=
  match Listener.lastStatusByte1 s with
  | Some b1 =>
      Listener.heating s = bitSet b1 STATUS_HEATING /\
      Listener.auxHi s = bitSet b1 STATUS_AUX_HI /\
      Listener.jetsLo s = bitSet b1 STATUS_JETS_LO /\
      Listener.jetsHi s = bitSet b1 STATUS_JETS_HI /\
      Listener.filtering s = bitSet b1 STATUS_FILTERING /\
      Listener.setMode s = bitSet b1 Listener.STATUS_SET_MODE
  | None =>
      Listener.heating s = false /\ Listener.auxHi s = false /\
      Listener.jetsLo s = false /\ Listener.jetsHi s = false /\
      Listener.filtering s = false /\ Listener.setMode s = false
  end /\
  match Listener.lastStatusByte2 s with
  | Some b2 => Listener.lightOn s = bitSet b2 STATUS2_LIGHT
  | None => Listener.lightOn s = false
  end.

(** The state that the status block leaves when the flags mirror the
    remembered status bytes: the bytes of the frame remembered and the
    flags assigned from them. *)
Definition statusApplied (display : DisplayResult) (s : Listener.SpaState)
  : Listener.SpaState :=
  let a (mask : Z) (old : bool) :=
    match statusByte1 display with Some b1 => bitSet b1 mask | None => old end in
  {| Listener.currentTemp := Listener.currentTemp s;
     Listener.lastTempUpdate := Listener.lastTempUpdate s;
     Listener.ecoMode := Listener.ecoMode s;
     Listener.lightOn :=
       match statusByte2 display with
       | Some b2 => bitSet b2 STATUS2_LIGHT
       | None => Listener.lightOn s
       end;
     Listener.heating := a STATUS_HEATING (Listener.heating s);
     Listener.auxHi := a STATUS_AUX_HI (Listener.auxHi s);
     Listener.jetsLo := a STATUS_JETS_LO (Listener.jetsLo s);
     Listener.jetsHi := a STATUS_JETS_HI (Listener.jetsHi s);
     Listener.filtering := a STATUS_FILTERING (Listener.filtering s);
     Listener.setMode := a Listener.STATUS_SET_MODE (Listener.setMode s);
     Listener.lastStatusByte1 :=
       match statusByte1 display with
       | Some b1 => Some b1
       | None => Listener.lastStatusByte1 s
       end;
     Listener.lastStatusByte2 :=
       match statusByte2 display with
       | Some b2 => Some b2
       | None => Listener.lastStatusByte2 s
       end;
     Listener.stsI := Listener.stsI s |}.



Definition isEco (hexString : string) : bool :=
  match type (parseDisplayData hexString) with ty_eco => true | _ => false end.

(** The listener's state after the payloads, each handled at the
    instant [now], from the initial state. *)
Definition listenerRun (now : Z) (payloads : list Listener.Payload)
  : Listener.SpaState :=
  fold_left (fun st data => fst (Listener.parseMessage now data st))
    payloads Listener.initialState.

(** The last [stsI] value that the payloads carry, if any. *)
Definition lastStsI (payloads : list Listener.Payload) : option Z :=
  fold_left
    (fun acc data =>
       match data with
       | Listener.Parsed _ (Some v) _ => Some v
       | _ => acc
       end)
    payloads None.

(** The integers on which the double-precision arithmetic of [median]
    is exact: such numbers, their sums and the halves of their sums are
    all represented without rounding. *)
Definition exactlyRepresented (v : Z) : Prop := - 2 ^ 52 <= v <= 2 ^ 52.

(** What the message callback of the monitor does to a [dsp] text before
    it decodes it (lines 267-269). *)
Definition padDsp (dspData : string) : string :=
  if (String.length dspData =? 10)%nat then (dspData ++ "00")%string else dspData.

(** A display message, as the monitor's session and as the listener
    receive it. *)
Definition dspEvent (dspData : string) : Event := EvMessage (Dsp dspData).

Definition dspPayload (dspData : string) : Listener.Payload :=
  Listener.Parsed None None (Listener.DspText dspData).

(** * Properties *)

(** ** Sorting and the median *)

Section Sorting.

Lemma insert_asc_perm (x : Z) (l : list Z) : Permutation (x :: l) (insert_asc x l).
Proof.
  induction l as [|y r IH]; simpl.
  - apply Permutation_refl.
  - destruct (x <=? y).
    + apply Permutation_refl.
    + eapply perm_trans; [apply perm_swap|]. now apply perm_skip.
Qed.

Lemma sort_asc_perm (l : list Z) : Permutation l (sort_asc l).
Proof.
  induction l as [|x r IH]; simpl.
  - constructor.
  - eapply perm_trans; [apply perm_skip, IH|]. apply insert_asc_perm.
Qed.

Lemma sort_asc_length (l : list Z) : List.length (sort_asc l) = List.length l.
Proof. symmetry. apply Permutation_length, sort_asc_perm. Qed.

Lemma insert_asc_sorted (x : Z) (l : list Z) :
  StronglySorted Z.le l -> StronglySorted Z.le (insert_asc x l).
Proof.
  induction 1 as [|y r Hs IH Hall]; simpl.
  - repeat constructor.
  - destruct (Z.leb_spec x y) as [Hle|Hgt].
    + constructor; [now constructor|].
      constructor; [exact Hle|].
      eapply Forall_impl; [|exact Hall]. intros z Hz. simpl in Hz. lia.
    + constructor; [exact IH|].
      eapply Permutation_Forall; [apply insert_asc_perm|].
      constructor; [lia|exact Hall].
Qed.

Lemma sort_asc_sorted (l : list Z) : StronglySorted Z.le (sort_asc l).
Proof.
  induction l as [|x r IH]; simpl.
  - constructor.
  - now apply insert_asc_sorted.
Qed.

Lemma mean2_spec (a b : Z) : (mean2 a b == (inject_Z a + inject_Z b) / inject_Z 2)%Q.
Proof. unfold mean2. apply Qred_correct. Qed.

End Sorting.

(** C9.  [median] of the empty list is null.  For a non-empty list of
    integers in the range where double-precision arithmetic is exact, it
    is read off the ascending sort of the values (a sorted permutation of
    them): the element at index [length / 2] when the length is odd, the
    arithmetic mean of the elements at [length / 2 - 1] and [length / 2]
    when it is even.  In particular median([97,99,98]) = 98 and
    median([97,99]) = 98. *)
Theorem median_spec :
  median [] = None /\
  (forall values : list Z,
     values <> [] -> Forall exactlyRepresented values ->
     exists sorted : list Z,
       Permutation values sorted /\ StronglySorted Z.le sorted /\
       let n := List.length values in
       ((n mod 2 <> 0)%nat ->
          (n / 2 < n)%nat /\
          median values = Some (inject_Z (nth (n / 2) sorted 0%Z))) /\
       ((n mod 2 = 0)%nat ->
          (n / 2 - 1 < n / 2 < n)%nat /\
          exists m : Q,
            median values = Some m /\
            (m == (inject_Z (nth (n / 2 - 1) sorted 0%Z)
                   + inject_Z (nth (n / 2) sorted 0%Z)) / inject_Z 2)%Q)) /\
  median [97; 99; 98] = Some (inject_Z 98) /\
  median [97; 99] = Some (inject_Z 98).
Proof.
  split; [reflexivity|]. split; [|split; reflexivity].
  intros values Hne _. exists (sort_asc values).
  split; [apply sort_asc_perm|]. split; [apply sort_asc_sorted|].
  assert (Hpos : (0 < List.length values)%nat).
  { destruct values; [congruence|simpl; lia]. }
  cbv zeta. unfold median. rewrite sort_asc_length.
  destruct (Nat.eqb_spec (List.length values) 0) as [H0|_]; [lia|].
  pose proof (Nat.div_mod_eq (List.length values) 2) as Hdm.
  pose proof (Nat.mod_upper_bound (List.length values) 2 ltac:(lia)) as Hub.
  split; intros Hpar.
  - split; [lia|].
    destruct (Nat.eqb_spec (List.length values mod 2) 0) as [E|_]; [contradiction|].
    reflexivity.
  - split; [lia|].
    rewrite Hpar. simpl negb. cbv iota.
    eexists. split; [reflexivity|]. apply mean2_spec.
Qed.

(** The instance of [median_spec] at the three samples 97, 99, 98. *)
Lemma median_spec_witness :
  exists sorted : list Z,
    Permutation [97; 99; 98] sorted /\ StronglySorted Z.le sorted /\
    median [97; 99; 98] = Some (inject_Z (nth 1 sorted 0%Z)).
Proof.
  assert (Hrange : Forall exactlyRepresented [97; 99; 98]).
  { repeat constructor; vm_compute; discriminate. }
  destruct (proj1 (proj2 median_spec) [97; 99; 98] ltac:(discriminate) Hrange)
    as [sorted [Hp [Hs [Hodd _]]]].
  exists sorted. split; [exact Hp|]. split; [exact Hs|].
  apply Hodd. simpl. discriminate.
Defined.

(** ** Bitwise tests *)

Section Bits.

Lemma ToInt32_small (z : Z) :
  - 2 ^ 31 <= z < 2 ^ 31 -> ToInt32 (Some (Num z)) = z.
Proof. intros H. unfold ToInt32. rewrite Z.mod_small; lia. Qed.

Lemma ToInt32_testbit (a k : Z) :
  0 <= k < 32 -> Z.testbit (ToInt32 (Some (Num a))) k = Z.testbit a k.
Proof.
  intros Hk. unfold ToInt32.
  rewrite <- (Z.mod_pow2_bits_low _ 32 k) by lia.
  rewrite <- (Z.mod_pow2_bits_low a 32 k) by lia.
  f_equal. rewrite Zminus_mod_idemp_l. f_equal. lia.
Qed.

Lemma land_pow2_test (x k : Z) :
  0 <= k -> negb (Z.land x (2 ^ k) =? 0) = Z.testbit x k.
Proof.
  intros Hk. destruct (Z.testbit x k) eqn:E.
  - destruct (Z.eqb_spec (Z.land x (2 ^ k)) 0) as [H0|_]; [|reflexivity].
    exfalso.
    assert (Hb : Z.testbit (Z.land x (2 ^ k)) k = true).
    { rewrite Z.land_spec, E, Z.pow2_bits_true by lia. reflexivity. }
    rewrite H0, Z.bits_0 in Hb. discriminate.
  - replace (Z.land x (2 ^ k)) with 0; [reflexivity|].
    symmetry. apply Z.bits_inj'. intros n Hn.
    rewrite Z.land_spec, Z.bits_0, Z.pow2_bits_eqb by lia.
    destruct (Z.eqb_spec k n) as [->|_]; [now rewrite E|apply andb_false_r].
Qed.

(** [(byte & 2^k) !== 0] reads bit [k] of the byte. *)
Lemma bitSet_testbit (a k : Z) :
  0 <= k < 31 -> bitSet (Num a) (2 ^ k) = Z.testbit a k.
Proof.
  intros Hk. unfold bitSet, bitand.
  rewrite (ToInt32_small (2 ^ k)).
  - rewrite land_pow2_test by lia. apply ToInt32_testbit. lia.
  - split.
    + pose proof (Z.pow_pos_nonneg 2 k). lia.
    + apply Z.pow_lt_mono_r; lia.
Qed.

(** The low seven bits of anything are a number below 128. *)
Lemma bitand_0x7f_range (v : option jsnum) : 0 <= bitand v 0x7f < 128.
Proof.
  unfold bitand. rewrite (ToInt32_small 0x7f) by lia.
  change 0x7f with (Z.ones 7). rewrite Z.land_ones by lia.
  apply Z.mod_pos_bound. lia.
Qed.

(** A property of all numbers below a bound can be checked by running
    it. *)
Lemma below (n : nat) (P : Z -> bool) :
  forallb P (map Z.of_nat (seq 0 n)) = true ->
  forall m : Z, 0 <= m < Z.of_nat n -> P m = true.
Proof.
  intros H m Hm. rewrite forallb_forall in H. apply H.
  apply in_map_iff. exists (Z.to_nat m). split; [lia|].
  apply in_seq. lia.
Qed.

End Bits.

(** ** Status byte layout *)

(** C4, as stated, fails: two frames whose status bytes A agree on bits
    0,1,2,3,4,5,7 (0x40 and 0x00) and whose status bytes B are equal are
    merged into states with different flags, because bit 6 of status byte A
    drives [overheat]. *)
Lemma statusA_bit6_sets_overheat :
  let f1 := parseDisplayData "3f3f3f3f4000" in
  let f2 := parseDisplayData "3f3f3f3f0000" in
  statusByte1 f1 = Some (Num 0x40) /\ statusByte1 f2 = Some (Num 0x00) /\
  statusByte2 f1 = statusByte2 f2 /\
  (forall i : Z, In i [0; 1; 2; 3; 4; 5; 7] -> Z.testbit 0x40 i = Z.testbit 0x00 i) /\
  overheat (updateStateFromDisplay f1 initialState) = true /\
  overheat (updateStateFromDisplay f2 initialState) = false /\
  flagsOf (updateStateFromDisplay f1 initialState)
    <> flagsOf (updateStateFromDisplay f2 initialState).
Proof.
  cbv zeta. repeat split; try reflexivity.
  - intros i Hi. simpl in Hi.
    repeat (destruct Hi as [<-|Hi]; [reflexivity|]). contradiction.
  - vm_compute. discriminate.
Qed.

(** C4, amended.  When a frame carries status byte A, the merged flags
    heating, auxHi, jetsLo, jetsHi, filtering, edit and overheat are bits
    0 to 6 of that byte, whatever the prior state; the byte is remembered
    as [lastStatusByte1], and a Reading written from the merged state has
    its am flag equal to bit 7.  When a frame carries status byte B, the
    merged flags lightOn, jets2Hi, jets2Lo and auxLo are bits 4 to 7 of
    that byte. *)
Theorem status_bits_layout :
  (forall (display : DisplayResult) (state : CollectionState) (a : Z),
     statusByte1 display = Some (Num a) ->
     let s' := updateStateFromDisplay display state in
     heating s' = Z.testbit a 0 /\ auxHi s' = Z.testbit a 1 /\
     jetsLo s' = Z.testbit a 2 /\ jetsHi s' = Z.testbit a 3 /\
     filtering s' = Z.testbit a 4 /\ edit s' = Z.testbit a 5 /\
     overheat s' = Z.testbit a 6 /\
     lastStatusByte1 s' = Some (Num a) /\
     forall (samples : list Z) (db0 : DB.log),
     exists row : DB.Reading,
       writeReading samples s' db0 = db0 ++ [row] /\ DB.am row = Z.testbit a 7) /\
  (forall (display : DisplayResult) (state : CollectionState) (b : Z),
     statusByte2 display = Some (Num b) ->
     let s' := updateStateFromDisplay display state in
     lightOn s' = Z.testbit b 4 /\ jets2Hi s' = Z.testbit b 5 /\
     jets2Lo s' = Z.testbit b 6 /\ auxLo s' = Z.testbit b 7).
Proof.
  split.
  - intros [ty v t sb1 sb2] s a H. simpl in H. subst sb1.
    cbv zeta. unfold updateStateFromDisplay. cbn [statusByte1 statusByte2 type temp].
    repeat split;
      try (destruct sb2, ty, t; cbn;
           first [ apply (bitSet_testbit a 0) | apply (bitSet_testbit a 1)
                 | apply (bitSet_testbit a 2) | apply (bitSet_testbit a 3)
                 | apply (bitSet_testbit a 4) | apply (bitSet_testbit a 5)
                 | apply (bitSet_testbit a 6) | reflexivity ]; lia).
    intros samples0 db0. eexists. split; [reflexivity|].
    cbn [DB.am].
    destruct sb2, ty, t; cbn; apply (bitSet_testbit a 7); lia.
  - intros [ty v t sb1 sb2] s b H. simpl in H. subst sb2.
    cbv zeta. unfold updateStateFromDisplay. cbn [statusByte1 statusByte2 type temp].
    repeat split;
      destruct sb1, ty, t; cbn;
      first [ apply (bitSet_testbit b 4) | apply (bitSet_testbit b 5)
            | apply (bitSet_testbit b 6) | apply (bitSet_testbit b 7) ]; lia.
Qed.

(** The instances of [status_bits_layout] at the frame [717f6f06c490]. *)
Lemma status_bits_layout_witness :
  let s' := updateStateFromDisplay (parseDisplayData "717f6f06c490") initialState in
  overheat s' = Z.testbit 0xc4 6 /\ auxLo s' = Z.testbit 0x90 7.
Proof.
  split.
  - apply (proj1 status_bits_layout (parseDisplayData "717f6f06c490")
             initialState 0xc4 eq_refl).
  - apply (proj2 status_bits_layout (parseDisplayData "717f6f06c490")
             initialState 0x90 eq_refl).
Defined.

(** ** Decoder *)

Section Decoder.

Lemma lower_fixed (c : ascii) :
  (code (lower c) <? 97) || (122 <? code (lower c)) = true -> lower c = c.
Proof.
  destruct c as [[] [] [] [] [] [] [] []]; vm_compute; intros H;
    first [reflexivity | discriminate H].
Qed.

Lemma hexBytes_cons2 (a b : ascii) (r : string) :
  hexBytes (String a (String b r))
  = parseInt16 (String a (String b EmptyString)) :: hexBytes r.
Proof. reflexivity. Qed.

(** A frame that passes the blank test starts with the byte 0. *)
Lemma blank_first_byte (hexString : string) :
  (toLowerCase (JS.substring hexString 0 10) =? PATTERN_BLANK)%string
  || (hexString =? "000000000010")%string = true ->
  exists r, hexBytes hexString = Num 0 :: r.
Proof.
  intros H. apply orb_true_iff in H. destruct H as [H|H].
  - apply String.eqb_eq in H. unfold JS.substring, PATTERN_BLANK in H.
    destruct hexString as [|c0 [|c1 h]]; simpl in H; try discriminate H.
    + injection H as H0 H1 _.
      rewrite lower_fixed in H0 by (rewrite H0; reflexivity).
      rewrite lower_fixed in H1 by (rewrite H1; reflexivity).
      subst c0 c1. rewrite hexBytes_cons2. now eexists.
  - apply String.eqb_eq in H. subst hexString. now eexists.
Qed.

(** A frame that passes the ECOn test starts with the byte 0x54. *)
Lemma econ_first_byte (hexString : string) :
  (toLowerCase (JS.substring hexString 0 8) =? toLowerCase PATTERN_ECON)%string = true ->
  exists r, hexBytes hexString = Num 0x54 :: r.
Proof.
  intros H. apply String.eqb_eq in H. unfold JS.substring, PATTERN_ECON in H.
  destruct hexString as [|c0 [|c1 h]]; simpl in H; try discriminate H.
  - injection H as H0 H1 _.
    rewrite lower_fixed in H0 by (rewrite H0; reflexivity).
    rewrite lower_fixed in H1 by (rewrite H1; reflexivity).
    subst c0 c1. rewrite hexBytes_cons2. now eexists.
Qed.

(** Every frame of six bytes, written in hexadecimal, is read back byte
    for byte by the loop of [parseDisplayData]. *)
Lemma parseInt16_hex2 (b : Z) : 0 <= b < 256 -> parseInt16 (hex2 b) = Num b.
Proof.
  intros Hb.
  pose proof (below 256
    (fun b => match parseInt16 (hex2 b) with
              | Num z => z =? b
              | NaN => false
              end) eq_refl b Hb) as H.
  cbv beta in H. destruct (parseInt16 (hex2 b)) as [z|]; [|discriminate H].
  apply Z.eqb_eq in H. now subst z.
Qed.

Lemma hexBytes_frameHex (bytes : list Z) :
  Forall (fun b => 0 <= b < 256) bytes ->
  hexBytes (frameHex bytes) = map Num bytes.
Proof.
  induction 1 as [|b r Hb _ IH]; [reflexivity|].
  cbn [frameHex map]. unfold hex2 at 1. cbn [String.append].
  rewrite hexBytes_cons2. fold (hex2 b).
  now rewrite parseInt16_hex2, IH.
Qed.

(** The two tables have no key in common. *)
Lemma digit_not_letter (v : option jsnum) (d : Z) :
  decodeDigit v = Some d -> decodeLetter v = None.
Proof.
  unfold decodeDigit, decodeLetter. cbv zeta.
  pose proof (bitand_0x7f_range v) as Hr.
  pose proof (below 128
    (fun m => match SEVEN_SEGMENT_DIGITS m, SEVEN_SEGMENT_LETTERS m with
              | Some _, Some _ => false
              | _, _ => true
              end) eq_refl _ Hr) as H.
  cbv beta in H. intros Hd. rewrite Hd in H.
  destruct (SEVEN_SEGMENT_LETTERS (bitand v 127)); [discriminate H|reflexivity].
Qed.

Lemma letter_cases (v : option jsnum) (l : string) :
  decodeLetter v = Some l -> In l LETTERS.
Proof.
  unfold decodeLetter. cbv zeta.
  pose proof (bitand_0x7f_range v) as Hr.
  pose proof (below 128
    (fun m => match SEVEN_SEGMENT_LETTERS m with
              | Some l => existsb (String.eqb l) LETTERS
              | None => true
              end) eq_refl _ Hr) as H.
  cbv beta in H. intros Hl. rewrite Hl in H.
  apply existsb_exists in H. destruct H as [x [Hin Heq]].
  apply String.eqb_eq in Heq. now subst x.
Qed.

(** No mode word ends in the letter F preceded by at most one letter. *)
Lemma fahrenheit_not_mode_word (b0 b1 b2 b3 : jsnum) (tens ones : Z) :
  bitand (Some b0) 0x7f = 0x71 ->
  decodeDigit (Some b2) = Some tens ->
  decodeDigit (Some b1) = Some ones ->
  let letters := decodedLetters [b0; b1; b2; b3] in
  (2 <=? List.length letters)%nat
  && existsb (String.eqb (toUpperCase (String.concat "" (rev letters)))) MODE_WORDS
  = false.
Proof.
  intros H0 H2 H1. cbv zeta. unfold decodedLetters.
  rewrite (digit_not_letter _ _ H2), (digit_not_letter _ _ H1).
  replace (decodeLetter (Some b0)) with (Some "F")
    by (unfold decodeLetter; cbv zeta; now rewrite H0).
  destruct (decodeLetter (Some b3)) as [l|] eqn:E3; [|reflexivity].
  apply letter_cases in E3. simpl in E3.
  repeat (destruct E3 as [<-|E3]; [reflexivity|]). contradiction.
Qed.

End Decoder.

Section Temperature.

Variables (hexString : string) (b0 b1 b2 b3 b4 b5 : jsnum) (tens ones : Z).

(** The frame holds six bytes, byte 0 shows the Fahrenheit sign and the
    tens and ones positions show digits. *)
Hypothesis Hbytes : hexBytes hexString = [b0; b1; b2; b3; b4; b5].
Hypothesis Hsign : bitand (Some b0) 0x7f = 0x71.
Hypothesis Htens : decodeDigit (Some b2) = Some tens.
Hypothesis Hones : decodeDigit (Some b1) = Some ones.

(** What [parseDisplayData] computes on such a frame: the earlier tests
    do not fire, and the result only depends on the hundreds position and
    on the two range tests. *)
Lemma fahrenheit_frame :
  parseDisplayData hexString =
    let twoDigit :=
      if (MIN_VALID_TEMP <=? tens * 10 + ones) && (tens * 10 + ones <=? 99)
      then temperatureFrame b4 b5 (tens * 10 + ones)
      else mkDisplay ty_unknown hexString None (Some b4) (Some b5) in
    match decodeDigit (Some b3) with
    | Some 1 =>
        if (100 <=? 100 + tens * 10 + ones)
           && (100 + tens * 10 + ones <=? MAX_VALID_TEMP)
        then temperatureFrame b4 b5 (100 + tens * 10 + ones)
        else twoDigit
    | _ => twoDigit
    end.
Proof.
  unfold parseDisplayData. cbv beta zeta. rewrite Hbytes.
  cbn [nth_error firstn].
  destruct ((toLowerCase (JS.substring hexString 0 10) =? PATTERN_BLANK)%string
            || (hexString =? "000000000010")%string) eqn:Eblank.
  { apply blank_first_byte in Eblank. destruct Eblank as [r Hr].
    rewrite Hbytes in Hr. injection Hr as -> _. discriminate Hsign. }
  destruct (toLowerCase (JS.substring hexString 0 8) =? toLowerCase PATTERN_ECON)%string
    eqn:Eecon.
  { apply econ_first_byte in Eecon. destruct Eecon as [r Hr].
    rewrite Hbytes in Hr. injection Hr as -> _. discriminate Hsign. }
  rewrite (fahrenheit_not_mode_word b0 b1 b2 b3 tens ones Hsign Htens Hones).
  assert (Hd0 : decodeDigit (Some b0) = None).
  { unfold decodeDigit. cbv zeta. rewrite Hsign. reflexivity. }
  rewrite Hd0, Htens, Hones, Hsign. reflexivity.
Qed.

End Temperature.

(** C7.  A frame of six bytes whose byte 0 has the Fahrenheit code 0x71 in
    its low seven bits and whose bytes 2 and 1 decode to digits [tens] and
    [ones]: when 10*tens+ones is in [45,99], [parseDisplayData] returns
    the temperature result with exactly that value and the two status
    bytes (the blank, ECOn and mode-word tests do not intercept it, and
    neither does the hundreds rule); when byte 3 decodes to 1 and
    100+10*tens+ones is in [100,106], it returns the temperature result
    with that three-digit value. *)
Theorem classify_temperature
  (hexString : string) (b0 b1 b2 b3 b4 b5 : jsnum) (tens ones : Z) :
  hexBytes hexString = [b0; b1; b2; b3; b4; b5] ->
  bitand (Some b0) 0x7f = 0x71 ->
  decodeDigit (Some b2) = Some tens ->
  decodeDigit (Some b1) = Some ones ->
  (45 <= 10 * tens + ones <= 99 ->
   parseDisplayData hexString = temperatureFrame b4 b5 (10 * tens + ones)) /\
  (decodeDigit (Some b3) = Some 1 ->
   100 <= 100 + 10 * tens + ones <= 106 ->
   parseDisplayData hexString = temperatureFrame b4 b5 (100 + 10 * tens + ones)).
Proof.
  intros Hbytes Hsign Htens Hones.
  rewrite (fahrenheit_frame _ _ _ _ _ _ _ _ _ Hbytes Hsign Htens Hones).
  cbv zeta. unfold MIN_VALID_TEMP, MAX_VALID_TEMP.
  replace (tens * 10 + ones) with (10 * tens + ones) by lia.
  replace (100 + tens * 10 + ones) with (100 + 10 * tens + ones) by lia.
  split.
  - intros Hr.
    replace ((100 <=? 100 + 10 * tens + ones) && (100 + 10 * tens + ones <=? 106))
      with false by (symmetry; apply andb_false_iff; right; apply Z.leb_gt; lia).
    replace ((45 <=? 10 * tens + ones) && (10 * tens + ones <=? 99))
      with true by (symmetry; apply andb_true_iff; split; apply Z.leb_le; lia).
    destruct (decodeDigit (Some b3)) as [[|[]|]|]; reflexivity.
  - intros Hh Hr. rewrite Hh.
    replace ((100 <=? 100 + 10 * tens + ones) && (100 + 10 * tens + ones <=? 106))
      with true by (symmetry; apply andb_true_iff; split; apply Z.leb_le; lia).
    reflexivity.
Qed.

(** The instances of [classify_temperature] at the frames [717f6f000400]
    (98 degrees) and [715b3f060400] (102 degrees). *)
Lemma classify_temperature_witness :
  parseDisplayData "717f6f000400" = temperatureFrame (Num 4) (Num 0) 98 /\
  parseDisplayData "715b3f060400" = temperatureFrame (Num 4) (Num 0) 102.
Proof.
  split.
  - apply (proj1 (classify_temperature "717f6f000400"
                    (Num 0x71) (Num 0x7f) (Num 0x6f) (Num 0) (Num 4) (Num 0) 9 8
                    eq_refl eq_refl eq_refl eq_refl)).
    lia.
  - apply (proj2 (classify_temperature "715b3f060400"
                    (Num 0x71) (Num 0x5b) (Num 0x3f) (Num 6) (Num 4) (Num 0) 0 2
                    eq_refl eq_refl eq_refl eq_refl)).
    + reflexivity.
    + lia.
Defined.

(** C8, as stated, fails: in the frame [717f6f060000] byte 0 is the
    Fahrenheit sign, byte 3 decodes to 1, bytes 2 and 1 decode to 9 and 8,
    the three-digit value 198 is outside [100,106], and [parseDisplayData]
    still returns a temperature, the two-digit value 98. *)
Lemma two_digit_rule_is_not_an_else_branch :
  let hexString := "717f6f060000" in
  hexBytes hexString = [Num 0x71; Num 0x7f; Num 0x6f; Num 0x06; Num 0; Num 0] /\
  bitand (Some (Num 0x71)) 0x7f = 0x71 /\
  decodeDigit (Some (Num 0x06)) = Some 1 /\
  decodeDigit (Some (Num 0x6f)) = Some 9 /\
  decodeDigit (Some (Num 0x7f)) = Some 8 /\
  ~ (100 <= 100 + 10 * 9 + 8 <= 106) /\
  type (parseDisplayData hexString) = ty_temp /\
  temp (parseDisplayData hexString) = Some 98.
Proof. cbv zeta. repeat split; try reflexivity. lia. Qed.

(** C8, amended.  For a frame of six bytes with the Fahrenheit sign whose
    byte 3 decodes to 1 and whose tens and ones decode, but whose
    three-digit value is outside [100,106]: the two-digit rule is tried
    next.  [parseDisplayData] returns the temperature 10*tens+ones when
    that value is in [45,99]; otherwise no temperature is returned and
    the frame falls through to the last return, type unknown with both
    status bytes (byte 0 is not a digit, so it is not a time). *)
Theorem hundreds_rule_falls_back_to_two_digits
  (hexString : string) (b0 b1 b2 b3 b4 b5 : jsnum) (tens ones : Z) :
  hexBytes hexString = [b0; b1; b2; b3; b4; b5] ->
  bitand (Some b0) 0x7f = 0x71 ->
  decodeDigit (Some b3) = Some 1 ->
  decodeDigit (Some b2) = Some tens ->
  decodeDigit (Some b1) = Some ones ->
  ~ (100 <= 100 + 10 * tens + ones <= 106) ->
  (45 <= 10 * tens + ones <= 99 ->
   parseDisplayData hexString = temperatureFrame b4 b5 (10 * tens + ones)) /\
  (~ (45 <= 10 * tens + ones <= 99) ->
   parseDisplayData hexString
   = mkDisplay ty_unknown hexString None (Some b4) (Some b5)).
Proof.
  intros Hbytes Hsign Hh Htens Hones Hout.
  rewrite (fahrenheit_frame _ _ _ _ _ _ _ _ _ Hbytes Hsign Htens Hones).
  cbv zeta. unfold MIN_VALID_TEMP, MAX_VALID_TEMP. rewrite Hh.
  replace (tens * 10 + ones) with (10 * tens + ones) by lia.
  replace (100 + tens * 10 + ones) with (100 + 10 * tens + ones) by lia.
  replace ((100 <=? 100 + 10 * tens + ones) && (100 + 10 * tens + ones <=? 106))
    with false.
  2:{ symmetry. apply andb_false_iff.
      destruct (Z.leb_spec 100 (100 + 10 * tens + ones)); [|now left].
      right. apply Z.leb_gt. lia. }
  split; intros Hr.
  - replace ((45 <=? 10 * tens + ones) && (10 * tens + ones <=? 99))
      with true by (symmetry; apply andb_true_iff; split; apply Z.leb_le; lia).
    reflexivity.
  - replace ((45 <=? 10 * tens + ones) && (10 * tens + ones <=? 99)) with false.
    + reflexivity.
    + symmetry. apply andb_false_iff.
      destruct (Z.leb_spec 45 (10 * tens + ones)); [|now left].
      right. apply Z.leb_gt. lia.
Qed.

(** The instances of [hundreds_rule_falls_back_to_two_digits] at the
    frames [717f6f060000] (198: accepted as 98) and [713f5b060000]
    (120: not a temperature). *)
Lemma hundreds_rule_falls_back_to_two_digits_witness :
  parseDisplayData "717f6f060000" = temperatureFrame (Num 0) (Num 0) 98 /\
  parseDisplayData "713f5b060000"
  = mkDisplay ty_unknown "713f5b060000" None (Some (Num 0)) (Some (Num 0)).
Proof.
  split.
  - apply (proj1 (hundreds_rule_falls_back_to_two_digits "717f6f060000"
                    (Num 0x71) (Num 0x7f) (Num 0x6f) (Num 6) (Num 0) (Num 0) 9 8
                    eq_refl eq_refl eq_refl eq_refl eq_refl ltac:(lia))).
    lia.
  - apply (proj2 (hundreds_rule_falls_back_to_two_digits "713f5b060000"
                    (Num 0x71) (Num 0x3f) (Num 0x5b) (Num 6) (Num 0) (Num 0) 2 0
                    eq_refl eq_refl eq_refl eq_refl eq_refl ltac:(lia))).
    lia.
Defined.

(** ** Sticky flags *)

Section Sticky.

Lemma no_status_bytes_no_change (display : DisplayResult) (state : CollectionState) :
  statusByte1 display = None -> statusByte2 display = None ->
  flagsOf (updateStateFromDisplay display state) = flagsOf state /\
  lastStatusByte1 (updateStateFromDisplay display state) = lastStatusByte1 state.
Proof.
  destruct display as [ty v t sb1 sb2]. simpl. intros -> ->.
  unfold updateStateFromDisplay. cbn [statusByte1 statusByte2 type temp].
  destruct ty, t; split; reflexivity.
Qed.

(** The only returns of [parseDisplayData] without status bytes on a
    full frame are the blank one and the mode-word one. *)
Lemma blank_and_mode_word_carry_no_status (hexString : string) :
  type (parseDisplayData hexString) = ty_blank
  \/ (type (parseDisplayData hexString) = ty_unknown
      /\ value (parseDisplayData hexString) <> hexString) ->
  statusByte1 (parseDisplayData hexString) = None /\
  statusByte2 (parseDisplayData hexString) = None.
Proof.
  unfold parseDisplayData. cbv beta zeta.
  repeat match goal with
         | |- context [if ?c then _ else _] => destruct c
         | |- context [match ?x with _ => _ end] => destruct x
         end;
    cbn [type value statusByte1 statusByte2];
    intros [H|[H1 H2]]; try discriminate; try congruence; split; reflexivity.
Qed.

End Sticky.

(** C6.  Sticky flags.  Merging a frame that carries neither status byte
    leaves all eleven boolean flags and [lastStatusByte1] as they were, in
    every prior state; the blank frames and the mode-word frames (type
    unknown whose value is the decoded text, not the hex string) are such
    frames.  In particular, after a frame whose status byte A sets jetsLo,
    a following blank frame leaves jetsLo true. *)
Theorem sticky_state_semantics :
  (forall (hexString : string) (state : CollectionState),
     let display := parseDisplayData hexString in
     type display = ty_blank
     \/ (type display = ty_unknown /\ value display <> hexString) ->
     flagsOf (updateStateFromDisplay display state) = flagsOf state /\
     lastStatusByte1 (updateStateFromDisplay display state) = lastStatusByte1 state) /\
  (forall (display : DisplayResult) (state : CollectionState),
     statusByte1 display = None -> statusByte2 display = None ->
     flagsOf (updateStateFromDisplay display state) = flagsOf state /\
     lastStatusByte1 (updateStateFromDisplay display state) = lastStatusByte1 state) /\
  (let F1 := parseDisplayData "3f3f3f3f0400" in
   let F2 := parseDisplayData "000000000000" in
   statusByte1 F1 = Some (Num 0x04) /\ type F2 = ty_blank /\
   jetsLo (updateStateFromDisplay F1 initialState) = true /\
   jetsLo (updateStateFromDisplay F2 (updateStateFromDisplay F1 initialState)) = true).
Proof.
  split; [|split].
  - intros hexString state0 display H.
    apply blank_and_mode_word_carry_no_status in H. destruct H as [H1 H2].
    now apply no_status_bytes_no_change.
  - exact no_status_bytes_no_change.
  - cbv zeta. repeat split; reflexivity.
Qed.

(** The instance of [sticky_state_semantics] at the mode-word frame
    [5c3979000000] (the letters o, C, E: the text ECo), merged into a state
    in which every flag is set. *)
Lemma sticky_state_semantics_witness :
  let allSet := mkState (Some 98) true true true true true true true true true
                  true true (Some (Num 0xff)) in
  let display := parseDisplayData "5c3979000000" in
  flagsOf (updateStateFromDisplay display allSet) = flagsOf allSet /\
  lastStatusByte1 (updateStateFromDisplay display allSet) = Some (Num 0xff).
Proof.
  cbv zeta.
  apply (proj1 sticky_state_semantics "5c3979000000").
  right. split; [reflexivity|discriminate].
Defined.

(** ** Collection session *)

Section SessionSteps.

(** [onMessage] in terms of the frame the message carries. *)
Lemma onMessage_frame (m : Message) (s : Session) :
  onMessage m s =
    match frameOf m with
    | None => s
    | Some display =>
        let s1 := mkSession (samples s) (updateStateFromDisplay display (state s))
                    (timeoutPending s) (closeCalls s) (promise s) (db s) in
        match type display, temp display with
        | ty_temp, Some t =>
            let s2 := mkSession (samples s ++ [t]) (state s1)
                        (timeoutPending s) (closeCalls s) (promise s) (db s) in
            if (SAMPLE_COUNT <=? List.length (samples s ++ [t]))%nat
            then settle Resolved (doWriteReading (wsClose (clearTimeout s2)))
            else s2
        | _, _ => s1
        end
    end.
Proof.
  destruct m as [| | |dspData]; try reflexivity.
  unfold onMessage, frameOf.
  destruct (dspData =? "")%string; reflexivity.
Qed.

Lemma median_nonempty (values : list Z) : values <> [] -> median values <> None.
Proof.
  intros Hne. unfold median.
  destruct values as [|x r]; [congruence|].
  cbn [List.length Nat.eqb].
  destruct (negb _); discriminate.
Qed.

(** A frame that is not a temperature only touches [state]. *)
Lemma handle_no_sample (s : Session) (e : Event) :
  isFrame e = true -> sampleOf e = None ->
  samples (handle s e) = samples s /\ db (handle s e) = db s /\
  timeoutPending (handle s e) = timeoutPending s /\
  promise (handle s e) = promise s /\ closeCalls (handle s e) = closeCalls s.
Proof.
  destruct e as [|m| | |]; try discriminate; intros _ Hs.
  - repeat split.
  - cbn [handle]. rewrite onMessage_frame. cbn [sampleOf] in Hs.
    destruct (frameOf m) as [display|]; [|repeat split].
    cbv zeta. destruct (type display), (temp display);
      try discriminate Hs; repeat split.
Qed.

(** A temperature frame appends its sample; the third sample finalizes. *)
Lemma handle_sample (s : Session) (e : Event) (t : Z) :
  sampleOf e = Some t ->
  samples (handle s e) = samples s ++ [t] /\
  ((List.length (samples s ++ [t]) < SAMPLE_COUNT)%nat ->
   db (handle s e) = db s /\ timeoutPending (handle s e) = timeoutPending s /\
   promise (handle s e) = promise s /\ closeCalls (handle s e) = closeCalls s) /\
  ((SAMPLE_COUNT <= List.length (samples s ++ [t]))%nat ->
   db (handle s e)
   = writeReading (samples s ++ [t]) (state (handle s e)) (db s) /\
   timeoutPending (handle s e) = false /\
   promise (handle s e) = match promise s with Pending => Resolved | p => p end /\
   closeCalls (handle s e) = S (closeCalls s)).
Proof.
  destruct e as [|m| | |]; try discriminate; intros Hs.
  cbn [handle]. rewrite onMessage_frame. cbn [sampleOf] in Hs.
  destruct (frameOf m) as [display|]; [|discriminate Hs].
  cbv zeta. destruct (type display), (temp display) as [t'|];
    try discriminate Hs.
  injection Hs as ->.
  destruct (Nat.leb_spec SAMPLE_COUNT (List.length (samples s ++ [t]))) as [Hge|Hlt].
  - split; [reflexivity|]. split; [intros Hc; lia|]. intros _. repeat split.
  - split; [reflexivity|]. split; [intros _; repeat split|]. intros Hc. lia.
Qed.

(** Whatever the event, the storage either is untouched or receives one
    row, written from the samples and state the session then holds, which
    are not empty, and the promise is settled. *)
Lemma handle_db (s : Session) (e : Event) :
  db (handle s e) = db s \/
  (db (handle s e)
   = writeReading (samples (handle s e)) (state (handle s e)) (db s) /\
   samples (handle s e) <> [] /\ promise (handle s e) <> Pending /\
   promise (handle s e) = match promise s with Pending => Resolved | p => p end).
Proof.
  destruct e as [|m| | |]; try (now left).
  - destruct (sampleOf (EvMessage m)) as [t|] eqn:Hs.
    + destruct (handle_sample s _ t Hs) as [H1 [H2 H3]].
      destruct (Nat.leb_spec SAMPLE_COUNT (List.length (samples s ++ [t]))) as [Hge|Hlt].
      * right. destruct (H3 Hge) as [Hd [_ [Hp _]]].
        rewrite H1. split; [exact Hd|]. split; [now destruct (samples s)|].
        rewrite Hp. split; [|reflexivity]. destruct (promise s); discriminate.
      * left. now destruct (H2 Hlt).
    + left. now destruct (handle_no_sample s (EvMessage m) eq_refl Hs) as [_ [H _]].
  - cbn [handle]. unfold onTimeout.
    destruct (timeoutPending s); [|now left].
    cbv zeta. cbn [samples wsClose clearTimeout].
    destruct (Nat.ltb_spec 0 (List.length (samples s))) as [Hpos|Hz]; [|now left].
    right. cbn. split; [reflexivity|]. split.
    * intros E. rewrite E in Hpos. simpl in Hpos. lia.
    * split; [|reflexivity]. destruct (promise s); discriminate.
Qed.

(** A run of non-temperature frames touches nothing but [state]. *)
Lemma run_no_samples (events : list Event) :
  forallb isFrame events = true -> samplesOf events = [] ->
  forall s : Session,
    let s' := fold_left handle events s in
    samples s' = samples s /\ db s' = db s /\
    timeoutPending s' = timeoutPending s /\ promise s' = promise s /\
    closeCalls s' = closeCalls s.
Proof.
  induction events as [|e r IH]; intros Hf Hs s; cbn [fold_left].
  - repeat split.
  - cbn [forallb] in Hf. apply andb_true_iff in Hf. destruct Hf as [He Hr].
    cbn [samplesOf] in Hs. destruct (sampleOf e) as [t|] eqn:Ee; [discriminate Hs|].
    destruct (handle_no_sample s e He Ee) as [H1 [H2 [H3 [H4 H5]]]].
    destruct (IH Hr Hs (handle s e)) as [I1 [I2 [I3 [I4 I5]]]].
    cbv zeta. repeat split; congruence.
Qed.

(** A run of frames with fewer samples than the target only collects. *)
Lemma run_collecting (events : list Event) :
  forallb isFrame events = true ->
  forall s : Session,
    (List.length (samples s ++ samplesOf events) < SAMPLE_COUNT)%nat ->
    let s' := fold_left handle events s in
    samples s' = samples s ++ samplesOf events /\ db s' = db s /\
    timeoutPending s' = timeoutPending s /\ promise s' = promise s /\
    closeCalls s' = closeCalls s.
Proof.
  induction events as [|e r IH]; intros Hf s Hlen; cbn [fold_left].
  - cbn [samplesOf]. rewrite app_nil_r. repeat split.
  - cbn [forallb] in Hf. apply andb_true_iff in Hf. destruct Hf as [He Hr].
    cbn [samplesOf] in Hlen |- *. destruct (sampleOf e) as [t|] eqn:Ee.
    + destruct (handle_sample s e t Ee) as [H1 [H2 _]].
      assert (Hlt : (List.length (samples s ++ [t]) < SAMPLE_COUNT)%nat).
      { rewrite !length_app in *. cbn [List.length] in *. lia. }
      destruct (H2 Hlt) as [H3 [H4 [H5 H6]]].
      assert (Hlen' : (List.length (samples (handle s e) ++ samplesOf r)
                       < SAMPLE_COUNT)%nat).
      { rewrite H1, <- app_assoc. exact Hlen. }
      destruct (IH Hr (handle s e) Hlen') as [I1 [I2 [I3 [I4 I5]]]].
      cbv zeta. rewrite I1, H1, <- app_assoc. repeat split; congruence.
    + destruct (handle_no_sample s e He Ee) as [H1 [H2 [H3 [H4 H5]]]].
      assert (Hlen' : (List.length (samples (handle s e) ++ samplesOf r)
                       < SAMPLE_COUNT)%nat) by (now rewrite H1).
      destruct (IH Hr (handle s e) Hlen') as [I1 [I2 [I3 [I4 I5]]]].
      cbv zeta. rewrite I1, H1. repeat split; congruence.
Qed.

(** A run of frames whose samples exactly fill the target finalizes once,
    at the frame that brings the last sample. *)
Lemma run_reaches_count (events : list Event) :
  forallb isFrame events = true ->
  forall s : Session,
    (List.length (samples s) < SAMPLE_COUNT)%nat ->
    List.length (samples s ++ samplesOf events) = SAMPLE_COUNT ->
    let s' := fold_left handle events s in
    samples s' = samples s ++ samplesOf events /\
    (exists row : DB.Reading,
       db s' = db s ++ [row] /\
       DB.temperature row = median (samples s ++ samplesOf events)) /\
    timeoutPending s' = false /\
    promise s' = match promise s with Pending => Resolved | p => p end /\
    closeCalls s' = S (closeCalls s).
Proof.
  induction events as [|e r IH]; intros Hf s Hlt Hlen; cbn [fold_left].
  - cbn [samplesOf] in Hlen. rewrite app_nil_r in Hlen. lia.
  - cbn [forallb] in Hf. apply andb_true_iff in Hf. destruct Hf as [He Hr].
    cbn [samplesOf] in Hlen |- *. destruct (sampleOf e) as [t|] eqn:Ee.
    + destruct (handle_sample s e t Ee) as [H1 [H2 H3]].
      destruct (Nat.leb_spec SAMPLE_COUNT (List.length (samples s ++ [t]))) as [Hge|Hlt'].
      * assert (Hnil : samplesOf r = []).
        { rewrite !length_app in *. cbn [List.length] in *.
          destruct (samplesOf r); [reflexivity|cbn [List.length] in Hlen; lia]. }
        destruct (H3 Hge) as [H4 [H5 [H6 H7]]].
        destruct (run_no_samples r Hr Hnil (handle s e)) as [I1 [I2 [I3 [I4 I5]]]].
        cbv zeta. rewrite Hnil. split; [congruence|]. split.
        { eexists. split; [rewrite I2, H4; reflexivity|reflexivity]. }
        repeat split; congruence.
      * destruct (H2 Hlt') as [H4 [H5 [H6 H7]]].
        assert (Hlen' : List.length (samples (handle s e) ++ samplesOf r)
                        = SAMPLE_COUNT).
        { rewrite H1, <- app_assoc. exact Hlen. }
        assert (Hlt'' : (List.length (samples (handle s e)) < SAMPLE_COUNT)%nat)
          by (now rewrite H1).
        destruct (IH Hr (handle s e) Hlt'' Hlen') as [I1 [[row [I2 I2']] [I3 [I4 I5]]]].
        cbv zeta. rewrite I1, H1, <- app_assoc. split; [reflexivity|]. split.
        { exists row. split; [congruence|].
          rewrite I2', H1, <- app_assoc. reflexivity. }
        rewrite I4, H6. repeat split; congruence.
    + destruct (handle_no_sample s e He Ee) as [H1 [H2 [H3 [H4 H5]]]].
      assert (Hlen' : List.length (samples (handle s e) ++ samplesOf r)
                      = SAMPLE_COUNT) by (now rewrite H1).
      assert (Hlt'' : (List.length (samples (handle s e)) < SAMPLE_COUNT)%nat)
        by (now rewrite H1).
      destruct (IH Hr (handle s e) Hlt'' Hlen') as [I1 [[row [I2 I2']] [I3 [I4 I5]]]].
      cbv zeta. rewrite I1, H1. split; [reflexivity|]. split.
      { exists row. split; [congruence|]. rewrite I2', H1. reflexivity. }
      rewrite I4, H4. repeat split; congruence.
Qed.

End SessionSteps.

Section SessionInvariants.

Lemma collectReading_snoc (events : list Event) (e : Event) (db0 : DB.log) :
  collectReading (events ++ [e]) db0 = handle (collectReading events db0) e.
Proof. unfold collectReading. now rewrite fold_left_app. Qed.

Lemma sessionInvariant_step (db0 : DB.log) (s : Session) (e : Event) :
  sessionInvariant db0 s -> sessionInvariant db0 (handle s e).
Proof.
  intros [Hp Hs]. destruct e as [|m| | |].
  - split; assumption.
  - destruct (sampleOf (EvMessage m)) as [t|] eqn:Es.
    + destruct (handle_sample s _ t Es) as [H1 [H2 H3]].
      destruct (Nat.leb_spec SAMPLE_COUNT (List.length (samples s ++ [t]))) as [Hge|Hlt].
      * destruct (H3 Hge) as [_ [Ht [Hpr _]]].
        split; [|intros _; exact Ht].
        rewrite Hpr. destruct (promise s); discriminate.
      * destruct (H2 Hlt) as [Hd [Ht [Hpr _]]].
        split.
        { rewrite Hpr, Hd, Ht, H1. intros Hpend.
          destruct (Hp Hpend) as [A [B _]]. repeat split; assumption. }
        { rewrite Hpr, Ht. exact Hs. }
    + destruct (handle_no_sample s (EvMessage m) eq_refl Es) as [H1 [H2 [H3 [H4 _]]]].
      split; rewrite H4, ?H1, ?H2, ?H3; assumption.
  - cbn [handle]. unfold onTimeout. destruct (timeoutPending s) eqn:Et.
    + cbv zeta. cbn [samples wsClose clearTimeout].
      destruct (0 <? List.length (samples s))%nat;
        (split; [cbn; destruct (promise s); intros H; discriminate H
                |intros _; reflexivity]).
    + split; [intros Hpend; destruct (Hp Hpend) as [_ [B _]]; congruence|].
      intros _. exact Et.
  - split; [|reflexivity]. cbn. destruct (promise s); discriminate.
  - split; [|reflexivity]. cbn. destruct (promise s); discriminate.
Qed.

Lemma sessionInvariant_run (events : list Event) (db0 : DB.log) :
  sessionInvariant db0 (collectReading events db0).
Proof.
  induction events as [|e r IH] using rev_ind.
  - split; [intros _|intros H; now contradiction H].
    split; [reflexivity|]. split; [reflexivity|]. unfold SAMPLE_COUNT. cbn. lia.
  - rewrite collectReading_snoc. now apply sessionInvariant_step.
Qed.

(** Once the timer is off and the promise settled, the timer, close,
    error and open callbacks leave the session as it is. *)
Lemma settled_ignores (s : Session) (e : Event) :
  timeoutPending s = false -> promise s <> Pending ->
  (forall m : Message, e <> EvMessage m) -> handle s e = s.
Proof.
  intros Ht Hp He. destruct s as [sm st tp cc pr d]. cbn in Ht, Hp. subst tp.
  destruct e as [|m| | |]; try reflexivity.
  - now contradiction (He m).
  - cbn. unfold onClose, settle, clearTimeout. cbn.
    destruct pr; [now contradiction Hp|reflexivity|reflexivity].
  - cbn. unfold onError, settle, clearTimeout. cbn.
    destruct pr; [now contradiction Hp|reflexivity|reflexivity].
Qed.

Lemma update_keeps_lastStatusByte1 (display : DisplayResult) (st : CollectionState) :
  statusByte1 display = None ->
  lastStatusByte1 (updateStateFromDisplay display st) = lastStatusByte1 st.
Proof.
  destruct display as [ty v t sb1 sb2]. cbn. intros ->.
  unfold updateStateFromDisplay. cbn [statusByte1 statusByte2 type temp].
  destruct sb2, ty, t; reflexivity.
Qed.

Lemma handle_keeps_lastStatusByte1 (s : Session) (e : Event) :
  noStatusA e = true ->
  lastStatusByte1 (state (handle s e)) = lastStatusByte1 (state s).
Proof.
  destruct e as [|m| | |]; intros Hn; try reflexivity.
  - cbn [handle]. rewrite onMessage_frame. cbn [noStatusA] in Hn.
    destruct (frameOf m) as [display|]; [|reflexivity].
    destruct (statusByte1 display) eqn:E1; [discriminate Hn|].
    cbv zeta.
    destruct (type display), (temp display);
      try (cbn; now apply update_keeps_lastStatusByte1).
    destruct (SAMPLE_COUNT <=? _)%nat; cbn; now apply update_keeps_lastStatusByte1.
  - cbn [handle]. unfold onTimeout. destruct (timeoutPending s); [|reflexivity].
    cbv zeta. destruct (0 <? _)%nat; reflexivity.
Qed.

Lemma writeReading_row (samples0 : list Z) (st : CollectionState) (db0 : DB.log) :
  exists row : DB.Reading,
    writeReading samples0 st db0 = db0 ++ [row] /\
    DB.temperature row = median samples0 /\
    DB.am row = match lastStatusByte1 st with
                | Some b => bitSet b STATUS_AM
                | None => false
                end.
Proof. eexists. split; [reflexivity|]. split; reflexivity. Qed.

End SessionInvariants.

Section MedianOfThree.

(** The median of three samples is the middle one of their ascending
    order. *)
Lemma median_of_three (t1 t2 t3 : Z) :
  exists lo mid hi : Z,
    Permutation [t1; t2; t3] [lo; mid; hi] /\ lo <= mid <= hi /\
    median [t1; t2; t3] = Some (inject_Z mid).
Proof.
  pose proof (sort_asc_perm [t1; t2; t3]) as Hp.
  pose proof (sort_asc_sorted [t1; t2; t3]) as Hs.
  pose proof (sort_asc_length [t1; t2; t3]) as Hl.
  unfold median. rewrite Hl. cbn [List.length Nat.eqb].
  destruct (sort_asc [t1; t2; t3]) as [|lo [|mid [|hi [|x r]]]];
    cbn [List.length] in Hl; try discriminate Hl.
  exists lo, mid, hi. split; [exact Hp|]. split; [|reflexivity].
  inversion Hs as [|? ? Hs1 H1]; subst.
  inversion Hs1 as [|? ? Hs2 H2]; subst.
  inversion H1 as [|? ? Hlm _]; subst.
  inversion H2 as [|? ? Hmh _]; subst.
  lia.
Qed.

End MedianOfThree.

(** C5.  A session that receives only frames, exactly three of them
    temperatures, before the timer fires: exactly one Reading is stored;
    its temperature is the median of the three sample values, that is,
    the middle one of the three in ascending order; the timer is cleared
    (a later timer event does nothing), the socket is asked to close once
    and the promise is resolved. *)
Theorem three_samples_finalize
  (events : list Event) (db0 : DB.log) (t1 t2 t3 : Z) :
  forallb isFrame events = true ->
  samplesOf events = [t1; t2; t3] ->
  let s := collectReading events db0 in
  (exists row : DB.Reading,
     db s = db0 ++ [row] /\ DB.temperature row = median [t1; t2; t3] /\
     exists lo mid hi : Z,
       Permutation [t1; t2; t3] [lo; mid; hi] /\ lo <= mid <= hi /\
       DB.temperature row = Some (inject_Z mid)) /\
  timeoutPending s = false /\ handle s EvTimeout = s /\
  closeCalls s = 1%nat /\ promise s = Resolved.
Proof.
  intros Hf Hs.
  destruct (run_reaches_count events Hf (initialSession db0)) as [_ [Hrow [Ht [Hp Hc]]]].
  - unfold SAMPLE_COUNT. cbn. lia.
  - cbn [samples initialSession app]. now rewrite Hs.
  - cbn [samples initialSession app db] in Hrow. rewrite Hs in Hrow.
    cbv zeta. fold (collectReading events db0) in Hrow, Ht, Hp, Hc.
    split.
    { destruct Hrow as [row [Hd Htemp]]. exists row.
      split; [exact Hd|]. split; [exact Htemp|].
      destruct (median_of_three t1 t2 t3) as [lo [mid [hi [Hperm [Hord Hmed]]]]].
      exists lo, mid, hi. split; [exact Hperm|]. split; [exact Hord|].
      now rewrite Htemp. }
    split; [exact Ht|]. split.
    + cbn [handle]. unfold onTimeout. now rewrite Ht.
    + split; [exact Hc|exact Hp].
Qed.

(** The instance of [three_samples_finalize] at a session that sees 98,
    a time frame, 100 and 99 degrees. *)
Lemma three_samples_finalize_witness :
  let events := [EvOpen; EvMessage (Dsp "717f6f000400");
                 EvMessage (Dsp "3f3f5b068400"); EvMessage (Dsp "713f3f060400");
                 EvMessage (Dsp "716f6f0004")] in
  let s := collectReading events [] in
  (exists row : DB.Reading,
     db s = [] ++ [row] /\ DB.temperature row = median [98; 100; 99] /\
     exists lo mid hi : Z,
       Permutation [98; 100; 99] [lo; mid; hi] /\ lo <= mid <= hi /\
       DB.temperature row = Some (inject_Z mid)) /\
  timeoutPending s = false /\ handle s EvTimeout = s /\
  closeCalls s = 1%nat /\ promise s = Resolved.
Proof.
  cbv zeta.
  apply (three_samples_finalize
           [EvOpen; EvMessage (Dsp "717f6f000400");
            EvMessage (Dsp "3f3f5b068400"); EvMessage (Dsp "713f3f060400");
            EvMessage (Dsp "716f6f0004")] [] 98 100 99);
    reflexivity.
Defined.

(** C1, as stated, fails: when the timer fires, or the transport fails,
    before any temperature sample was collected, nothing is stored. *)
Lemma no_samples_means_no_reading :
  let onTimer := collectReading [EvOpen; EvMessage (Dsp "3f3f5b068400"); EvTimeout] [] in
  let onFailure := collectReading [EvOpen; EvError] [] in
  samples onTimer = [] /\ promise onTimer = Resolved /\ db onTimer = [] /\
  samples onFailure = [] /\ promise onFailure = Rejected /\ db onFailure = [] /\
  ~ (exists row : DB.Reading, db onTimer = [row] /\ DB.temperature row = None) /\
  ~ (exists row : DB.Reading, db onFailure = [row] /\ DB.temperature row = None).
Proof.
  cbv zeta. repeat split; try reflexivity.
  - intros [row [H _]]. discriminate H.
  - intros [row [H _]]. discriminate H.
Qed.

(** C1, amended.  When a session has received only frames, none of them a
    temperature, and then the timer fires or the transport fails, the
    session ends without storing a Reading: on timeout the socket is
    closed and the promise resolved, on error the promise is rejected.
    No session ever stores a Reading whose temperature is null. *)
Theorem timeout_or_error_without_samples
  (events : list Event) (db0 : DB.log) :
  forallb isFrame events = true ->
  samplesOf events = [] ->
  (let s := collectReading (events ++ [EvTimeout]) db0 in
   db s = db0 /\ promise s = Resolved /\ timeoutPending s = false /\
   closeCalls s = 1%nat) /\
  (let s := collectReading (events ++ [EvError]) db0 in
   db s = db0 /\ promise s = Rejected /\ timeoutPending s = false) /\
  (forall (all : list Event) (row : DB.Reading),
     In row (db (collectReading all db0)) ->
     In row db0 \/ DB.temperature row <> None).
Proof.
  intros Hf Hs.
  destruct (run_no_samples events Hf Hs (initialSession db0)) as [H1 [H2 [H3 [H4 H5]]]].
  fold (collectReading events db0) in H1, H2, H3, H4, H5.
  cbn [initialSession samples db timeoutPending promise closeCalls] in H1, H2, H3, H4, H5.
  split; [|split].
  - cbv zeta. rewrite collectReading_snoc. cbn [handle]. unfold onTimeout.
    rewrite H3. cbv zeta. cbn [samples wsClose clearTimeout]. rewrite H1.
    cbn. rewrite H2, H4, H5. repeat split.
  - cbv zeta. rewrite collectReading_snoc. cbn. rewrite H2, H4. repeat split.
  - intros all. induction all as [|e r IH] using rev_ind; intros row Hin.
    + left. exact Hin.
    + rewrite collectReading_snoc in Hin.
      destruct (handle_db (collectReading r db0) e) as [Hd|[Hd [Hne _]]].
      * rewrite Hd in Hin. now apply IH.
      * rewrite Hd in Hin.
        destruct (writeReading_row (samples (handle (collectReading r db0) e))
                    (state (handle (collectReading r db0) e))
                    (db (collectReading r db0))) as [row' [Hw [Htemp _]]].
        rewrite Hw in Hin. apply in_app_or in Hin. destruct Hin as [Hin|Hin].
        { now apply IH. }
        { destruct Hin as [<-|[]]. right. rewrite Htemp.
          now apply median_nonempty. }
Qed.

(** The instance of [timeout_or_error_without_samples] at a session that
    sees a time frame and a blank frame. *)
Lemma timeout_or_error_without_samples_witness :
  let events := [EvOpen; EvMessage (Dsp "3f3f5b068400"); EvMessage (Dsp "0000000000")] in
  db (collectReading (events ++ [EvTimeout]) []) = [] /\
  db (collectReading (events ++ [EvError]) []) = [].
Proof.
  cbv zeta.
  destruct (timeout_or_error_without_samples
              [EvOpen; EvMessage (Dsp "3f3f5b068400"); EvMessage (Dsp "0000000000")]
              [] eq_refl eq_refl) as [[H1 _] [[H2 _] _]].
  split; [exact H1|exact H2].
Defined.

(** C2, as stated, fails: the transport closing (or failing) after one
    sample was collected ends the session and stores nothing; the sample
    is dropped. *)
Lemma close_with_one_sample_stores_nothing :
  let onClosed := collectReading [EvOpen; EvMessage (Dsp "717f6f000400"); EvClose] [] in
  let onFailure := collectReading [EvOpen; EvMessage (Dsp "717f6f000400"); EvError] [] in
  samples onClosed = [98] /\ promise onClosed = Resolved /\ db onClosed = [] /\
  samples onFailure = [98] /\ promise onFailure = Rejected /\ db onFailure = [] /\
  ~ (exists row : DB.Reading,
       db onClosed = [row] /\ DB.temperature row = Some (inject_Z 98)).
Proof.
  cbv zeta. repeat split; try reflexivity.
  intros [row [H _]]. discriminate H.
Qed.

(** C2, amended.  When a session has received only frames, with one or
    two temperature samples among them, then: if the transport reports
    closed the session resolves without storing a Reading; if it reports
    an error the session is rejected without storing a Reading; the
    samples collected so far are finalized only by the timer, which
    stores exactly one Reading whose temperature is their median, the
    value of the sample itself when there is exactly one. *)
Theorem partial_samples_end_of_session
  (events : list Event) (db0 : DB.log) :
  forallb isFrame events = true ->
  samplesOf events <> [] ->
  (List.length (samplesOf events) < SAMPLE_COUNT)%nat ->
  (let s := collectReading (events ++ [EvClose]) db0 in
   db s = db0 /\ promise s = Resolved /\ timeoutPending s = false) /\
  (let s := collectReading (events ++ [EvError]) db0 in
   db s = db0 /\ promise s = Rejected /\ timeoutPending s = false) /\
  (let s := collectReading (events ++ [EvTimeout]) db0 in
   promise s = Resolved /\
   exists row : DB.Reading,
     db s = db0 ++ [row] /\
     DB.temperature row = median (samplesOf events) /\
     forall v : Z, samplesOf events = [v] -> DB.temperature row = Some (inject_Z v)).
Proof.
  intros Hf Hne Hlen.
  destruct (run_collecting events Hf (initialSession db0)) as [H1 [H2 [H3 [H4 H5]]]].
  { exact Hlen. }
  fold (collectReading events db0) in H1, H2, H3, H4, H5.
  cbn [initialSession samples db timeoutPending promise closeCalls app]
    in H1, H2, H3, H4, H5.
  split; [|split].
  - cbv zeta. rewrite collectReading_snoc. cbn. rewrite H2, H4. repeat split.
  - cbv zeta. rewrite collectReading_snoc. cbn. rewrite H2, H4. repeat split.
  - cbv zeta. rewrite collectReading_snoc. cbn [handle]. unfold onTimeout.
    rewrite H3. cbv zeta. cbn [samples wsClose clearTimeout]. rewrite H1.
    destruct (samplesOf events) as [|v r] eqn:Es; [congruence|].
    cbn [List.length Nat.ltb Nat.leb]. cbn. rewrite H4. split; [reflexivity|].
    eexists. rewrite H1, H2. split; [reflexivity|]. split; [reflexivity|].
    intros v' Hv. injection Hv as -> ->. reflexivity.
Qed.

(** The instance of [partial_samples_end_of_session] at a session that
    collected the single sample 98. *)
Lemma partial_samples_end_of_session_witness :
  let events := [EvOpen; EvMessage (Dsp "717f6f000400")] in
  db (collectReading (events ++ [EvClose]) []) = [] /\
  exists row : DB.Reading,
    db (collectReading (events ++ [EvTimeout]) []) = [] ++ [row] /\
    DB.temperature row = Some (inject_Z 98).
Proof.
  cbv zeta.
  destruct (partial_samples_end_of_session
              [EvOpen; EvMessage (Dsp "717f6f000400")] []
              eq_refl ltac:(discriminate) ltac:(vm_compute; lia))
    as [[H1 _] [_ [_ [row [H3 [_ H4]]]]]].
  split; [exact H1|].
  exists row. split; [exact H3|]. apply H4. reflexivity.
Defined.

(** C3, as stated, fails in both directions: a session whose transport
    closes before three samples stores no Reading, and a session that
    receives a fourth temperature frame after it has finalized stores a
    second one (the message callback does not look at whether the session
    is over). *)
Lemma one_reading_per_session_fails :
  db (collectReading [EvOpen; EvClose] []) = [] /\
  (let four := [EvOpen; EvMessage (Dsp "717f6f000400"); EvMessage (Dsp "717f6f000400");
                EvMessage (Dsp "717f6f000400"); EvMessage (Dsp "717f6f000400")] in
   promise (collectReading (firstn 4 four) []) = Resolved /\
   List.length (db (collectReading (firstn 4 four) [])) = 1%nat /\
   List.length (db (collectReading four [])) = 2%nat).
Proof. cbv zeta. repeat split; reflexivity. Qed.

(** C3, amended.  For every sequence of events: while the promise is
    pending nothing has been stored, the timer is armed and fewer than
    three samples are held.  The event that arrives then decides what is
    stored: a close resolves and an error rejects the session, and
    neither stores a Reading; the timer resolves it and stores no Reading
    when no sample is held, and exactly one Reading, with the median of
    the samples held, otherwise; a temperature frame that brings the
    third sample resolves it and stores exactly one Reading with the
    median of the three samples, while an earlier temperature frame, any
    other frame and the open event store nothing and leave the promise
    pending.  Once the promise is settled, every timer, close, error or
    open event leaves the session exactly as it is, so none of them
    stores a Reading.  (What a frame does after the session is settled is
    not part of this statement.) *)
Theorem at_most_one_reading_until_settled
  (events : list Event) (db0 : DB.log) :
  let s := collectReading events db0 in
  (promise s = Pending ->
   db s = db0 /\ timeoutPending s = true
   /\ (List.length (samples s) < SAMPLE_COUNT)%nat) /\
  (promise s = Pending ->
   (db (handle s EvClose) = db0 /\ promise (handle s EvClose) = Resolved) /\
   (db (handle s EvError) = db0 /\ promise (handle s EvError) = Rejected) /\
   (promise (handle s EvTimeout) = Resolved /\
    (samples s = [] -> db (handle s EvTimeout) = db0) /\
    (samples s <> [] ->
     exists row : DB.Reading,
       db (handle s EvTimeout) = db0 ++ [row] /\
       DB.temperature row = median (samples s) /\ DB.temperature row <> None)) /\
   (forall (m : Message) (t : Z),
      sampleOf (EvMessage m) = Some t ->
      (S (List.length (samples s)) = SAMPLE_COUNT ->
       promise (handle s (EvMessage m)) = Resolved /\
       exists row : DB.Reading,
         db (handle s (EvMessage m)) = db0 ++ [row] /\
         DB.temperature row = median (samples s ++ [t]) /\
         DB.temperature row <> None) /\
      ((S (List.length (samples s)) < SAMPLE_COUNT)%nat ->
       db (handle s (EvMessage m)) = db0 /\
       promise (handle s (EvMessage m)) = Pending)) /\
   (forall e : Event,
      isFrame e = true -> sampleOf e = None ->
      db (handle s e) = db0 /\ promise (handle s e) = Pending)) /\
  (promise s <> Pending ->
   forall e : Event, (forall m : Message, e <> EvMessage m) -> handle s e = s).
Proof.
  cbv zeta. destruct (sessionInvariant_run events db0) as [Hp Hs].
  set (s := collectReading events db0) in *.
  split; [exact Hp|]. split.
  - intros Hpend. destruct (Hp Hpend) as [Hd [Ht Hlen]].
    split; [|split; [|split; [|split]]].
    + cbn. rewrite Hpend. now split.
    + cbn. rewrite Hpend. now split.
    + cbn [handle]. unfold onTimeout. rewrite Ht. cbv zeta.
      cbn [samples wsClose clearTimeout].
      destruct (samples s) as [|v r] eqn:Es.
      * cbn. rewrite Hpend. split; [reflexivity|]. split; [intros _; exact Hd|].
        intros Hne. now contradiction Hne.
      * cbn [List.length Nat.ltb Nat.leb]. cbn [settle doWriteReading promise db].
        cbn [wsClose clearTimeout promise samples state db].
        rewrite Hpend, Es, Hd. split; [reflexivity|].
        split; [intros Hnil; discriminate Hnil|]. intros _.
        destruct (writeReading_row (v :: r) (state s) db0) as [row [Hw [Htemp _]]].
        exists row. split; [exact Hw|]. split; [exact Htemp|].
        rewrite Htemp. apply median_nonempty. discriminate.
    + intros m t Hsample.
      destruct (handle_sample s (EvMessage m) t Hsample) as [H1 [H2 H3]].
      split.
      * intros Hthird.
        destruct H3 as [H4 [_ [H5 _]]].
        { rewrite length_app. cbn [List.length]. lia. }
        rewrite H5, Hpend. split; [reflexivity|].
        destruct (writeReading_row (samples s ++ [t])
                    (state (handle s (EvMessage m))) (db s)) as [row [Hw [Htemp _]]].
        exists row. rewrite H4, Hw, Hd. split; [reflexivity|].
        split; [exact Htemp|]. rewrite Htemp. apply median_nonempty.
        now destruct (samples s).
      * intros Hearly.
        destruct H2 as [H4 [_ [H5 _]]].
        { rewrite length_app. cbn [List.length]. lia. }
        rewrite H4, H5. now split.
    + intros e He Hnone.
      destruct (handle_no_sample s e He Hnone) as [_ [H2 [_ [H4 _]]]].
      rewrite H2, H4. now split.
  - intros Hset e He. apply settled_ignores; auto.
Qed.

(** Instances of [at_most_one_reading_until_settled]: after two samples
    the session is pending and has stored nothing, and the third sample
    stores one Reading; after the third sample the session is settled and
    a close event changes nothing. *)
Lemma at_most_one_reading_until_settled_witness :
  let two := [EvOpen; EvMessage (Dsp "717f6f000400"); EvMessage (Dsp "717f6f000400")] in
  let three := two ++ [EvMessage (Dsp "717f6f000400")] in
  db (collectReading two []) = [] /\
  (exists row : DB.Reading,
     db (handle (collectReading two []) (EvMessage (Dsp "717f6f000400"))) = [] ++ [row] /\
     DB.temperature row = median ([98; 98] ++ [98]) /\ DB.temperature row <> None) /\
  handle (collectReading three []) EvClose = collectReading three [].
Proof.
  cbv zeta. split; [|split].
  - apply (proj1 (at_most_one_reading_until_settled
                    [EvOpen; EvMessage (Dsp "717f6f000400");
                     EvMessage (Dsp "717f6f000400")] [])).
    reflexivity.
  - destruct (proj1 (proj2 (at_most_one_reading_until_settled
                    [EvOpen; EvMessage (Dsp "717f6f000400");
                     EvMessage (Dsp "717f6f000400")] [])) eq_refl)
      as [_ [_ [_ [H _]]]].
    destruct (H (Dsp "717f6f000400") 98 eq_refl) as [Hthird _].
    apply Hthird. reflexivity.
  - apply (proj2 (proj2 (at_most_one_reading_until_settled
                    ([EvOpen; EvMessage (Dsp "717f6f000400");
                      EvMessage (Dsp "717f6f000400")]
                     ++ [EvMessage (Dsp "717f6f000400")]) []))).
    + discriminate.
    + discriminate.
Defined.

(** C10.  [writeReading] called on a state whose [lastStatusByte1] is
    null stores a row whose am flag is false.  Hence, in a session none of
    whose frames carried status byte A, [lastStatusByte1] is still null
    when the session ends and every Reading the session stored has am
    false. *)
Theorem am_defaults_to_false :
  (forall (samples0 : list Z) (st : CollectionState) (db0 : DB.log),
     lastStatusByte1 st = None ->
     exists row : DB.Reading,
       writeReading samples0 st db0 = db0 ++ [row] /\ DB.am row = false) /\
  (forall (events : list Event) (db0 : DB.log),
     forallb noStatusA events = true ->
     let s := collectReading events db0 in
     lastStatusByte1 (state s) = None /\
     forall row : DB.Reading, In row (db s) -> In row db0 \/ DB.am row = false).
Proof.
  split.
  - intros samples0 st db0 Hnull.
    destruct (writeReading_row samples0 st db0) as [row [Hw [_ Ham]]].
    exists row. split; [exact Hw|]. now rewrite Ham, Hnull.
  - intros events db0. cbv zeta.
    induction events as [|e r IH] using rev_ind; intros Hn.
    + split; [reflexivity|]. intros row Hin. now left.
    + rewrite forallb_app in Hn. apply andb_true_iff in Hn.
      destruct Hn as [Hr He]. cbn [forallb] in He. rewrite andb_true_r in He.
      destruct (IH Hr) as [Hlast Hrows].
      rewrite collectReading_snoc.
      pose proof (handle_keeps_lastStatusByte1 (collectReading r db0) e He) as Hk.
      rewrite Hlast in Hk. split; [exact Hk|].
      intros row Hin.
      destruct (handle_db (collectReading r db0) e) as [Hd|[Hd _]].
      * rewrite Hd in Hin. now apply Hrows.
      * rewrite Hd in Hin.
        destruct (writeReading_row (samples (handle (collectReading r db0) e))
                    (state (handle (collectReading r db0) e))
                    (db (collectReading r db0))) as [row' [Hw [_ Ham]]].
        rewrite Hw in Hin. apply in_app_or in Hin. destruct Hin as [Hin|Hin].
        { now apply Hrows. }
        { destruct Hin as [<-|[]]. right. now rewrite Ham, Hk. }
Qed.

(** The instance of [am_defaults_to_false] at a session fed three
    four-byte temperature frames, which carry no status byte: a Reading is
    stored and its am flag is false. *)
Lemma am_defaults_to_false_witness :
  let events := [EvMessage (Dsp "717f6f00"); EvMessage (Dsp "717f6f00");
                 EvMessage (Dsp "717f6f00")] in
  List.length (db (collectReading events [])) = 1%nat /\
  forall row : DB.Reading,
    In row (db (collectReading events [])) -> In row [] \/ DB.am row = false.
Proof.
  cbv zeta. split; [reflexivity|].
  apply (proj2 am_defaults_to_false
           [EvMessage (Dsp "717f6f00"); EvMessage (Dsp "717f6f00");
            EvMessage (Dsp "717f6f00")] [] eq_refl).
Defined.

(** * Further properties of the decoder *)

Section DecoderShape.

(** Every return of [parseDisplayData], with what the tests on the way
    to it establish. *)
Lemma parseDisplayData_cases (hexString : string) :
  let bytes := hexBytes hexString in
  let d := parseDisplayData hexString in
  d = mkDisplay ty_blank "" None None None
  \/ d = mkDisplay ty_eco "ECOn" None (nth_error bytes 4) (nth_error bytes 5)
  \/ (exists text : string, d = mkDisplay ty_unknown text None None None)
  \/ (exists t : Z,
        45 <= t <= 106 /\ bitand (nth_error bytes 0) 0x7f = 0x71 /\
        d = mkDisplay ty_temp (degreesF t) (Some t)
              (nth_error bytes 4) (nth_error bytes 5))
  \/ (exists v : string,
        d = mkDisplay ty_time v None (nth_error bytes 4) (nth_error bytes 5))
  \/ d = mkDisplay ty_unknown hexString None (nth_error bytes 4) (nth_error bytes 5).
Proof.
  unfold parseDisplayData. cbv beta zeta.
  repeat match goal with
         | |- context [if ?c then _ else _] => destruct c eqn:?
         | |- context [match ?x with _ => _ end] => destruct x eqn:?
         end;
    first
      [ left; reflexivity
      | right; left; reflexivity
      | do 2 right; left; eexists; reflexivity
      | do 4 right; left; eexists; reflexivity
      | do 5 right; reflexivity
      | do 3 right; left; eexists; split; [|split; [|reflexivity]];
        [ repeat match goal with
                 | H : (_ && _)%bool = true |- _ =>
                     apply andb_true_iff in H; destruct H
                 | H : (_ <=? _) = true |- _ => apply Z.leb_le in H
                 end;
          unfold MIN_VALID_TEMP, MAX_VALID_TEMP in *; lia
        | match goal with
          | H : (_ =? 113) = true |- _ => apply Z.eqb_eq in H; exact H
          end ] ].
Qed.

End DecoderShape.

Section Tables.

Lemma low7_of_number (z : Z) : bitand (Some (Num z)) 0x7f = z mod 128.
Proof.
  unfold bitand. rewrite (ToInt32_small 0x7f) by lia.
  change 0x7f with (Z.ones 7). rewrite Z.land_ones by lia.
  unfold ToInt32. change (2 ^ 7) with 128.
  pose proof (Z.div_mod (z + 2 ^ 31) (2 ^ 32) ltac:(lia)) as Hdm.
  replace ((z + 2 ^ 31) mod 2 ^ 32 - 2 ^ 31)
    with (z + (- (33554432 * ((z + 2 ^ 31) / 2 ^ 32))) * 128) by lia.
  apply Z.mod_add. lia.
Qed.

Lemma low7_ignores_bit7 (z : Z) :
  bitand (Some (Num (z + 128))) 0x7f = bitand (Some (Num z)) 0x7f.
Proof.
  rewrite !low7_of_number.
  replace (z + 128) with (z + 1 * 128) by lia. apply Z.mod_add. lia.
Qed.

End Tables.

(** X1.  [decodeDigit] reads only the low seven bits of a byte: it yields
    a digit exactly when they are one of the eleven keys of the table, the
    digit is between 0 and 9, and setting bit 7 (the colon indicator)
    does not change the result.  A missing byte ([undefined]) and a byte
    that failed to parse (NaN) decode as the digit 0. *)
Theorem decodeDigit_table (byte : option jsnum) :
  (decodeDigit byte <> None <-> In (bitand byte 0x7f) DIGIT_KEYS) /\
  (forall d : Z, decodeDigit byte = Some d -> 0 <= d <= 9) /\
  (forall z : Z, decodeDigit (Some (Num (z + 128))) = decodeDigit (Some (Num z))) /\
  decodeDigit None = Some 0 /\ decodeDigit (Some NaN) = Some 0.
Proof.
  pose proof (bitand_0x7f_range byte) as Hr.
  unfold decodeDigit. cbv zeta.
  pose proof (below 128
    (fun m => match SEVEN_SEGMENT_DIGITS m with
              | Some d => existsb (Z.eqb m) DIGIT_KEYS && (0 <=? d) && (d <=? 9)
              | None => negb (existsb (Z.eqb m) DIGIT_KEYS)
              end) eq_refl _ Hr) as H.
  cbv beta in H.
  split; [|split; [|split; [|split; reflexivity]]].
  - destruct (SEVEN_SEGMENT_DIGITS (bitand byte 127)) as [d|].
    + apply andb_true_iff in H. destruct H as [H _].
      apply andb_true_iff in H. destruct H as [H _].
      apply existsb_exists in H. destruct H as [k [Hin Hk]].
      apply Z.eqb_eq in Hk. subst k. split; [intros _; exact Hin|discriminate].
    + split; [intros Hc; now contradiction Hc|].
      intros Hin. exfalso. apply negb_true_iff in H.
      assert (Ht : existsb (Z.eqb (bitand byte 127)) DIGIT_KEYS = true).
      { apply existsb_exists. exists (bitand byte 127). split; [exact Hin|apply Z.eqb_refl]. }
      congruence.
  - intros d Hd. rewrite Hd in H.
    apply andb_true_iff in H. destruct H as [H H9].
    apply andb_true_iff in H. destruct H as [_ H0].
    apply Z.leb_le in H0, H9. lia.
  - intros z. now rewrite low7_ignores_bit7.
Qed.

(** The instance of [decodeDigit_table] at the byte 0xe6 (4 with the colon
    bit). *)
Lemma decodeDigit_table_witness :
  In (bitand (Some (Num 0xe6)) 0x7f) DIGIT_KEYS /\ 0 <= 4 <= 9.
Proof.
  destruct (decodeDigit_table (Some (Num 0xe6))) as [H1 [H2 _]].
  split.
  - apply H1. discriminate.
  - apply H2. reflexivity.
Defined.

(** X2.  [decodeLetter] reads only the low seven bits of a byte: it
    yields a letter exactly when they are one of the nine keys of the
    letter table, the letter is one of E, C, o, n, F, H, L, U, P, and bit 7
    does not change the result.  No byte is both a letter and a digit, and
    a missing or unparsable byte is not a letter. *)
Theorem decodeLetter_table (byte : option jsnum) :
  (decodeLetter byte <> None <-> In (bitand byte 0x7f) LETTER_KEYS) /\
  (forall l : string, decodeLetter byte = Some l ->
     In l LETTERS /\ decodeDigit byte = None) /\
  (forall z : Z, decodeLetter (Some (Num (z + 128))) = decodeLetter (Some (Num z))) /\
  decodeLetter None = None /\ decodeLetter (Some NaN) = None.
Proof.
  pose proof (bitand_0x7f_range byte) as Hr.
  unfold decodeLetter, decodeDigit. cbv zeta.
  pose proof (below 128
    (fun m => match SEVEN_SEGMENT_LETTERS m with
              | Some l =>
                  existsb (Z.eqb m) LETTER_KEYS && existsb (String.eqb l) LETTERS
                  && match SEVEN_SEGMENT_DIGITS m with Some _ => false | None => true end
              | None => negb (existsb (Z.eqb m) LETTER_KEYS)
              end) eq_refl _ Hr) as H.
  cbv beta in H.
  split; [|split; [|split; [|split; reflexivity]]].
  - destruct (SEVEN_SEGMENT_LETTERS (bitand byte 127)) as [l|].
    + apply andb_true_iff in H. destruct H as [H _].
      apply andb_true_iff in H. destruct H as [H _].
      apply existsb_exists in H. destruct H as [k [Hin Hk]].
      apply Z.eqb_eq in Hk. subst k. split; [intros _; exact Hin|discriminate].
    + split; [intros Hc; now contradiction Hc|].
      intros Hin. exfalso. apply negb_true_iff in H.
      assert (Ht : existsb (Z.eqb (bitand byte 127)) LETTER_KEYS = true).
      { apply existsb_exists. exists (bitand byte 127). split; [exact Hin|apply Z.eqb_refl]. }
      congruence.
  - intros l Hl. rewrite Hl in H.
    apply andb_true_iff in H. destruct H as [H Hd].
    apply andb_true_iff in H. destruct H as [_ Hin].
    apply existsb_exists in Hin. destruct Hin as [x [Hin Hx]].
    apply String.eqb_eq in Hx. subst x. split; [exact Hin|].
    destruct (SEVEN_SEGMENT_DIGITS (bitand byte 127)); [discriminate Hd|reflexivity].
  - intros z. now rewrite low7_ignores_bit7.
Qed.

(** The instance of [decodeLetter_table] at the byte 0xf1 (F with bit 7). *)
Lemma decodeLetter_table_witness :
  In (bitand (Some (Num 0xf1)) 0x7f) LETTER_KEYS /\
  In "F" LETTERS /\ decodeDigit (Some (Num 0xf1)) = None.
Proof.
  destruct (decodeLetter_table (Some (Num 0xf1))) as [H1 [H2 _]].
  split.
  - apply H1. discriminate.
  - apply H2. reflexivity.
Defined.
Section BlankAndEcon.

Lemma blank_prefix_test (hexString : string) :
  (toLowerCase (JS.substring hexString 0 10) =? PATTERN_BLANK)%string = true <->
  exists rest : string, hexString = ("0000000000" ++ rest)%string.
Proof.
  split.
  - intros H. apply String.eqb_eq in H. unfold JS.substring, PATTERN_BLANK in H.
    destruct hexString as [|c0 [|c1 [|c2 [|c3 [|c4 [|c5 [|c6 [|c7 [|c8 [|c9 rest]]]]]]]]]];
      simpl in H; try discriminate H.
    injection H as H0 H1 H2 H3 H4 H5 H6 H7 H8 H9 _.
    rewrite lower_fixed in H0 by (rewrite H0; reflexivity).
    rewrite lower_fixed in H1 by (rewrite H1; reflexivity).
    rewrite lower_fixed in H2 by (rewrite H2; reflexivity).
    rewrite lower_fixed in H3 by (rewrite H3; reflexivity).
    rewrite lower_fixed in H4 by (rewrite H4; reflexivity).
    rewrite lower_fixed in H5 by (rewrite H5; reflexivity).
    rewrite lower_fixed in H6 by (rewrite H6; reflexivity).
    rewrite lower_fixed in H7 by (rewrite H7; reflexivity).
    rewrite lower_fixed in H8 by (rewrite H8; reflexivity).
    rewrite lower_fixed in H9 by (rewrite H9; reflexivity).
    subst. exists rest. reflexivity.
  - intros [rest ->]. apply String.eqb_eq.
    unfold JS.substring, PATTERN_BLANK. cbn.
    destruct rest; reflexivity.
Qed.

Lemma parse_blank_prefix (rest : string) :
  parseDisplayData ("0000000000" ++ rest) = mkDisplay ty_blank "" None None None.
Proof.
  unfold parseDisplayData. cbv beta zeta.
  replace ((toLowerCase (JS.substring ("0000000000" ++ rest) 0 10) =? PATTERN_BLANK)%string)
    with true; [reflexivity|].
  symmetry. apply blank_prefix_test. now exists rest.
Qed.

Lemma update_blank (st : CollectionState) :
  updateStateFromDisplay (mkDisplay ty_blank "" None None None) st = st.
Proof. reflexivity. Qed.

End BlankAndEcon.

(** X3.  A frame is classified blank exactly when its text starts with
    ten characters 0; whatever follows (a status byte B with bits set, the
    colon pattern [10], more text) is not looked at, so the second
    alternative of the blank test adds nothing.  A blank frame leaves the
    whole session as it is: no flag, no sample, no timer change. *)
Theorem blank_frames (hexString : string) :
  (type (parseDisplayData hexString) = ty_blank <->
   exists rest : string, hexString = ("0000000000" ++ rest)%string) /\
  (forall rest : string,
     hexString = ("0000000000" ++ rest)%string ->
     parseDisplayData hexString = mkDisplay ty_blank "" None None None /\
     forall s : Session, handle s (EvMessage (Dsp hexString)) = s).
Proof.
  split.
  - split.
    + intros Hty.
      destruct ((toLowerCase (JS.substring hexString 0 10) =? PATTERN_BLANK)%string)
        eqn:Ep.
      * now apply blank_prefix_test.
      * destruct (hexString =? "000000000010")%string eqn:Ee.
        { apply String.eqb_eq in Ee. subst. exists "10". reflexivity. }
        exfalso. revert Hty. unfold parseDisplayData. cbv beta zeta.
        rewrite Ep, Ee. cbn [orb].
        repeat match goal with
               | |- context [if ?c then _ else _] => destruct c
               | |- context [match ?x with _ => _ end] => destruct x
               end; cbn [type]; discriminate.
    + intros [rest ->]. now rewrite parse_blank_prefix.
  - intros rest ->. split; [apply parse_blank_prefix|].
    intros s. cbn [handle]. rewrite onMessage_frame.
    unfold frameOf. cbn [String.append String.eqb Ascii.eqb Bool.eqb].
    assert (E : parseDisplayData
                  (if (String.length ("0000000000" ++ rest) =? 10)%nat
                   then (("0000000000" ++ rest) ++ "00")%string
                   else ("0000000000" ++ rest)%string)
                = mkDisplay ty_blank "" None None None).
    { destruct (String.length ("0000000000" ++ rest) =? 10)%nat.
      - apply (parse_blank_prefix (rest ++ "00")).
      - apply parse_blank_prefix. }
    cbn [String.append] in E. rewrite E. cbv zeta. cbn [type temp].
    rewrite update_blank. destruct s; reflexivity.
Qed.

(** The instance of [blank_frames] at the frame [0000000000f0]. *)
Lemma blank_frames_witness :
  parseDisplayData "0000000000f0" = mkDisplay ty_blank "" None None None /\
  handle (initialSession []) (EvMessage (Dsp "0000000000f0")) = initialSession [].
Proof.
  destruct (proj2 (blank_frames "0000000000f0") "f0" eq_refl) as [H1 H2].
  split; [exact H1|apply H2].
Defined.

(** X4.  A frame whose first eight characters are [545c3979], in either
    letter case, is classified eco with value ECOn
    and carries bytes 4 and 5, whatever they are, as its status bytes. *)
Theorem econ_frames (hexString : string) :
  toLowerCase (JS.substring hexString 0 8) = "545c3979" ->
  parseDisplayData hexString
  = mkDisplay ty_eco "ECOn" None
      (nth_error (hexBytes hexString) 4) (nth_error (hexBytes hexString) 5).
Proof.
  intros H. unfold parseDisplayData. cbv beta zeta.
  assert (Hb : (toLowerCase (JS.substring hexString 0 10) =? PATTERN_BLANK)%string
               || (hexString =? "000000000010")%string = false).
  { destruct ((toLowerCase (JS.substring hexString 0 10) =? PATTERN_BLANK)%string
              || (hexString =? "000000000010")%string) eqn:E; [|reflexivity].
    exfalso. apply blank_first_byte in E. destruct E as [r Hr].
    assert (He : (toLowerCase (JS.substring hexString 0 8)
                  =? toLowerCase PATTERN_ECON)%string = true).
    { apply String.eqb_eq. rewrite H. reflexivity. }
    apply econ_first_byte in He. destruct He as [r' Hr'].
    rewrite Hr in Hr'. discriminate Hr'. }
  rewrite Hb, H. reflexivity.
Qed.

(** The instance of [econ_frames] at the frame [545C397904ff]. *)
Lemma econ_frames_witness :
  parseDisplayData "545C397904ff"
  = mkDisplay ty_eco "ECOn" None (Some (Num 4)) (Some (Num 255)).
Proof. apply (econ_frames "545C397904ff" eq_refl). Defined.

(** X5.  What every result of [parseDisplayData] satisfies, for any
    text: its type is never heating; it has a [temp] exactly when its type
    is temp; a [temp] is between 45 and 106, its value is the temperature
    followed by the degree sign and F, and byte 0 of the frame has the
    Fahrenheit code in its low seven bits; each status byte is either
    absent or the byte at position 4, respectively 5, of the frame. *)
Theorem decoder_output_invariant (hexString : string) :
  let d := parseDisplayData hexString in
  let bytes := hexBytes hexString in
  type d <> ty_heating /\
  (type d = ty_temp <-> temp d <> None) /\
  (forall t : Z, temp d = Some t ->
     45 <= t <= 106 /\ value d = degreesF t /\
     bitand (nth_error bytes 0) 0x7f = 0x71) /\
  (statusByte1 d = None \/ statusByte1 d = nth_error bytes 4) /\
  (statusByte2 d = None \/ statusByte2 d = nth_error bytes 5).
Proof.
  cbv zeta.
  destruct (parseDisplayData_cases hexString)
    as [E|[E|[[text E]|[[t [Hr [Hs E]]]|[[v E]|E]]]]];
    cbv zeta in E; rewrite E; cbn [type temp value statusByte1 statusByte2];
    (split; [discriminate|]);
    (split; [split; [try discriminate; intros _; discriminate
                    |try (intros Hc; now contradiction Hc); reflexivity]|]);
    (split; [intros t' Ht'; try discriminate Ht'|]);
    try (split; [left; reflexivity|left; reflexivity]);
    try (split; [right; reflexivity|right; reflexivity]).
  injection Ht' as <-. auto.
Qed.

(** The instance of [decoder_output_invariant] at the frame
    [f13f3f060400] (100 degrees). *)
Lemma decoder_output_invariant_witness :
  45 <= 100 <= 106 /\
  value (parseDisplayData "f13f3f060400") = degreesF 100 /\
  bitand (nth_error (hexBytes "f13f3f060400") 0) 0x7f = 0x71.
Proof.
  destruct (decoder_output_invariant "f13f3f060400") as [_ [_ [H _]]].
  apply H. reflexivity.
Defined.

(** X6.  A frame of six bytes that does not pass the blank test and whose
    bytes 0, 1 and 2 decode to digits is classified as a time: no earlier
    test intercepts it.  Its text is hours, a colon, the two-digit minutes
    and " AM" when bit 7 of byte 4 is set, where the minutes are bytes 1
    and 0 and the hours are byte 2 plus ten times byte 3 when byte 3
    decodes to a positive digit; it carries both status bytes. *)
Theorem classify_time
  (hexString : string) (b0 b1 b2 b3 b4 b5 : jsnum) (d0 d1 d2 : Z) :
  hexBytes hexString = [b0; b1; b2; b3; b4; b5] ->
  (toLowerCase (JS.substring hexString 0 10) =? PATTERN_BLANK)%string
  || (hexString =? "000000000010")%string = false ->
  decodeDigit (Some b0) = Some d0 ->
  decodeDigit (Some b1) = Some d1 ->
  decodeDigit (Some b2) = Some d2 ->
  parseDisplayData hexString
  = mkDisplay ty_time
      (timeText d0 d1 d2 (decodeDigit (Some b3)) (Some b4))
      None (Some b4) (Some b5).
Proof.
  intros Hbytes Hblank H0 H1 H2.
  unfold parseDisplayData. cbv beta zeta. rewrite Hbytes, Hblank.
  cbn [nth_error firstn].
  destruct (toLowerCase (JS.substring hexString 0 8) =? toLowerCase PATTERN_ECON)%string
    eqn:Eecon.
  { apply econ_first_byte in Eecon. destruct Eecon as [r Hr].
    rewrite Hbytes in Hr. injection Hr as -> _. discriminate H0. }
  assert (Hletters : (2 <=? List.length (decodedLetters [b0; b1; b2; b3]))%nat = false).
  { unfold decodedLetters.
    rewrite (digit_not_letter _ _ H0), (digit_not_letter _ _ H1),
      (digit_not_letter _ _ H2).
    destruct (decodeLetter (Some b3)); reflexivity. }
  rewrite Hletters. cbn [andb].
  destruct (bitand (Some b0) 127 =? 113) eqn:Ef.
  { apply Z.eqb_eq in Ef. unfold decodeDigit in H0. cbv zeta in H0.
    rewrite Ef in H0. discriminate H0. }
  rewrite H0, H1, H2. reflexivity.
Qed.

(** The instance of [classify_time] at the frame [3f3f5b868400]
    (12:00 AM). *)
Lemma classify_time_witness :
  parseDisplayData "3f3f5b868400"
  = mkDisplay ty_time "12:00 AM" None (Some (Num 0x84)) (Some (Num 0)).
Proof.
  apply (classify_time "3f3f5b868400"
           (Num 0x3f) (Num 0x3f) (Num 0x5b) (Num 0x86) (Num 0x84) (Num 0)
           0 0 2 eq_refl eq_refl eq_refl eq_refl eq_refl).
Defined.

Section Padding.

Lemma padded_byte5 (dspData : string) :
  String.length dspData = 10%nat ->
  nth_error (hexBytes (dspData ++ "00")) 5 = Some (Num 0).
Proof.
  intros Hlen.
  destruct dspData as [|c0 [|c1 [|c2 [|c3 [|c4 [|c5 [|c6 [|c7 [|c8 [|c9 [|c10 r]]]]]]]]]]];
    cbn [String.length] in Hlen; try discriminate Hlen.
  cbn [String.append]. rewrite !hexBytes_cons2. reflexivity.
Qed.

Lemma decoder_shape_status2 (hexString : string) :
  statusByte2 (parseDisplayData hexString) = None
  \/ statusByte2 (parseDisplayData hexString) = nth_error (hexBytes hexString) 5.
Proof.
  destruct (parseDisplayData_cases hexString)
    as [E|[E|[[text E]|[[t [_ [_ E]]]|[[v E]|E]]]]];
    cbv zeta in E; rewrite E; cbn [statusByte2]; auto.
Qed.

End Padding.

(** X7.  A [dsp] of ten characters is padded with [00] before it is
    decoded, so the status byte B of its frame, when the frame carries
    one, is 0.  Such a message therefore never turns on lightOn, jets2Hi,
    jets2Lo or auxLo: after it each of the four flags is either what it
    was (blank and mode-word frames) or false. *)
Theorem ten_character_dsp_clears_status_B (dspData : string) (s : Session) :
  String.length dspData = 10%nat ->
  let display := parseDisplayData (dspData ++ "00") in
  let s' := handle s (EvMessage (Dsp dspData)) in
  (statusByte2 display = None \/ statusByte2 display = Some (Num 0)) /\
  (flagsB (state s') = flagsB (state s)
   \/ flagsB (state s') = [false; false; false; false]).
Proof.
  intros Hlen. cbv zeta.
  assert (Hsb : statusByte2 (parseDisplayData (dspData ++ "00")) = None
                \/ statusByte2 (parseDisplayData (dspData ++ "00")) = Some (Num 0)).
  { destruct (decoder_shape_status2 (dspData ++ "00")) as [H|H]; [now left|].
    right. rewrite H. now apply padded_byte5. }
  split; [exact Hsb|].
  cbn [handle]. rewrite onMessage_frame. unfold frameOf.
  destruct (dspData =? "")%string eqn:Ee.
  { apply String.eqb_eq in Ee. subst. discriminate Hlen. }
  rewrite Hlen. cbn [Nat.eqb]. cbv zeta.
  set (display := parseDisplayData (dspData ++ "00")) in *.
  assert (Hst : flagsB (updateStateFromDisplay display (state s)) = flagsB (state s)
                \/ flagsB (updateStateFromDisplay display (state s))
                   = [false; false; false; false]).
  { destruct display as [ty v t sb1 sb2]. cbn [statusByte2] in Hsb.
    unfold updateStateFromDisplay. cbn [statusByte1 statusByte2 type temp].
    destruct Hsb as [-> | ->].
    - left. destruct sb1, ty, t; reflexivity.
    - right. destruct sb1, ty, t; reflexivity. }
  destruct (type display), (temp display); try exact Hst.
  destruct (SAMPLE_COUNT <=? _)%nat; exact Hst.
Qed.

(** The instance of [ten_character_dsp_clears_status_B] at the message
    [717f6f0004] received in a state where the light is on. *)
Lemma ten_character_dsp_clears_status_B_witness :
  let lit := updateStateFromDisplay (parseDisplayData "717f6f000410") initialState in
  let s := mkSession [] lit true 0 Pending [] in
  lightOn lit = true /\
  (flagsB (state (handle s (EvMessage (Dsp "717f6f0004")))) = flagsB lit
   \/ flagsB (state (handle s (EvMessage (Dsp "717f6f0004"))))
      = [false; false; false; false]).
Proof.
  cbv zeta. split; [reflexivity|].
  apply (ten_character_dsp_clears_status_B "717f6f0004"
           (mkSession [] (updateStateFromDisplay (parseDisplayData "717f6f000410")
                            initialState) true 0 Pending [])
           eq_refl).
Defined.

(** * Further properties of the accumulator, the median and the session *)

Section Accumulator.

(** [updateStateFromDisplay] field by field. *)
Lemma update_fields (display : DisplayResult) (st : CollectionState) :
  updateStateFromDisplay display st =
  let a (mask : Z) (old : bool) :=
    match statusByte1 display with Some b1 => bitSet b1 mask | None => old end in
  let b (mask : Z) (old : bool) :=
    match statusByte2 display with Some b2 => bitSet b2 mask | None => old end in
  {| currentTemp := match type display, temp display with
                    | ty_temp, Some t => Some t
                    | _, _ => currentTemp st
                    end;
     heating := a STATUS_HEATING (heating st);
     auxHi := a STATUS_AUX_HI (auxHi st);
     jetsLo := a STATUS_JETS_LO (jetsLo st);
     jetsHi := a STATUS_JETS_HI (jetsHi st);
     filtering := a STATUS_FILTERING (filtering st);
     lightOn := b STATUS2_LIGHT (lightOn st);
     edit := a STATUS_EDIT (edit st);
     overheat := a STATUS_OVERHEAT (overheat st);
     jets2Hi := b STATUS2_JETS2_HI (jets2Hi st);
     jets2Lo := b STATUS2_JETS2_LO (jets2Lo st);
     auxLo := b STATUS2_AUX_LO (auxLo st);
     lastStatusByte1 := match statusByte1 display with
                        | Some b1 => Some b1
                        | None => lastStatusByte1 st
                        end |}.
Proof.
  destruct display as [ty v t sb1 sb2].
  destruct st as [ct h ah jl jh f lo e oh j2h j2l al ls].
  unfold updateStateFromDisplay. cbn [statusByte1 statusByte2 type temp].
  destruct sb1, sb2, ty, t; reflexivity.
Qed.

End Accumulator.

(** X8.  Merging the same frame twice in a row has the effect of merging
    it once: a repeated frame changes nothing. *)
Theorem updateStateFromDisplay_idempotent
  (display : DisplayResult) (st : CollectionState) :
  updateStateFromDisplay display (updateStateFromDisplay display st)
  = updateStateFromDisplay display st.
Proof.
  rewrite (update_fields display (updateStateFromDisplay display st)).
  rewrite (update_fields display st). cbv zeta.
  cbn [currentTemp heating auxHi jetsLo jetsHi filtering lightOn edit overheat
       jets2Hi jets2Lo auxLo lastStatusByte1].
  destruct (statusByte1 display), (statusByte2 display), (type display),
    (temp display); reflexivity.
Qed.

Section MedianFacts.

Lemma sorted_permutation_unique (l1 l2 : list Z) :
  StronglySorted Z.le l1 -> StronglySorted Z.le l2 -> Permutation l1 l2 -> l1 = l2.
Proof.
  intros H1. revert l2. induction H1 as [|x r Hr IH Hx]; intros l2 H2 Hp.
  - apply Permutation_nil in Hp. now subst.
  - destruct H2 as [|y r2 Hr2 Hy].
    + apply Permutation_sym, Permutation_nil in Hp. discriminate Hp.
    + assert (Exy : x = y).
      { assert (Hxin : In x (y :: r2))
          by (eapply Permutation_in; [exact Hp|now left]).
        assert (Hyin : In y (x :: r))
          by (eapply Permutation_in; [apply Permutation_sym; exact Hp|now left]).
        rewrite Forall_forall in Hx, Hy.
        destruct Hxin as [E|Hxin]; [now symmetry|].
        destruct Hyin as [E|Hyin]; [exact E|].
        specialize (Hx _ Hyin). specialize (Hy _ Hxin). lia. }
      subst y. f_equal. apply IH; [exact Hr2|].
      eapply Permutation_cons_inv. exact Hp.
Qed.

Lemma sort_asc_permutation (l1 l2 : list Z) :
  Permutation l1 l2 -> sort_asc l1 = sort_asc l2.
Proof.
  intros Hp. apply sorted_permutation_unique; try apply sort_asc_sorted.
  eapply perm_trans; [apply Permutation_sym, sort_asc_perm|].
  eapply perm_trans; [exact Hp|apply sort_asc_perm].
Qed.

Lemma mean2_bounds (lo hi a b : Z) :
  lo <= a <= hi -> lo <= b <= hi ->
  (inject_Z lo <= mean2 a b <= inject_Z hi)%Q.
Proof.
  intros Ha Hb. rewrite mean2_spec.
  unfold Qle, Qdiv, Qmult, Qplus, Qinv, inject_Z. cbn. lia.
Qed.

Lemma median_bounds (lo hi : Z) (values : list Z) :
  values <> [] -> Forall (fun v => lo <= v <= hi) values ->
  exists q : Q, median values = Some q /\ (inject_Z lo <= q <= inject_Z hi)%Q.
Proof.
  intros Hne Hall.
  assert (Hpos : (0 < List.length values)%nat).
  { destruct values; [congruence|cbn; lia]. }
  assert (Hs : Forall (fun v => lo <= v <= hi) (sort_asc values))
    by (eapply Permutation_Forall; [apply sort_asc_perm|exact Hall]).
  assert (Hnth : forall i, (i < List.length values)%nat ->
                           lo <= nth i (sort_asc values) 0 <= hi).
  { intros i Hi. rewrite Forall_forall in Hs. apply Hs, nth_In.
    now rewrite sort_asc_length. }
  pose proof (Nat.div_mod_eq (List.length values) 2) as Hdm.
  pose proof (Nat.mod_upper_bound (List.length values) 2 ltac:(lia)) as Hub.
  unfold median. rewrite sort_asc_length.
  destruct (Nat.eqb_spec (List.length values) 0) as [H0|_]; [lia|].
  destruct (negb (List.length values mod 2 =? 0)%nat).
  - eexists. split; [reflexivity|].
    rewrite <- !Zle_Qle. apply Hnth. lia.
  - eexists. split; [reflexivity|].
    apply mean2_bounds; apply Hnth; lia.
Qed.

End MedianFacts.

(** X9.  The median does not depend on the order in which the samples
    arrived: two lists that are permutations of each other have the same
    median. *)
Theorem median_permutation (l1 l2 : list Z) :
  Permutation l1 l2 -> median l1 = median l2.
Proof.
  intros Hp. unfold median.
  rewrite (sort_asc_permutation l1 l2 Hp), (Permutation_length Hp). reflexivity.
Qed.

(** The instance of [median_permutation] at 99, 97, 98 and 97, 98, 99. *)
Lemma median_permutation_witness : median [99; 97; 98] = median [97; 98; 99].
Proof.
  apply median_permutation.
  apply (perm_trans (l' := [97; 99; 98])).
  - apply perm_swap.
  - apply perm_skip, perm_swap.
Defined.



Section SessionFacts.

Lemma sampleOf_range (e : Event) (t : Z) : sampleOf e = Some t -> 45 <= t <= 106.
Proof.
  destruct e as [|m| | |]; try discriminate. cbn [sampleOf].
  destruct (frameOf m) as [display|] eqn:Ef; [|discriminate].
  destruct m as [| | |dspData]; try discriminate Ef. cbn [frameOf] in Ef.
  destruct (dspData =? "")%string; [discriminate Ef|]. injection Ef as <-.
  match goal with
  | |- context [parseDisplayData ?h] =>
      destruct (parseDisplayData_cases h)
        as [E|[E|[[text E]|[[t' [Hr [_ E]]]|[[v E]|E]]]]];
        cbv zeta in E; rewrite E; cbn [type temp]; try discriminate
  end.
  intros H. injection H as <-. exact Hr.
Qed.

(** Each event either leaves the samples and [currentTemp] alone or
    appends one sample and records it as [currentTemp]. *)
Lemma handle_samples_currentTemp (s : Session) (e : Event) :
  (samples (handle s e) = samples s
   /\ currentTemp (state (handle s e)) = currentTemp (state s))
  \/ (exists t : Z,
        sampleOf e = Some t /\ samples (handle s e) = samples s ++ [t]
        /\ currentTemp (state (handle s e)) = Some t).
Proof.
  destruct e as [|m| | |]; try (left; split; reflexivity).
  - cbn [handle sampleOf]. rewrite onMessage_frame.
    destruct (frameOf m) as [display|]; [|left; split; reflexivity].
    cbv zeta.
    destruct (type display) eqn:Et, (temp display) as [t|] eqn:Ev;
      try (left; split; [reflexivity|]; cbn [state];
           rewrite update_fields; cbv zeta; cbn [currentTemp];
           rewrite Et, ?Ev; reflexivity).
    right. exists t. split; [reflexivity|].
    destruct (SAMPLE_COUNT <=? _)%nat; (split; [reflexivity|]);
      cbn [state settle doWriteReading wsClose clearTimeout];
      rewrite update_fields; cbv zeta; cbn [currentTemp];
      rewrite Et, Ev; reflexivity.
  - left. cbn [handle]. unfold onTimeout.
    destruct (timeoutPending s); [|split; reflexivity].
    cbv zeta. destruct (0 <? _)%nat; split; reflexivity.
Qed.

Lemma lastSample_snoc (l : list Z) (t : Z) : lastSample (l ++ [t]) = Some t.
Proof. unfold lastSample. now rewrite rev_app_distr. Qed.

Lemma settled_stays (s : Session) (e : Event) :
  promise s <> Pending -> promise (handle s e) = promise s.
Proof.
  intros Hp. destruct e as [|m| | |].
  - reflexivity.
  - destruct (sampleOf (EvMessage m)) as [t|] eqn:Es.
    + destruct (handle_sample s _ t Es) as [_ [H2 H3]].
      destruct (Nat.leb_spec SAMPLE_COUNT (List.length (samples s ++ [t]))) as [Hge|Hlt].
      * destruct (H3 Hge) as [_ [_ [H _]]]. rewrite H.
        destruct (promise s); [now contradiction Hp|reflexivity|reflexivity].
      * now destruct (H2 Hlt) as [_ [_ [H _]]].
    + now destruct (handle_no_sample s (EvMessage m) eq_refl Es) as [_ [_ [_ [H _]]]].
  - cbn [handle]. unfold onTimeout. destruct (timeoutPending s); [|reflexivity].
    cbv zeta. destruct (0 <? _)%nat; cbn;
      (destruct (promise s); [now contradiction Hp|reflexivity|reflexivity]).
  - cbn. destruct (promise s); [now contradiction Hp|reflexivity|reflexivity].
  - cbn. destruct (promise s); [now contradiction Hp|reflexivity|reflexivity].
Qed.

Lemma samples_in_range (events : list Event) (db0 : DB.log) :
  Forall (fun t => 45 <= t <= 106) (samples (collectReading events db0)).
Proof.
  induction events as [|e r IH] using rev_ind.
  - constructor.
  - rewrite collectReading_snoc.
    destruct (handle_samples_currentTemp (collectReading r db0) e)
      as [[Hs _]|[t [Ht [Hs _]]]]; rewrite Hs; [exact IH|].
    apply Forall_app. split; [exact IH|].
    constructor; [|constructor]. now apply sampleOf_range in Ht.
Qed.

End SessionFacts.

(** X11.  At every point of a session, [state.currentTemp] is the most
    recent sample: null as long as no sample was collected, and the last
    element of [samples] afterwards; and every sample is a temperature
    between 45 and 106. *)
Theorem currentTemp_is_last_sample (events : list Event) (db0 : DB.log) :
  let s := collectReading events db0 in
  currentTemp (state s) = lastSample (samples s) /\
  Forall (fun t => 45 <= t <= 106) (samples s).
Proof.
  cbv zeta. induction events as [|e r [IH1 IH2]] using rev_ind.
  - split; [reflexivity|constructor].
  - rewrite collectReading_snoc.
    destruct (handle_samples_currentTemp (collectReading r db0) e)
      as [[Hs Hc]|[t [Ht [Hs Hc]]]].
    + rewrite Hs, Hc. split; assumption.
    + rewrite Hs, Hc, lastSample_snoc. split; [reflexivity|].
      apply Forall_app. split; [exact IH2|].
      constructor; [|constructor]. now apply sampleOf_range in Ht.
Qed.

(** X12.  Every Reading a session stores has a temperature, and that
    temperature is between 45 and 106 degrees. *)
Theorem stored_temperature_in_range
  (events : list Event) (db0 : DB.log) (row : DB.Reading) :
  In row (db (collectReading events db0)) ->
  In row db0 \/
  exists q : Q,
    DB.temperature row = Some q /\ (inject_Z 45 <= q <= inject_Z 106)%Q.
Proof.
  revert row. induction events as [|e r IH] using rev_ind; intros row Hin.
  - now left.
  - rewrite collectReading_snoc in Hin.
    destruct (handle_db (collectReading r db0) e) as [Hd|[Hd [Hne _]]].
    + rewrite Hd in Hin. now apply IH.
    + rewrite Hd in Hin.
      destruct (writeReading_row (samples (handle (collectReading r db0) e))
                  (state (handle (collectReading r db0) e))
                  (db (collectReading r db0))) as [row' [Hw [Htemp _]]].
      rewrite Hw in Hin. apply in_app_or in Hin. destruct Hin as [Hin|Hin].
      * now apply IH.
      * destruct Hin as [<-|[]]. right. rewrite Htemp.
        apply median_bounds; [exact Hne|].
        rewrite <- collectReading_snoc.
        apply (samples_in_range (r ++ [e]) db0).
Qed.

(** The instance of [stored_temperature_in_range] at a session that
    times out after the samples 98 and 100 (median 99). *)
Lemma stored_temperature_in_range_witness :
  exists q : Q,
    Some (inject_Z 99) = Some q /\ (inject_Z 45 <= q <= inject_Z 106)%Q.
Proof.
  destruct (stored_temperature_in_range
              [EvMessage (Dsp "717f6f000400"); EvMessage (Dsp "713f3f060400");
               EvTimeout] []
              (DB.mkReading (Some (inject_Z 99)) false true false false false
                 false false false false false false false)
              ltac:(left; reflexivity)) as [H|H].
  - destruct H.
  - exact H.
Defined.

(** X13.  The Reading written when the third sample arrives is a snapshot
    of the state as merged up to and including that frame: its flags are
    the state's flags after the frame, so the status bytes of the third
    temperature frame itself, not those of an earlier frame, decide
    them. *)
Theorem reading_is_snapshot_at_third_sample
  (events : list Event) (e : Event) (t : Z) (db0 : DB.log) :
  forallb isFrame events = true ->
  List.length (samplesOf events) = 2%nat ->
  sampleOf e = Some t ->
  let s := collectReading (events ++ [e]) db0 in
  samples s = samplesOf events ++ [t] /\
  db s = writeReading (samplesOf events ++ [t]) (state s) db0.
Proof.
  intros Hf Hlen He. cbv zeta.
  destruct (run_collecting events Hf (initialSession db0)) as [H1 [H2 _]].
  { cbn [initialSession samples app]. rewrite Hlen. unfold SAMPLE_COUNT. lia. }
  fold (collectReading events db0) in H1, H2.
  cbn [initialSession samples db app] in H1, H2.
  rewrite collectReading_snoc.
  destruct (handle_sample (collectReading events db0) e t He) as [H3 [_ H4]].
  rewrite H1 in H3, H4. split; [exact H3|].
  destruct H4 as [H5 _].
  - rewrite length_app, Hlen. unfold SAMPLE_COUNT. cbn. lia.
  - rewrite H5, H2. reflexivity.
Qed.

(** The instance of [reading_is_snapshot_at_third_sample] at a session
    whose third temperature frame is the first to report jets on low. *)
Lemma reading_is_snapshot_at_third_sample_witness :
  let events := [EvMessage (Dsp "717f6f000000"); EvMessage (Dsp "717f6f000000")] in
  let s := collectReading (events ++ [EvMessage (Dsp "717f6f000400")]) [] in
  jetsLo (state s) = true /\
  db s = writeReading ([98; 98] ++ [98]) (state s) [].
Proof.
  cbv zeta. split; [reflexivity|].
  apply (reading_is_snapshot_at_third_sample
           [EvMessage (Dsp "717f6f000000"); EvMessage (Dsp "717f6f000000")]
           (EvMessage (Dsp "717f6f000400")) 98 [] eq_refl eq_refl eq_refl).
Defined.

(** * Properties of a collection cycle *)

Section Cycle.

Lemma settled_stays_run (events more : list Event) (db0 : DB.log) :
  promise (collectReading events db0) <> Pending ->
  promise (collectReading (events ++ more) db0) = promise (collectReading events db0).
Proof.
  intros Hp. induction more as [|e r IH] using rev_ind.
  - now rewrite app_nil_r.
  - rewrite app_assoc, collectReading_snoc.
    rewrite settled_stays; [exact IH|]. now rewrite IH.
Qed.

(** Only the error callback rejects, and only a pending promise. *)
Lemma rejected_by_error (s : Session) (e : Event) :
  promise s = Pending -> promise (handle s e) = Rejected -> e = EvError.
Proof.
  intros Hp Hr. destruct e as [|m| | |]; try reflexivity; exfalso.
  - cbn in Hr. congruence.
  - destruct (sampleOf (EvMessage m)) as [t|] eqn:Es.
    + destruct (handle_sample s _ t Es) as [_ [H2 H3]].
      destruct (Nat.leb_spec SAMPLE_COUNT (List.length (samples s ++ [t]))) as [Hge|Hlt].
      * destruct (H3 Hge) as [_ [_ [H _]]]. rewrite Hp in H. congruence.
      * destruct (H2 Hlt) as [_ [_ [H _]]]. congruence.
    + destruct (handle_no_sample s (EvMessage m) eq_refl Es) as [_ [_ [_ [H _]]]].
      congruence.
  - cbn [handle] in Hr. unfold onTimeout in Hr.
    destruct (timeoutPending s); [|congruence].
    cbv zeta in Hr. destruct (0 <? _)%nat; cbn in Hr; rewrite Hp in Hr; discriminate Hr.
  - cbn in Hr. rewrite Hp in Hr. discriminate Hr.
Qed.

End Cycle.

(** X14.  [runCollection] reports a failed cycle exactly when a transport
    error arrives while the session is still unsettled (before the third
    sample, the timeout and any close).  At the moment the failure is
    reported nothing has been stored; an error that arrives after the
    session has settled is not reported. *)
Theorem cycle_fails_iff_error_while_pending (events : list Event) (db0 : DB.log) :
  runCollection events db0 = FailedAndLogged <->
  exists before after : list Event,
    events = before ++ EvError :: after /\
    runCollection before db0 = StillWaiting /\
    db (collectReading (before ++ [EvError]) db0) = db0.
Proof.
  unfold runCollection. split.
  - induction events as [|e r IH] using rev_ind.
    + cbn. discriminate.
    + rewrite collectReading_snoc.
      destruct (promise (collectReading r db0)) eqn:Ep.
      * intros Hr.
        destruct (promise (handle (collectReading r db0) e)) eqn:Eh;
          try discriminate Hr.
        apply (rejected_by_error _ _ Ep) in Eh. subst e.
        exists r, []. split; [reflexivity|]. rewrite Ep. split; [reflexivity|].
        rewrite collectReading_snoc. cbn [handle onError settle clearTimeout db].
        destruct (sessionInvariant_run r db0) as [Hinv _].
        now destruct (Hinv Ep) as [Hd _].
      * rewrite settled_stays by (rewrite Ep; discriminate). rewrite Ep. discriminate.
      * intros _. destruct IH as [before [after [E [H1 H2]]]]; [reflexivity|].
        exists before, (after ++ [e]). subst r.
        rewrite <- app_assoc. split; [reflexivity|]. split; assumption.
  - intros [before [after [-> [Hw Hd]]]].
    replace (before ++ EvError :: after) with ((before ++ [EvError]) ++ after)
      by (now rewrite <- app_assoc).
    assert (Hrej : promise (collectReading (before ++ [EvError]) db0) = Rejected).
    { rewrite collectReading_snoc. cbn.
      destruct (promise (collectReading before db0)); [reflexivity|discriminate Hw..]. }
    rewrite settled_stays_run by (rewrite Hrej; discriminate).
    now rewrite Hrej.
Qed.

(** The instance of [cycle_fails_iff_error_while_pending] at a session
    whose transport fails after one sample. *)
Lemma cycle_fails_iff_error_while_pending_witness :
  runCollection [EvOpen; EvMessage (Dsp "717f6f000400"); EvError; EvClose] []
  = FailedAndLogged.
Proof.
  apply (proj2 (cycle_fails_iff_error_while_pending
                  [EvOpen; EvMessage (Dsp "717f6f000400"); EvError; EvClose] [])).
  exists [EvOpen; EvMessage (Dsp "717f6f000400")], [EvClose].
  repeat split.
Defined.

(** * Properties of the storage and of the dashboard API *)

Section Storage.

Import Database.

Lemma toBit_eqb (flag : bool) : (toBit flag =? 1) = flag.
Proof. now destruct flag. Qed.

Lemma insertByTimestamp_perm (row : Sql.Row) (rows : list Sql.Row) :
  Permutation (row :: rows) (Sql.insertByTimestamp row rows).
Proof.
  induction rows as [|r rest IH]; cbn [Sql.insertByTimestamp].
  - apply Permutation_refl.
  - destruct (Sql.timestamp row <=? Sql.timestamp r).
    + apply Permutation_refl.
    + eapply perm_trans; [apply perm_swap|]. now apply perm_skip.
Qed.

Lemma orderByTimestamp_perm (rows : list Sql.Row) :
  Permutation rows (Sql.orderByTimestamp rows).
Proof.
  induction rows as [|r rest IH]; cbn [Sql.orderByTimestamp].
  - constructor.
  - eapply perm_trans; [apply perm_skip, IH|]. apply insertByTimestamp_perm.
Qed.

Lemma insertByTimestamp_sorted (row : Sql.Row) (rows : list Sql.Row) :
  StronglySorted byTimestamp rows ->
  StronglySorted byTimestamp (Sql.insertByTimestamp row rows).
Proof.
  induction 1 as [|r rest Hs IH Hall]; cbn [Sql.insertByTimestamp].
  - repeat constructor.
  - destruct (Z.leb_spec (Sql.timestamp row) (Sql.timestamp r)) as [Hle|Hgt].
    + constructor; [now constructor|].
      constructor; [exact Hle|].
      eapply Forall_impl; [|exact Hall]. unfold byTimestamp. intros z Hz. lia.
    + constructor; [exact IH|].
      eapply Permutation_Forall; [apply insertByTimestamp_perm|].
      constructor; [unfold byTimestamp; lia|exact Hall].
Qed.

Lemma orderByTimestamp_sorted (rows : list Sql.Row) :
  StronglySorted byTimestamp (Sql.orderByTimestamp rows).
Proof.
  induction rows as [|r rest IH]; cbn [Sql.orderByTimestamp].
  - constructor.
  - now apply insertByTimestamp_sorted.
Qed.

(** A row newer than all the others goes last. *)
Lemma insertByTimestamp_last (row : Sql.Row) (rows : list Sql.Row) :
  Forall (fun r => Sql.timestamp r < Sql.timestamp row) rows ->
  Sql.insertByTimestamp row rows = rows ++ [row].
Proof.
  induction 1 as [|r rest Hr _ IH]; cbn [Sql.insertByTimestamp app].
  - reflexivity.
  - destruct (Z.leb_spec (Sql.timestamp row) (Sql.timestamp r)); [lia|].
    now rewrite IH.
Qed.

Lemma sorted_last_is_greatest (rows : list Sql.Row) (row : Sql.Row) :
  StronglySorted byTimestamp (rows ++ [row]) ->
  Forall (fun r => Sql.timestamp r <= Sql.timestamp row) rows.
Proof.
  induction rows as [|r rest IH]; cbn [app]; intros H.
  - constructor.
  - inversion H as [|? ? Hs Hall]; subst. constructor.
    + rewrite Forall_forall in Hall. apply Hall, in_or_app. right. now left.
    + now apply IH.
Qed.

Lemma readingOfRow_inserted (now : Z) (state : DB.Reading) :
  readingOfRow
    {| Sql.timestamp := now;
       Sql.temperature := DB.temperature state;
       Sql.heating := toBit (DB.heating state);
       Sql.jets_lo := toBit (DB.jetsLo state);
       Sql.jets_hi := toBit (DB.jetsHi state);
       Sql.aux_hi := toBit (DB.auxHi state);
       Sql.filtering := toBit (DB.filtering state);
       Sql.light_on := toBit (DB.lightOn state);
       Sql.edit := toBit (DB.edit state);
       Sql.am := toBit (DB.am state);
       Sql.overheat := toBit (DB.overheat state);
       Sql.jets2_hi := toBit (DB.jets2Hi state);
       Sql.jets2_lo := toBit (DB.jets2Lo state);
       Sql.aux_lo := toBit (DB.auxLo state) |}
  = storedAs now state.
Proof.
  unfold readingOfRow, storedAs.
  cbn [Sql.timestamp Sql.temperature Sql.heating Sql.jets_lo Sql.jets_hi Sql.aux_hi
       Sql.filtering Sql.light_on Sql.edit Sql.am Sql.overheat Sql.jets2_hi
       Sql.jets2_lo Sql.aux_lo].
  now rewrite !toBit_eqb.
Qed.

Lemma filter_window_after_replace (now from to : Z) (table : Sql.Table) :
  filter (fun r => (from <=? Sql.timestamp r) && (Sql.timestamp r <=? to))
    (filter (fun r => negb (Sql.timestamp r =? now)) table)
  = if (from <=? now) && (now <=? to)
    then filter (fun r => (from <=? Sql.timestamp r) && (Sql.timestamp r <=? to)
                          && negb (Sql.timestamp r =? now)) table
    else filter (fun r => (from <=? Sql.timestamp r) && (Sql.timestamp r <=? to)) table.
Proof.
  induction table as [|r rest IH]; [now destruct ((from <=? now) && (now <=? to))|].
  cbn [filter]. destruct (Z.eqb_spec (Sql.timestamp r) now) as [E|E]; cbn [negb].
  - rewrite IH. rewrite E.
    destruct ((from <=? now) && (now <=? to)); cbn [andb]; reflexivity.
  - cbn [filter]. rewrite IH.
    destruct ((from <=? now) && (now <=? to));
      destruct ((from <=? Sql.timestamp r) && (Sql.timestamp r <=? to));
      cbn [andb]; reflexivity.
Qed.

Lemma getLatestStmt_spec (table : Sql.Table) (row : Sql.Row) :
  Sql.getLatestStmt table = Some row ->
  In row table /\ Forall (fun r => Sql.timestamp r <= Sql.timestamp row) table.
Proof.
  unfold Sql.getLatestStmt. intros H.
  pose proof (orderByTimestamp_perm table) as Hp.
  pose proof (orderByTimestamp_sorted table) as Hs.
  destruct (rev (Sql.orderByTimestamp table)) as [|x r] eqn:Er; [discriminate H|].
  injection H as ->.
  assert (Eo : Sql.orderByTimestamp table = rev r ++ [row]).
  { rewrite <- (rev_involutive (Sql.orderByTimestamp table)), Er. reflexivity. }
  rewrite Eo in Hp, Hs. split.
  - eapply Permutation_in; [apply Permutation_sym; exact Hp|].
    apply in_or_app. right. now left.
  - eapply Permutation_Forall; [apply Permutation_sym; exact Hp|].
    apply Forall_app. split.
    + now apply sorted_last_is_greatest.
    + constructor; [lia|constructor].
Qed.

Lemma getLatestStmt_none (table : Sql.Table) :
  Sql.getLatestStmt table = None <-> table = [].
Proof.
  unfold Sql.getLatestStmt. split.
  - intros H. pose proof (orderByTimestamp_perm table) as Hp.
    destruct (rev (Sql.orderByTimestamp table)) as [|x r] eqn:Er; [|discriminate H].
    assert (Eo : Sql.orderByTimestamp table = []).
    { rewrite <- (rev_involutive (Sql.orderByTimestamp table)), Er. reflexivity. }
    rewrite Eo in Hp. now apply Permutation_sym, Permutation_nil in Hp.
  - intros ->. reflexivity.
Qed.

Lemma getLatestStmt_insert (row : Sql.Row) (table : Sql.Table) :
  Forall (fun r => Sql.timestamp r <= Sql.timestamp row) table ->
  Sql.getLatestStmt (Sql.insertStmt row table) = Some row.
Proof.
  intros Hall. unfold Sql.getLatestStmt, Sql.insertStmt.
  cbn [Sql.orderByTimestamp].
  rewrite insertByTimestamp_last.
  - now rewrite rev_app_distr.
  - eapply Permutation_Forall; [apply orderByTimestamp_perm|].
    apply Forall_forall. intros r Hin. apply filter_In in Hin.
    destruct Hin as [Hin Hne]. rewrite Forall_forall in Hall.
    specialize (Hall _ Hin). apply negb_true_iff, Z.eqb_neq in Hne. lia.
Qed.

Lemma getReadings_In (from to : Z) (table : Sql.Table) (reading : Reading) :
  In reading (getReadings from to table) <->
  exists row : Sql.Row,
    In row table /\ from <= Sql.timestamp row <= to /\ reading = readingOfRow row.
Proof.
  unfold getReadings, Sql.getReadingsStmt. cbv zeta.
  set (rows := filter _ table). rewrite in_map_iff. split.
  - intros [row [<- Hin]].
    apply (Permutation_in _ (Permutation_sym (orderByTimestamp_perm rows))) in Hin.
    apply filter_In in Hin. destruct Hin as [Hin Hw].
    apply andb_true_iff in Hw. destruct Hw as [H1 H2].
    apply Z.leb_le in H1, H2. exists row. auto.
  - intros [row [Hin [[H1 H2] ->]]]. exists row. split; [reflexivity|].
    apply (Permutation_in _ (orderByTimestamp_perm rows)).
    apply filter_In. split; [exact Hin|].
    apply andb_true_iff. split; apply Z.leb_le; assumption.
Qed.

Lemma getReadingsForRange_window (range : string) (now : Z) (table : Sql.Table) :
  getReadingsForRange range now table = getReadings (now - windowOf range) now table.
Proof.
  unfold getReadingsForRange, windowOf. cbv zeta.
  destruct (range =? "1h")%string eqn:E1; [reflexivity|].
  destruct (range =? "24h")%string eqn:E2.
  { apply String.eqb_eq in E2. subst. reflexivity. }
  destruct (range =? "7d")%string; [reflexivity|].
  destruct (range =? "30d")%string; reflexivity.
Qed.

End Storage.

(** X15.  Insert and look up.  After [insertReading] at the instant
    [now], the window query for exactly that instant returns one
    Reading: the timestamp [now] with the temperature, the twelve flags
    and am that were passed in (the 0/1 columns read back as the same
    booleans), whatever the table held before, also a row already stored
    under the same timestamp, which is replaced.  When no stored row is
    newer than [now], [getLatestReading] returns that Reading too. *)
Theorem insert_then_query (now : Z) (state : DB.Reading) (table : Database.Sql.Table) :
  Database.getReadings now now (Database.insertReading now state table)
  = [storedAs now state] /\
  (Forall (fun r => Database.Sql.timestamp r <= now) table ->
   Database.getLatestReading (Database.insertReading now state table)
   = Some (storedAs now state)).
Proof.
  split.
  - unfold Database.getReadings, Database.insertReading, Database.Sql.getReadingsStmt,
      Database.Sql.insertStmt. cbv zeta.
    cbn [filter Database.Sql.timestamp]. rewrite Z.leb_refl. cbn [andb].
    rewrite filter_window_after_replace, Z.leb_refl. cbn [andb].
    replace (filter _ table) with (@nil Database.Sql.Row).
    + cbn [Database.Sql.orderByTimestamp Database.Sql.insertByTimestamp map].
      now rewrite readingOfRow_inserted.
    + symmetry. induction table as [|r rest IH]; [reflexivity|].
      cbn [filter]. rewrite <- IH.
      destruct (Z.eqb_spec (Database.Sql.timestamp r) now) as [E|E].
      * now rewrite andb_false_r.
      * replace ((now <=? Database.Sql.timestamp r) && (Database.Sql.timestamp r <=? now))
          with false; [reflexivity|].
        symmetry. apply andb_false_iff.
        destruct (Z.leb_spec now (Database.Sql.timestamp r)); [right|now left].
        apply Z.leb_gt. lia.
  - intros Hall. unfold Database.getLatestReading, Database.insertReading. cbv zeta.
    rewrite getLatestStmt_insert by exact Hall.
    now rewrite readingOfRow_inserted.
Qed.

(** The instance of [insert_then_query] at two Readings stored in the
    same millisecond: the second one is what the table holds. *)
Lemma insert_then_query_witness :
  let first := DB.mkReading (Some (inject_Z 98)) true false false false false
                 false false false false false false false in
  let second := DB.mkReading (Some (inject_Z 99)) false true false false false
                  false false true false false false false in
  Database.getLatestReading
    (Database.insertReading 1700000000000 second
       (Database.insertReading 1700000000000 first []))
  = Some (storedAs 1700000000000 second).
Proof.
  cbv zeta.
  apply (proj2 (insert_then_query 1700000000000
                  (DB.mkReading (Some (inject_Z 99)) false true false false false
                     false false true false false false false)
                  (Database.insertReading 1700000000000
                     (DB.mkReading (Some (inject_Z 98)) true false false false false
                        false false false false false false false) []))).
  repeat constructor. cbn. lia.
Defined.

(** X16.  [getReadings(from, to)] returns the Readings of exactly the
    stored rows whose timestamp lies in the closed window, in ascending
    order of timestamp. *)
Theorem getReadings_window (fromTimestamp toTimestamp : Z) (table : Database.Sql.Table) :
  let readings := Database.getReadings fromTimestamp toTimestamp table in
  StronglySorted (fun a b => Database.timestamp a <= Database.timestamp b) readings /\
  (forall reading : Database.Reading,
     In reading readings <->
     exists row : Database.Sql.Row,
       In row table /\
       fromTimestamp <= Database.Sql.timestamp row <= toTimestamp /\
       reading = Database.readingOfRow row) /\
  List.length readings
  = List.length (filter (fun r => (fromTimestamp <=? Database.Sql.timestamp r)
                                  && (Database.Sql.timestamp r <=? toTimestamp)) table).
Proof.
  cbv zeta. unfold Database.getReadings, Database.Sql.getReadingsStmt. cbv zeta.
  set (rows := filter _ table).
  split; [|split].
  - pose proof (orderByTimestamp_sorted rows) as Hs.
    induction Hs as [|r rest Hs IH Hall]; cbn [map]; constructor.
    + exact IH.
    + apply Forall_map. eapply Forall_impl; [|exact Hall].
      intros a Ha. exact Ha.
  - intros reading. apply getReadings_In.
  - rewrite length_map. symmetry. apply Permutation_length, orderByTimestamp_perm.
Qed.

(** X17.  [insertReading] keeps the primary key unique and touches no
    other row: a table without duplicate timestamps has none afterwards,
    it grows by at most one row, and every window query that does not
    contain the instant of the insert returns what it returned before. *)
Theorem insertReading_preserves_other_rows
  (now : Z) (state : DB.Reading) (table : Database.Sql.Table) :
  let table' := Database.insertReading now state table in
  (NoDup (keysOf table) -> NoDup (keysOf table')) /\
  (List.length table' <= S (List.length table))%nat /\
  (forall fromTimestamp toTimestamp : Z,
     ~ (fromTimestamp <= now <= toTimestamp) ->
     Database.getReadings fromTimestamp toTimestamp table'
     = Database.getReadings fromTimestamp toTimestamp table).
Proof.
  cbv zeta. unfold Database.insertReading, Database.Sql.insertStmt. cbv zeta.
  split; [|split].
  - intros Hnd. unfold keysOf. cbn [map Database.Sql.timestamp].
    constructor.
    + rewrite in_map_iff. intros [r [Hk Hin]]. apply filter_In in Hin.
      destruct Hin as [_ Hne]. apply negb_true_iff, Z.eqb_neq in Hne.
      cbn [Database.Sql.timestamp] in Hne. contradiction.
    + clear -Hnd. unfold keysOf in Hnd.
      induction table as [|r rest IH]; [constructor|].
      cbn [map] in Hnd. inversion Hnd as [|? ? Hnotin Hnd']; subst.
      cbn [filter]. destruct (negb _); [|now apply IH].
      cbn [map]. constructor; [|now apply IH].
      intros Hin. apply Hnotin. apply in_map_iff in Hin.
      destruct Hin as [x [Hx Hin]]. apply filter_In in Hin.
      apply in_map_iff. exists x. split; [exact Hx|apply Hin].
  - cbn [List.length]. apply le_n_S, filter_length_le.
  - intros from to Hout.
    unfold Database.getReadings, Database.Sql.getReadingsStmt. cbv zeta.
    cbn [filter Database.Sql.timestamp].
    assert (Hw : (from <=? now) && (now <=? to) = false).
    { apply andb_false_iff. destruct (Z.leb_spec from now); [right|now left].
      apply Z.leb_gt. lia. }
    rewrite Hw, filter_window_after_replace, Hw. reflexivity.
Qed.

(** The instance of [insertReading_preserves_other_rows] at a table
    with one row, a later insert and a window around the old row. *)
Lemma insertReading_preserves_other_rows_witness :
  let quiet := DB.mkReading (Some (inject_Z 98)) false false false false false
                 false false false false false false false in
  let table := Database.insertReading 1000 quiet [] in
  NoDup (keysOf (Database.insertReading 2000 quiet table)) /\
  Database.getReadings 0 1500 (Database.insertReading 2000 quiet table)
  = Database.getReadings 0 1500 table.
Proof.
  cbv zeta.
  destruct (insertReading_preserves_other_rows 2000
              (DB.mkReading (Some (inject_Z 98)) false false false false false
                 false false false false false false false)
              (Database.insertReading 1000
                 (DB.mkReading (Some (inject_Z 98)) false false false false false
                    false false false false false false false) []))
    as [H1 [_ H3]].
  split.
  - apply H1. repeat constructor. intros [].
  - apply H3. lia.
Defined.

(** X18.  [getReadingsForRange] queries the closed window that ends at
    the current instant and is one hour, 24 hours, 7 days or 30 days long;
    a range string that is none of the four gets the 24 hour window.
    Every Reading returned lies in that window, and a longer range
    returns every Reading that a shorter one returns. *)
Theorem getReadingsForRange_windows (now : Z) (table : Database.Sql.Table) :
  (forall range : string,
     Database.getReadingsForRange range now table
     = Database.getReadings (now - windowOf range) now table) /\
  windowOf "1h" = 60 * 60 * 1000 /\ windowOf "24h" = 24 * 60 * 60 * 1000 /\
  windowOf "7d" = 7 * 24 * 60 * 60 * 1000 /\
  windowOf "30d" = 30 * 24 * 60 * 60 * 1000 /\
  (forall range : string,
     ~ In range Server.validRanges ->
     Database.getReadingsForRange range now table
     = Database.getReadingsForRange "24h" now table) /\
  (forall (range : string) (reading : Database.Reading),
     In reading (Database.getReadingsForRange range now table) ->
     now - windowOf range <= Database.timestamp reading <= now) /\
  (forall (shorter longer : string) (reading : Database.Reading),
     windowOf shorter <= windowOf longer ->
     In reading (Database.getReadingsForRange shorter now table) ->
     In reading (Database.getReadingsForRange longer now table)).
Proof.
  split; [intros range; apply getReadingsForRange_window|].
  repeat (split; [reflexivity|]).
  split; [|split].
  - intros range Hnot. rewrite !getReadingsForRange_window. f_equal. f_equal.
    unfold windowOf. cbn in Hnot.
    destruct (String.eqb_spec range "1h") as [->|_]; [tauto|].
    destruct (String.eqb_spec range "7d") as [->|_]; [tauto|].
    destruct (String.eqb_spec range "30d") as [->|_]; [tauto|].
    reflexivity.
  - intros range reading. rewrite getReadingsForRange_window, getReadings_In.
    intros [row [_ [Hw ->]]]. exact Hw.
  - intros shorter longer reading Hle.
    rewrite !getReadingsForRange_window, !getReadings_In.
    intros [row [Hin [Hw ->]]]. exists row. split; [exact Hin|].
    split; [lia|reflexivity].
Qed.

(** The instance of [getReadingsForRange_windows] at a table with one
    row thirty minutes old: the misspelt range [1hr] is answered like
    24h, and what 1h returns 7d returns. *)
Lemma getReadingsForRange_windows_witness :
  let table := Database.insertReading 1700000000000
                 (DB.mkReading (Some (inject_Z 98)) false false false false false
                    false false false false false false false) [] in
  let now := 1700001800000 in
  Database.getReadingsForRange "1hr" now table
  = Database.getReadingsForRange "24h" now table /\
  (forall reading : Database.Reading,
     In reading (Database.getReadingsForRange "1h" now table) ->
     In reading (Database.getReadingsForRange "7d" now table)).
Proof.
  cbv zeta.
  destruct (getReadingsForRange_windows 1700001800000
              (Database.insertReading 1700000000000
                 (DB.mkReading (Some (inject_Z 98)) false false false false false
                    false false false false false false false) []))
    as [_ [_ [_ [_ [_ [H1 [_ H2]]]]]]].
  split.
  - apply H1. cbn. intros [H|[H|[H|[H|[]]]]]; discriminate H.
  - intros reading. apply H2. vm_compute. discriminate.
Defined.

(** X19.  [GET /api/readings] answers 400 exactly when the [range]
    parameter is present, not empty and not one of 1h, 24h, 7d, 30d (or is
    not a string at all); otherwise it answers with the Readings of
    [getReadingsForRange] for the given range, or for 24h when the
    parameter is missing or empty.  The handler therefore never calls
    [getReadingsForRange] with a range outside the four: its default
    branch is not reachable through the API. *)
Theorem apiReadings_spec
  (query : Server.QueryValue) (now : Z) (table : Database.Sql.Table) :
  match Server.apiReadings query now table with
  | Server.Json body =>
      exists range : string,
        In range Server.validRanges /\
        (query = Server.QString range
         \/ (range = "24h"
             /\ (query = Server.QAbsent \/ query = Server.QString ""))) /\
        body = Database.getReadingsForRange range now table
  | Server.Failure status _ =>
      status = 400 /\
      (query = Server.QOther
       \/ exists s : string,
            query = Server.QString s /\ s <> "" /\ ~ In s Server.validRanges)
  end.
Proof.
  unfold Server.apiReadings.
  destruct query as [|s|].
  - cbn. exists "24h". repeat split; auto.
  - destruct (String.eqb_spec s "") as [->|Hne].
    + cbn. exists "24h". repeat split; auto.
    + destruct (existsb (String.eqb s) Server.validRanges) eqn:Ev; cbn [negb].
      * apply existsb_exists in Ev. destruct Ev as [x [Hin Hx]].
        apply String.eqb_eq in Hx. subst x.
        exists s. repeat split; auto.
      * split; [reflexivity|]. right. exists s. repeat split; auto.
        intros Hin.
        assert (Ht : existsb (String.eqb s) Server.validRanges = true).
        { apply existsb_exists. exists s. split; [exact Hin|apply String.eqb_refl]. }
        congruence.
  - split; [reflexivity|now left].
Qed.

(** X20.  [GET /api/current] answers 404 exactly when the table is
    empty; otherwise it answers with the Reading of a stored row whose
    timestamp no other row exceeds.  Right after [insertReading] at an
    instant that no stored row is newer than, it answers with the Reading
    just stored. *)
Theorem apiCurrent_spec (table : Database.Sql.Table) :
  (Server.apiCurrent table = Server.Failure 404 "No readings available"
   <-> table = []) /\
  (forall latest : Database.Reading,
     Server.apiCurrent table = Server.Json latest ->
     exists row : Database.Sql.Row,
       In row table /\ latest = Database.readingOfRow row /\
       Forall (fun r => Database.Sql.timestamp r <= Database.timestamp latest) table) /\
  (forall (now : Z) (state : DB.Reading),
     Forall (fun r => Database.Sql.timestamp r <= now) table ->
     Server.apiCurrent (Database.insertReading now state table)
     = Server.Json (storedAs now state)).
Proof.
  unfold Server.apiCurrent, Database.getLatestReading.
  split; [|split].
  - destruct (Database.Sql.getLatestStmt table) as [row|] eqn:E.
    + split; [discriminate|]. intros ->. discriminate E.
    + split; [intros _; now apply getLatestStmt_none|reflexivity].
  - intros latest. destruct (Database.Sql.getLatestStmt table) as [row|] eqn:E;
      [|discriminate].
    intros H. injection H as <-. apply getLatestStmt_spec in E.
    destruct E as [Hin Hall]. exists row. repeat split; assumption.
  - intros now state Hall. unfold Database.insertReading. cbv zeta.
    rewrite getLatestStmt_insert by exact Hall.
    now rewrite readingOfRow_inserted.
Qed.

(** The instance of [apiCurrent_spec] at a Reading stored into an empty
    table. *)
Lemma apiCurrent_spec_witness :
  let state := DB.mkReading (Some (inject_Z 98)) true false false false false
                 false false false false false false false in
  Server.apiCurrent (Database.insertReading 1700000000000 state [])
  = Server.Json (storedAs 1700000000000 state).
Proof.
  cbv zeta.
  apply (proj2 (proj2 (apiCurrent_spec [])) 1700000000000
           (DB.mkReading (Some (inject_Z 98)) true false false false false
              false false false false false false false)).
  constructor.
Defined.

(** * Properties of the stand-alone listener *)

Section ListenerFacts.

Import Listener.

Lemma assignFlag_fst
  (get : SpaState -> bool) (set : bool -> SpaState -> SpaState)
  (label : string) (v : bool) (acc : SpaState * list string) :
  (forall s, set (get s) s = s) ->
  fst (assignFlag get set label v acc) = set v (fst acc).
Proof.
  intros Hlaw. unfold assignFlag.
  destruct (Bool.eqb_spec v (get (fst acc))) as [->|_]; cbn [negb fst].
  - now rewrite Hlaw.
  - reflexivity.
Qed.

Lemma differs_false (b : jsnum) (last : option jsnum) :
  differs b last = false -> last = Some b.
Proof.
  destruct b as [a|], last as [[c|]|]; cbn; try discriminate.
  intros H. apply negb_false_iff, Z.eqb_eq in H. now subst.
Qed.

(** Under [flagsMirrorStatus] the change test is only a shortcut. *)
Lemma statusBlock_state (display : DisplayResult) (s : SpaState) :
  flagsMirrorStatus s -> fst (statusBlock display s) = statusApplied display s.
Proof.
  intros [HA HB]. unfold statusBlock. cbv zeta.
  destruct (_ || _)%bool eqn:Ech.
  - clear Ech HA HB. unfold statusApplied. cbv zeta.
    destruct (statusByte1 display) as [b1|], (statusByte2 display) as [b2|];
      repeat (rewrite assignFlag_fst by (intros []; reflexivity));
      destruct s; reflexivity.
  - apply orb_false_iff in Ech. destruct Ech as [E1 E2].
    cbn [fst]. unfold statusApplied. cbv zeta.
    destruct s as [ct ltu eco lo h ah jl jh f sm l1 l2 si].
    cbn [lastStatusByte1 lastStatusByte2 heating auxHi jetsLo jetsHi filtering
         setMode lightOn currentTemp lastTempUpdate ecoMode stsI] in *.
    destruct (statusByte1 display) as [b1|], (statusByte2 display) as [b2|];
      try (apply differs_false in E1; subst l1);
      try (apply differs_false in E2; subst l2);
      try (destruct HA as [-> [-> [-> [-> [-> ->]]]]]);
      try rewrite HB; reflexivity.
Qed.

Lemma statusApplied_mirrors (display : DisplayResult) (s : SpaState) :
  flagsMirrorStatus s -> flagsMirrorStatus (statusApplied display s).
Proof.
  intros [HA HB]. unfold flagsMirrorStatus, statusApplied. cbv zeta.
  cbn [lastStatusByte1 lastStatusByte2 heating auxHi jetsLo jetsHi filtering
       setMode lightOn].
  split.
  - destruct (statusByte1 display) as [b1|]; [repeat split|exact HA].
  - destruct (statusByte2 display) as [b2|]; [reflexivity|exact HB].
Qed.

(** The [switch] only touches [currentTemp], [lastTempUpdate] and
    [ecoMode]. *)
Lemma typeBlock_state
  (now : Z) (h : string) (display : DisplayResult) (s : SpaState) (l : list string) :
  let s' := fst (typeBlock now h display (s, l)) in
  currentTemp s' = match type display, temp display with
                   | ty_temp, Some t => Some t
                   | _, _ => currentTemp s
                   end /\
  ecoMode s' = match type display with ty_eco => true | _ => ecoMode s end /\
  lightOn s' = lightOn s /\ heating s' = heating s /\ auxHi s' = auxHi s /\
  jetsLo s' = jetsLo s /\ jetsHi s' = jetsHi s /\ filtering s' = filtering s /\
  setMode s' = setMode s /\ lastStatusByte1 s' = lastStatusByte1 s /\
  lastStatusByte2 s' = lastStatusByte2 s /\ stsI s' = stsI s.
Proof.
  cbv zeta. unfold typeBlock.
  destruct (type display); try (cbn; repeat split; reflexivity).
  - destruct (temp display) as [t|]; [|cbn; repeat split; reflexivity].
    destruct (currentTemp s) as [c|] eqn:Ec; cbv zeta.
    + destruct (Z.eqb_spec t c) as [->|_]; cbn; repeat split; try reflexivity.
      exact Ec.
    + cbn. repeat split; reflexivity.
  - destruct (ecoMode s) eqn:Ee; cbn; repeat split; try reflexivity.
    exact Ee.
Qed.





End ListenerFacts.

Section ListenerAndMonitor.

Lemma interpretDisplay_step
  (now : Z) (h : string) (display : DisplayResult) (ls : Listener.SpaState)
  (ms : CollectionState) :
  listenerView ls = monitorView ms -> flagsMirrorStatus ls ->
  let ls' := fst (Listener.interpretDisplay now h display ls) in
  listenerView ls' = monitorView (updateStateFromDisplay display ms) /\
  flagsMirrorStatus ls' /\
  Listener.ecoMode ls'
  = match type display with ty_eco => true | _ => Listener.ecoMode ls end.
Proof.
  intros Hview Hmirror. cbv zeta. unfold Listener.interpretDisplay.
  pose proof (statusBlock_state display ls Hmirror) as Hsb.
  destruct (Listener.statusBlock display ls) as [s1 l1] eqn:Es.
  cbn [fst] in Hsb. subst s1.
  destruct (typeBlock_state now h display (statusApplied display ls) l1)
    as [Hct [Heco [Hlo [Hh [Hah [Hjl [Hjh [Hf [Hsm [Hl1 [Hl2 _]]]]]]]]]]].
  pose proof (statusApplied_mirrors display ls Hmirror) as Hm2.
  unfold listenerView, monitorView in *. injection Hview as V1 V2 V3 V4 V5 V6 V7 V8 V9.
  split; [|split].
  - rewrite Hct, Hh, Hah, Hjl, Hjh, Hf, Hsm, Hlo, Hl1.
    rewrite update_fields. cbv zeta.
    unfold statusApplied. cbv zeta.
    cbn [Listener.currentTemp Listener.heating Listener.auxHi Listener.jetsLo
         Listener.jetsHi Listener.filtering Listener.setMode Listener.lightOn
         Listener.lastStatusByte1 currentTemp heating auxHi jetsLo jetsHi
         filtering edit lightOn lastStatusByte1].
    rewrite V1, V2, V3, V4, V5, V6, V7, V8, V9. reflexivity.
  - unfold flagsMirrorStatus in *.
    rewrite Hl1, Hl2, Hh, Hah, Hjl, Hjh, Hf, Hsm, Hlo. exact Hm2.
  - rewrite Heco. reflexivity.
Qed.

Lemma listener_monitor_run (hexStrings : list string) :
  listenerView (listenerAfter hexStrings) = monitorView (accumulatorAfter hexStrings) /\
  flagsMirrorStatus (listenerAfter hexStrings) /\
  Listener.ecoMode (listenerAfter hexStrings) = existsb isEco hexStrings.
Proof.
  unfold listenerAfter, accumulatorAfter.
  induction hexStrings as [|h r [IH1 [IH2 IH3]]] using rev_ind.
  - repeat split; reflexivity.
  - rewrite !fold_left_app. cbn [fold_left].
    destruct (interpretDisplay_step 0 h (parseDisplayData h) _ _ IH1 IH2)
      as [H1 [H2 H3]].
    split; [exact H1|]. split; [exact H2|].
    rewrite H3, IH3, existsb_app. cbn [existsb]. unfold isEco.
    destruct (type (parseDisplayData h)); rewrite ?orb_false_r, ?orb_true_r; reflexivity.
Qed.

End ListenerAndMonitor.

(** X22.  The listener's [ecoMode] is a latch: it is true exactly when
    some frame received so far was classified eco, and no later frame
    (a temperature, a time, a blank) ever sets it back to false. *)
Theorem ecoMode_is_a_latch (hexStrings later : list string) :
  Listener.ecoMode (listenerAfter hexStrings) = existsb isEco hexStrings /\
  (Listener.ecoMode (listenerAfter hexStrings) = true ->
   Listener.ecoMode (listenerAfter (hexStrings ++ later)) = true).
Proof.
  destruct (listener_monitor_run hexStrings) as [_ [_ H1]].
  destruct (listener_monitor_run (hexStrings ++ later)) as [_ [_ H2]].
  split; [exact H1|]. intros Ht. rewrite H2, existsb_app, <- H1, Ht. reflexivity.
Qed.

(** The instance of [ecoMode_is_a_latch] at an ECOn frame followed by a
    temperature and a blank frame. *)
Lemma ecoMode_is_a_latch_witness :
  Listener.ecoMode
    (listenerAfter (["545c39790000"] ++ ["717f6f000400"; "000000000000"])) = true.
Proof.
  apply (proj2 (ecoMode_is_a_latch ["545c39790000"]
                  ["717f6f000400"; "000000000000"])).
  reflexivity.
Defined.



Section ListenerMessages.

Lemma parseMessage_step (now : Z) (data : Listener.Payload) (s : Listener.SpaState) :
  flagsMirrorStatus s ->
  let s' := fst (Listener.parseMessage now data s) in
  flagsMirrorStatus s' /\
  Listener.stsI s' = match data with
                     | Listener.Parsed _ (Some v) _ => Some v
                     | _ => Listener.stsI s
                     end.
Proof.
  intros Hm. cbv zeta. destruct data as [|stsR stsI dsp]; [split; [exact Hm|reflexivity]|].
  unfold Listener.parseMessage.
  set (lines0 := match stsR with Some v => [Listener.LogStsR v] | None => [] end).
  assert (Hst : exists s1 l1,
             match stsI with
             | Some v =>
                 if match Listener.stsI s with
                    | Some old => negb (v =? old)
                    | None => true
                    end
                 then (Listener.set_stsI v s, lines0 ++ [Listener.LogStsI v])
                 else (s, lines0)
             | None => (s, lines0)
             end = (s1, l1)
             /\ flagsMirrorStatus s1
             /\ Listener.stsI s1 = match stsI with Some v => Some v | None => Listener.stsI s end).
  { destruct stsI as [v|].
    - destruct (Listener.stsI s) as [old|] eqn:Eold.
      + destruct (Z.eqb_spec v old) as [->|Hne]; cbn [negb].
        * exists s, lines0. split; [reflexivity|]. split; [exact Hm|exact Eold].
        * exists (Listener.set_stsI v s), (lines0 ++ [Listener.LogStsI v]).
          split; [reflexivity|]. split; [exact Hm|reflexivity].
      + exists (Listener.set_stsI v s), (lines0 ++ [Listener.LogStsI v]).
        split; [reflexivity|]. split; [exact Hm|reflexivity].
    - exists s, lines0. split; [reflexivity|]. split; [exact Hm|reflexivity]. }
  destruct Hst as [s1 [l1 [E [Hm1 Hs1]]]]. rewrite E.
  destruct dsp as [|hexString|]; cbn [fst]; try (split; assumption).
  destruct (hexString =? "")%string; cbn [fst]; [split; assumption|].
  unfold Listener.interpretDisplay.
  pose proof (statusBlock_state (parseDisplayData hexString) s1 Hm1) as Hsb.
  destruct (Listener.statusBlock (parseDisplayData hexString) s1) as [s2 l2].
  cbn [fst] in Hsb. subst s2.
  destruct (typeBlock_state now hexString (parseDisplayData hexString)
              (statusApplied (parseDisplayData hexString) s1) l2)
    as [_ [_ [Hlo [Hh [Hah [Hjl [Hjh [Hf [Hsm [Hl1 [Hl2 Hsi]]]]]]]]]]].
  pose proof (statusApplied_mirrors (parseDisplayData hexString) s1 Hm1) as Hm2.
  destruct (Listener.typeBlock now hexString (parseDisplayData hexString)
              (statusApplied (parseDisplayData hexString) s1, l2)) as [s3 l3].
  cbn [fst] in *. split.
  - unfold flagsMirrorStatus in *.
    rewrite Hl1, Hl2, Hh, Hah, Hjl, Hjh, Hf, Hsm, Hlo. exact Hm2.
  - rewrite Hsi. exact Hs1.
Qed.

End ListenerMessages.

(** X24.  Whatever payloads the listener receives (JSON or not, with or
    without a display text, also a [dsp] that is not a string, on which
    the handler throws after the status fields were handled), its
    [state.stsI] is the last [stsI] value received, and its flags mirror
    the status bytes it remembers. *)
Theorem listener_tracks_stsI (now : Z) (payloads : list Listener.Payload) :
  Listener.stsI (listenerRun now payloads) = lastStsI payloads /\
  flagsMirrorStatus (listenerRun now payloads).
Proof.
  unfold listenerRun, lastStsI.
  induction payloads as [|data r [IH1 IH2]] using rev_ind.
  - split; [reflexivity|]. split; [repeat split|reflexivity].
  - rewrite !fold_left_app. cbn [fold_left].
    destruct (parseMessage_step now data _ IH2) as [H1 H2].
    split; [|exact H1]. rewrite H2, IH1.
    destruct data as [|stsR [v|] dsp]; reflexivity.
Qed.

Section ListenerAndSession.

(** What the message callback of the monitor does to [state]. *)
Lemma handle_dsp_state (s : Session) (dspData : string) :
  state (handle s (dspEvent dspData))
  = if (dspData =? "")%string then state s
    else updateStateFromDisplay (parseDisplayData (padDsp dspData)) (state s).
Proof.
  unfold dspEvent. cbn [handle]. rewrite onMessage_frame. unfold frameOf, padDsp.
  destruct (dspData =? "")%string; [reflexivity|].
  cbv zeta.
  set (display := parseDisplayData _).
  destruct (type display), (temp display); try reflexivity.
  destruct (SAMPLE_COUNT <=? _)%nat; reflexivity.
Qed.

(** What [parseMessage] does to the listener's state on a display
    message. *)
Lemma parseMessage_dsp_state
  (now : Z) (dspData : string) (st : Listener.SpaState) :
  fst (Listener.parseMessage now (dspPayload dspData) st)
  = if (dspData =? "")%string then st
    else fst (Listener.interpretDisplay now dspData (parseDisplayData dspData) st).
Proof.
  unfold dspPayload, Listener.parseMessage.
  destruct (dspData =? "")%string; [reflexivity|].
  destruct (Listener.interpretDisplay now dspData (parseDisplayData dspData) st);
    reflexivity.
Qed.

Lemma padDsp_empty (dspData : string) :
  (padDsp dspData =? "")%string = (dspData =? "")%string.
Proof.
  unfold padDsp. destruct (Nat.eqb_spec (String.length dspData) 10) as [E|_];
    [|reflexivity].
  destruct dspData; [discriminate E|reflexivity].
Qed.

Lemma listener_session_run (now : Z) (hexStrings : list string) (db0 : DB.log) :
  listenerView (listenerRun now (map (fun h => dspPayload (padDsp h)) hexStrings))
  = monitorView (state (collectReading (map dspEvent hexStrings) db0)) /\
  flagsMirrorStatus
    (listenerRun now (map (fun h => dspPayload (padDsp h)) hexStrings)).
Proof.
  unfold listenerRun, collectReading.
  induction hexStrings as [|h r [IH1 IH2]] using rev_ind.
  - split; [reflexivity|]. split; [repeat split|reflexivity].
  - rewrite !map_app, !fold_left_app. cbn [map fold_left].
    rewrite handle_dsp_state, parseMessage_dsp_state, padDsp_empty.
    destruct (h =? "")%string; [split; assumption|].
    destruct (interpretDisplay_step now (padDsp h) (parseDisplayData (padDsp h))
                _ _ IH1 IH2) as [H1 [H2 _]].
    split; assumption.
Qed.

Lemma padDsp_other_lengths (hexStrings : list string) :
  Forall (fun h => String.length h <> 10%nat) hexStrings ->
  map (fun h => dspPayload (padDsp h)) hexStrings = map dspPayload hexStrings.
Proof.
  intros Hall. apply map_ext_in. intros h Hin.
  rewrite Forall_forall in Hall. specialize (Hall h Hin).
  unfold padDsp. destruct (Nat.eqb_spec (String.length h) 10); [contradiction|reflexivity].
Qed.

End ListenerAndSession.

(** X21.  The listener and the monitor agree, up to the padding.  The
    monitor pads a [dsp] of ten characters with [00] before it decodes
    it and the listener does not.  For every sequence of display
    messages, the state of the monitor's session after them has the same
    currentTemp, heating, auxHi, jetsLo, jetsHi, filtering,
    set-mode/edit and lightOn values and the same lastStatusByte1 as the
    listener's state after the padded texts; so the two agree on every
    sequence without a text of ten characters, although the listener
    assigns its flags only when a status byte differs from the one it
    remembers.  On a text of ten characters they can differ: after
    [717f6f000410] and [717f6f0004] the light is on for the listener and
    off for the monitor. *)
Theorem listener_agrees_with_monitor
  (now : Z) (hexStrings : list string) (db0 : DB.log) :
  let monitor := state (collectReading (map dspEvent hexStrings) db0) in
  listenerView (listenerRun now (map (fun h => dspPayload (padDsp h)) hexStrings))
  = monitorView monitor /\
  (Forall (fun h => String.length h <> 10%nat) hexStrings ->
   listenerView (listenerRun now (map dspPayload hexStrings)) = monitorView monitor /\
   flagsMirrorStatus (listenerRun now (map dspPayload hexStrings))) /\
  (let texts := ["717f6f000410"; "717f6f0004"] in
   Listener.lightOn (listenerRun now (map dspPayload texts)) = true /\
   lightOn (state (collectReading (map dspEvent texts) db0)) = false).
Proof.
  cbv zeta. destruct (listener_session_run now hexStrings db0) as [H1 H2].
  split; [exact H1|]. split.
  - intros Hall. rewrite <- (padDsp_other_lengths hexStrings Hall). now split.
  - split; reflexivity.
Qed.

(** The instance of [listener_agrees_with_monitor] at a temperature
    frame with the light on followed by a time frame. *)
Lemma listener_agrees_with_monitor_witness :
  let texts := ["717f6f000410"; "3f3f5b068400"] in
  listenerView (listenerRun 0 (map dspPayload texts))
  = monitorView (state (collectReading (map dspEvent texts) [])).
Proof.
  cbv zeta.
  pose proof (listener_agrees_with_monitor 0 ["717f6f000410"; "3f3f5b068400"] [])
    as H.
  cbv zeta in H. destruct H as [_ [H _]].
  destruct H as [H _].
  - repeat constructor; discriminate.
  - exact H.
Defined.
